(** * clevo-indicator: EC register channel, telemetry codec and duty controllers

    A shallow embedding of [src/clevo-indicator.c].  C [int] values are
    modelled as [Z]; C [double] values are modelled as IEEE-754 binary64
    numbers through the executable specification [SpecFloat] of the
    standard library (round to nearest, ties to even, as the C code is
    evaluated on x86-64 with SSE2 arithmetic).  Calls that reach the outside
    world (port I/O, sysfs files, stdin) are modelled either by an explicit
    device state threaded through a small state monad (register channel) or
    by per-cycle input records (control loops). *)

From Stdlib Require Import ZArith List Bool Lia String Ascii.
From Stdlib Require Import Floats.SpecFloat.
From Stdlib Require Import DecimalString.
Import ListNotations.
Local Open Scope Z_scope.

(* ===================================================================== *)
(** * C integers *)
(* ===================================================================== *)

Definition EXIT_SUCCESS : Z := 0.
Definition EXIT_FAILURE : Z := 1.

Definition INT_MIN : Z := - 2 ^ 31.
Definition INT_MAX : Z := 2 ^ 31 - 1.

(** Two's complement reduction of a mathematical integer to a 32-bit [int]. *)
Definition wrap32 (z : Z) : Z := (z + 2 ^ 31) mod 2 ^ 32 - 2 ^ 31.

(** [a += b] on [int] (wrapping as the target does). *)
Definition add32 (a b : Z) : Z := wrap32 (a + b).

(** Truth value of a C integer used as a condition. *)
Definition c_true (z : Z) : bool := negb (z =? 0).

(* ===================================================================== *)
(** * C doubles (binary64) *)
(* ===================================================================== *)

Module Double.
Definition prec : Z := 53.
Definition emax : Z := 1024.
Definition t : Type := spec_float.

(** [(double) z] for an [int] z: exact, every 32-bit integer fits. *)
Definition of_int (z : Z) : t := binary_normalize prec emax z 0 false.
(** The literal [m * 2^e]. *)
Definition lit (m e : Z) : t := binary_normalize prec emax m e false.

Definition add : t -> t -> t := SFadd prec emax.
Definition sub : t -> t -> t := SFsub prec emax.
Definition mul : t -> t -> t := SFmul prec emax.
Definition div : t -> t -> t := SFdiv prec emax.
Definition ltb : t -> t -> bool := SFltb.
Definition leb : t -> t -> bool := SFleb.
Definition gtb (x y : t) : bool := SFltb y x.
Definition geb (x y : t) : bool := SFleb y x.

(** [(int) x]: truncation toward zero.  Outside the range of [int] (and
    for infinities and NaN) the conversion instruction of the target
    yields [INT_MIN]. *)
Definition to_int (x : t) : Z :=
  match x with
  | S754_zero _ => 0
  | S754_finite s m e =>
      let mag := match e with
                 | Z0 => Zpos m
                 | Zpos p => Zpos m * 2 ^ Zpos p
                 | Zneg p => Zpos m / 2 ^ Zpos p
                 end in
      let v := if s then - mag else mag in
      if (INT_MIN <=? v) && (v <=? INT_MAX) then v else INT_MIN
  | _ => INT_MIN
  end.

Definition half : t := lit 1 (-1).
End Double.

(* ===================================================================== *)
(** * Shared control block *)
(* ===================================================================== *)

Record share_info_t : Type := mkShare {
  exit : Z;
  cpu_temp : Z;
  gpu_temp : Z;
  fan_duty : Z;
  fan_rpms : Z;
  auto_duty : Z;
  auto_duty_val : Z;
  manual_next_fan_duty : Z;
  manual_prev_fan_duty : Z
}.

(** [main_init_share]: the block as the parent creates it before forking. *)
Definition main_init_share : share_info_t :=
  mkShare 0 0 0 0 0 1 0 0 0.

(* ===================================================================== *)
(** * Telemetry codec *)
(* ===================================================================== *)

(** [calculate_fan_duty]:
    [(int) ((double) raw_duty / 255.0 * 100.0 + 0.5)]. *)
Definition calculate_fan_duty (raw_duty : Z) : Z :=
  Double.to_int
    (Double.add
       (Double.mul (Double.div (Double.of_int raw_duty) (Double.of_int 255))
                   (Double.of_int 100))
       Double.half).

(** The raw PWM byte computed by [ec_write_cpu_fan_duty] and
    [ec_write_gpu_fan_duty]:
    [v_d = ((double) duty_percentage) / 100.0 * 255.0 + 0.5; v_i = (int) v_d]. *)
Definition duty_to_raw (duty_percentage : Z) : Z :=
  Double.to_int
    (Double.add
       (Double.mul (Double.div (Double.of_int duty_percentage) (Double.of_int 100))
                   (Double.of_int 255))
       Double.half).

(** [calculate_fan_rpms]. *)
Definition calculate_fan_rpms (raw_rpm_high raw_rpm_low : Z) : Z :=
  let raw_rpm := Z.shiftl raw_rpm_high 8 + raw_rpm_low in
  if raw_rpm >? 0 then Z.quot 2156220 raw_rpm else 0.

(* ===================================================================== *)
(** * Stepped single-sensor ladder *)
(* ===================================================================== *)

(** [ec_auto_duty_adjust], reading the shared block. *)
Definition ec_auto_duty_adjust (share_info : share_info_t) : Z :=
  let temp := Z.max (cpu_temp share_info) (gpu_temp share_info) in
  let duty := fan_duty share_info in
  if (temp >=? 80) && (duty <? 100) then 100 else
  if (temp >=? 70) && (duty <? 90) then 90 else
  if (temp >=? 60) && (duty <? 80) then 80 else
  if (temp >=? 55) && (duty <? 70) then 70 else
  if (temp >=? 40) && (duty <? 60) then 60 else
  if (temp >=? 30) && (duty <? 50) then 50 else
  if (temp >=? 20) && (duty <? 40) then 40 else
  if (temp >=? 10) && (duty <? 30) then 30 else
  if (temp <=? 15) && (duty >? 30) then 30 else
  if (temp <=? 25) && (duty >? 40) then 40 else
  if (temp <=? 35) && (duty >? 50) then 50 else
  if (temp <=? 45) && (duty >? 60) then 60 else
  if (temp <=? 55) && (duty >? 70) then 70 else
  if (temp <=? 65) && (duty >? 80) then 80 else
  if (temp <=? 75) && (duty >? 90) then 90 else
  100.

(** The two threshold tables, as (threshold, duty) rows in evaluation order. *)
Definition rising_table : list (Z * Z) :=
  [(80, 100); (70, 90); (60, 80); (55, 70); (40, 60); (30, 50); (20, 40); (10, 30)].
Definition falling_table : list (Z * Z) :=
  [(15, 30); (25, 40); (35, 50); (45, 60); (55, 70); (65, 80); (75, 90)].

(** First row of a table whose condition holds. *)
Fixpoint first_row (cond : Z * Z -> bool) (tbl : list (Z * Z)) : option Z :=
  match tbl with
  | [] => None
  | row :: rest => if cond row then Some (snd row) else first_row cond rest
  end.

(** The ladder as the specification words it: rows keyed on the temperature
    alone, rising table first, then the falling table, else 100. *)
Definition ladder_stated (temp : Z) : Z :=
  match first_row (fun row => temp >=? fst row) rising_table with
  | Some d => d
  | None =>
      match first_row (fun row => temp <=? fst row) falling_table with
      | Some d => d
      | None => 100
      end
  end.

(** The ladder with the duty guards of the code: a rising row fires only
    below its target duty, a falling row only above it. *)
Definition ladder_guarded (temp duty : Z) : Z :=
  match first_row (fun row => (temp >=? fst row) && (duty <? snd row)) rising_table with
  | Some d => d
  | None =>
      match first_row (fun row => (temp <=? fst row) && (duty >? snd row)) falling_table with
      | Some d => d
      | None => 100
      end
  end.

(* ===================================================================== *)
(** * Text scanning ([sscanf] with a [%d] conversion) *)
(* ===================================================================== *)

Definition is_space (c : ascii) : bool :=
  let n := nat_of_ascii c in
  (Nat.eqb n 32) || ((Nat.leb 9 n) && (Nat.leb n 13)).

Definition digit_of (c : ascii) : option Z :=
  let n := nat_of_ascii c in
  if (Nat.leb 48 n) && (Nat.leb n 57) then Some (Z.of_nat n - 48) else None.

Fixpoint skip_space (s : string) : string :=
  match s with
  | String c r => if is_space c then skip_space r else s
  | EmptyString => s
  end.

(** Longest prefix of decimal digits; [None] when there is no digit. *)
Fixpoint scan_digits (s : string) (acc : option Z) : option Z :=
  match s with
  | String c r =>
      match digit_of c with
      | Some d => scan_digits r (Some (10 * match acc with Some a => a | None => 0 end + d))
      | None => acc
      end
  | EmptyString => acc
  end.

Definition LONG_MIN : Z := - 2 ^ 63.
Definition LONG_MAX : Z := 2 ^ 63 - 1.

(** The [%d] conversion: optional blanks, optional sign, digits.  The C
    library converts through [long] (saturating) and stores the low 32 bits. *)
Definition scan_int (s : string) : option Z :=
  let s := skip_space s in
  let r := match s with
           | String "-"%char r => option_map Z.opp (scan_digits r None)
           | String "+"%char r => scan_digits r None
           | _ => scan_digits s None
           end in
  option_map (fun v => wrap32 (Z.max LONG_MIN (Z.min LONG_MAX v))) r.

(** [strncmp (buffer, key, length key) == 0] for a key without NUL. *)
Fixpoint strip_prefix (key s : string) : option string :=
  match key with
  | EmptyString => Some s
  | String k key' =>
      match s with
      | String c r => if Ascii.eqb k c then strip_prefix key' r else None
      | EmptyString => None
      end
  end.

(** [sscanf (buffer, "<key> %d", &var)]: the variable keeps its value when
    the conversion fails. *)
Definition sscanf_key (key buffer : string) (var : Z) : Z :=
  match strip_prefix key buffer with
  | Some rest => match scan_int rest with Some v => v | None => var end
  | None => var
  end.

(** [fgets (buffer, size, fp)] on a freshly opened file with the given text:
    at most [size - 1] characters, up to and including the first newline.
    (On an empty file [fgets] stores nothing; the buffer then still holds the
    path, which starts with a slash, and the [%d] conversion fails on it
    just as it does on the empty string.) *)
Fixpoint fgets_chars (n : nat) (s : string) : string :=
  match n with
  | O => EmptyString
  | S n' =>
      match s with
      | EmptyString => EmptyString
      | String c r => if Ascii.eqb c "010"%char then String c EmptyString
                      else String c (fgets_chars n' r)
      end
  end.

Definition fgets (size : nat) (text : string) : string :=
  fgets_chars (size - 1) text.

(* ===================================================================== *)
(** * EC register channel *)
(* ===================================================================== *)

Definition EC_SC : Z := 0x66.
Definition EC_DATA : Z := 0x62.
Definition IBF : Z := 1.
Definition OBF : Z := 0.
Definition EC_SC_READ_CMD : Z := 0x80.

Definition EC_REG_SIZE : Z := 0x100.
Definition EC_REG_CPU_FAN_DUTY : Z := 0xCE.
Definition EC_REG_CPU_TEMP : Z := 0x07.
Definition EC_REG_CPU_FAN_RPMS_HI : Z := 0xD0.
Definition EC_REG_CPU_FAN_RPMS_LO : Z := 0xD1.
Definition EC_REG_GPU_FAN_RPMS_HI : Z := 0xD2.
Definition EC_REG_GPU_FAN_RPMS_LO : Z := 0xD3.
Definition EC_REG_GPU_TEMP : Z := 0xCD.
Definition EC_REG_GPU_FAN_DUTY : Z := 0xCF.

(** The outside world seen by the register channel. *)
Record machine (Dev : Type) : Type := mkMachine {
  (** [inb (port)] *)
  inb : Z -> Dev -> Z * Dev;
  (** [outb (value, port)] *)
  outb : Z -> Z -> Dev -> Dev;
  (** [usleep (usec)] *)
  usleep : Z -> Dev -> Dev;
  (** [fopen (".../hwmon<num>/<attr>", "rb")]: the file's text, or [None]
      when it cannot be opened. *)
  fopen_rb : Z -> string -> Dev -> option string;
  (** [fopen (".../hwmon<num>/<attr>", "wb")] succeeds. *)
  fopen_wb : Z -> string -> Dev -> bool;
  (** [fprintf (fp, "%d\n", v)] on the attribute, then [fclose]. *)
  fprintf_d : Z -> string -> Z -> Dev -> Dev
}.
Arguments inb {Dev}.
Arguments outb {Dev}.
Arguments usleep {Dev}.
Arguments fopen_rb {Dev}.
Arguments fopen_wb {Dev}.
Arguments fprintf_d {Dev}.

Section Channel.
Context {Dev : Type}.
Variable hw : machine Dev.
(** The globals [use_hwmon_interface] and [hwmon_interface_num]. *)
Variable use_hwmon_interface : Z.
Variable hwmon_interface_num : Z.
(** What an uninitialised [int val] holds when [sscanf] converts nothing. *)
Variable uninit : Z.

(** State-passing computations over the device. *)
Definition io (A : Type) : Type := Dev -> A * Dev.
Definition ret {A} (a : A) : io A := fun d => (a, d).
Definition bind {A B} (c : io A) (k : A -> io B) : io B :=
  fun d => let (a, d') := c d in k a d'.
Definition act (f : Dev -> Dev) : io unit := fun d => (tt, f d).

Notation "x <- c ;; k" := (bind c (fun x => k))
  (at level 61, c at next level, right associativity).
Notation "c ;;; k" := (bind c (fun _ => k))
  (at level 61, right associativity).

(** The [while] loop of [ec_io_wait]:
    [while ((((data >> flag) & 0x1) != value) && (i++ < 100))].
    It yields the final [data] and [i].  [fuel] bounds the number of loop
    tests; 101 tests always suffice (lemma [ec_io_wait_loop_fuel]). *)
Fixpoint ec_io_wait_loop (fuel : nat) (port flag value data i : Z) : io (Z * Z) :=
  match fuel with
  | O => ret (data, i)
  | S fuel' =>
      if negb (Z.land (Z.shiftr data flag) 1 =? value) then
        if i <? 100 then
          act (usleep hw 1000) ;;;
          d <- inb hw port ;;
          ec_io_wait_loop fuel' port flag value (d mod 256) (i + 1)
        else ret (data, i + 1)
      else ret (data, i)
  end.

Definition ec_io_wait (port flag value : Z) : io Z :=
  d <- inb hw port ;;
  r <- ec_io_wait_loop 101 port flag value (d mod 256) 0 ;;
  if snd r >=? 1000 then ret EXIT_FAILURE else ret EXIT_SUCCESS.

Definition ec_io_read (port : Z) : io Z :=
  ec_io_wait EC_SC IBF 0 ;;;
  act (outb hw EC_SC_READ_CMD EC_SC) ;;;
  ec_io_wait EC_SC IBF 0 ;;;
  act (outb hw port EC_DATA) ;;;
  ec_io_wait EC_SC OBF 1 ;;;
  value <- inb hw EC_DATA ;;
  ret (value mod 256).

Definition ec_io_do (cmd port value : Z) : io Z :=
  ec_io_wait EC_SC IBF 0 ;;;
  act (outb hw cmd EC_SC) ;;;
  ec_io_wait EC_SC IBF 0 ;;;
  act (outb hw port EC_DATA) ;;;
  ec_io_wait EC_SC IBF 0 ;;;
  act (outb hw (value mod 256) EC_DATA) ;;;
  ec_io_wait EC_SC IBF 0.

(** The hwmon branch shared by the query functions: open the attribute,
    [fgets] one line into the buffer that still holds the path, and
    convert it with [sscanf (name, "%d\n", &val)]. *)
Definition hwmon_scan (text : string) : Z :=
  match scan_int (fgets 1023 text) with
  | Some v => v
  | None => uninit
  end.

Definition ec_query_cpu_temp : io Z :=
  if c_true use_hwmon_interface then
    fun d =>
      match fopen_rb hw hwmon_interface_num "temp1_input" d with
      | None => (99, d)
      | Some text => (Z.quot (hwmon_scan text) 1000, d)
      end
  else ec_io_read EC_REG_CPU_TEMP.

Definition ec_query_gpu_temp : io Z :=
  ec_io_read EC_REG_GPU_TEMP.

Definition ec_query_cpu_fan_duty : io Z :=
  if c_true use_hwmon_interface then
    fun d =>
      match fopen_rb hw hwmon_interface_num "pwm1" d with
      | None => (99, d)
      | Some text => (calculate_fan_duty (hwmon_scan text), d)
      end
  else
    raw_duty <- ec_io_read EC_REG_CPU_FAN_DUTY ;;
    ret (calculate_fan_duty raw_duty).

Definition ec_query_cpu_fan_rpms : io Z :=
  if c_true use_hwmon_interface then
    fun d =>
      match fopen_rb hw hwmon_interface_num "fan1_input" d with
      | None => (99, d)
      | Some text => (hwmon_scan text, d)
      end
  else
    raw_rpm_hi <- ec_io_read EC_REG_CPU_FAN_RPMS_HI ;;
    raw_rpm_lo <- ec_io_read EC_REG_CPU_FAN_RPMS_LO ;;
    ret (calculate_fan_rpms raw_rpm_hi raw_rpm_lo).

Definition ec_query_gpu_fan_duty : io Z :=
  if c_true use_hwmon_interface then
    fun d =>
      match fopen_rb hw hwmon_interface_num "pwm2" d with
      | None => (99, d)
      | Some text => (calculate_fan_duty (hwmon_scan text), d)
      end
  else
    raw_duty <- ec_io_read EC_REG_GPU_FAN_DUTY ;;
    ret (calculate_fan_duty raw_duty).

Definition ec_query_gpu_fan_rpms : io Z :=
  if c_true use_hwmon_interface then
    fun d =>
      match fopen_rb hw hwmon_interface_num "fan2_input" d with
      | None => (99, d)
      | Some text => (hwmon_scan text, d)
      end
  else
    raw_rpm_hi <- ec_io_read EC_REG_GPU_FAN_RPMS_HI ;;
    raw_rpm_lo <- ec_io_read EC_REG_GPU_FAN_RPMS_LO ;;
    ret (calculate_fan_rpms raw_rpm_hi raw_rpm_lo).

Definition ec_write_cpu_fan_duty (duty_percentage : Z) : io Z :=
  if (duty_percentage <? 0) || (duty_percentage >? 100) then ret EXIT_FAILURE
  else
    let v_i := duty_to_raw duty_percentage in
    if c_true use_hwmon_interface then
      fun d =>
        if fopen_wb hw hwmon_interface_num "pwm1" d
        then (0, fprintf_d hw hwmon_interface_num "pwm1" v_i d)
        else (99, d)
    else ec_io_do 0x99 0x01 v_i.

Definition ec_write_gpu_fan_duty (duty_percentage : Z) : io Z :=
  if (duty_percentage <? 0) || (duty_percentage >? 100) then ret EXIT_FAILURE
  else
    let v_i := duty_to_raw duty_percentage in
    if c_true use_hwmon_interface then
      fun d =>
        if fopen_wb hw hwmon_interface_num "pwm2" d
        then (0, fprintf_d hw hwmon_interface_num "pwm2" v_i d)
        else (99, d)
    else ec_io_do 0x99 0x02 v_i.
End Channel.

(** A controller whose status port never clears "input buffer full" and never
    raises "output buffer full": every status read is [0x02].  The device
    state records the number of port reads and the bytes written. *)
Record stuck_state : Type := mkStuck { port_reads : Z; port_writes : list (Z * Z) }.

Definition stuck_ec : machine stuck_state := {|
  inb := fun port d =>
    (if port =? EC_SC then 0x02 else 0xFF,
     mkStuck (port_reads d + 1) (port_writes d));
  outb := fun value port d => mkStuck (port_reads d) (port_writes d ++ [(value, port)]);
  usleep := fun _ d => d;
  fopen_rb := fun _ _ _ => None;
  fopen_wb := fun _ _ _ => false;
  fprintf_d := fun _ _ _ d => d
|}.

(** A machine whose sysfs attributes are given by a table; ports read zero. *)
Definition sysfs_machine (files : Z -> string -> option string) : machine unit := {|
  inb := fun _ d => (0, d);
  outb := fun _ _ d => d;
  usleep := fun _ d => d;
  fopen_rb := fun num attr _ => files num attr;
  fopen_wb := fun num attr _ => match files num attr with Some _ => true | None => false end;
  fprintf_d := fun _ _ _ d => d
|}.

(* ===================================================================== *)
(** * Dual-sensor loop ([autoset_cpu_gpu]) *)
(* ===================================================================== *)

Definition TEMP_FAIL_THRESHOLD : Z := 15.

(** Locals of [autoset_cpu_gpu] that live across iterations, and its
    function-level statics.  The two-element arrays are pairs: the first
    component is index 0 (CPU), the second index 1 (GPU). *)
Record session : Type := mkSession {
  initial : Z;
  current : Z * Z;
  lastCPU : Double.t;
  lastGPU : Double.t;
  repeatCheck : Z * Z;
  lastfail : Z;
  missing : Z;
  ctrl_check : Z;
  ctrl_setting_offset_cpu : Z;
  ctrl_setting_offset_gpu : Z;
  ctrl_setting_min_cpu : Z;
  ctrl_setting_min_gpu : Z;
  ctrl_setting_force_cpu : Z;
  ctrl_setting_force_gpu : Z
}.

Definition session_start : session :=
  mkSession 1 (0, 0) (Double.of_int 0) (Double.of_int 0) (0, 0) 0 0 0
            0 0 0 0 (-1) (-1).

(** What one iteration of the loop receives from outside. *)
Record cycle_input : Type := mkInput {
  (** [atoi (buffer)] after each 3-byte [read] of the drain loop, in order. *)
  stdin_tokens : list Z;
  (** [/tmp/clevo_fan_ctrl]: [None] when [fopen] fails, else the content of
      [buffer] at each pass of the [while (!feof (ctrl_file))] loop. *)
  ctrl_file : option (list string);
  (** Result of the n-th call of [ec_query_cpu_temp] in the retry loop. *)
  cpu_temp_reads : nat -> Z;
  (** [ec_query_cpu_fan_duty ()] and [ec_query_gpu_fan_duty ()]. *)
  cur_cpu_setting : Z;
  cur_gpu_setting : Z;
  (** Return value of the j-th write attempt on channel i and the duty read
      back after it ([false] is channel 0, [true] is channel 1). *)
  write_result : bool -> nat -> Z;
  verify_read : bool -> nat -> Z
}.

(** Calls of the duty writers, in program order. *)
Inductive call : Type :=
| Write_cpu (duty_percentage : Z)
| Write_gpu (duty_percentage : Z).

Inductive outcome : Type :=
| Continue (s : session)
| Exit (status : Z).

Definition D (z : Z) : Double.t := Double.of_int z.

(** One pass of the control-file loop (lines 230-235). *)
Definition ctrl_update (guard key buffer : string) (var : Z) : Z :=
  match strip_prefix guard buffer with
  | Some _ => sscanf_key key buffer var
  | None => var
  end.

Definition ctrl_line (s : session) (buffer : string) : session :=
  mkSession (initial s) (current s) (lastCPU s) (lastGPU s) (repeatCheck s)
    (lastfail s) (missing s) (ctrl_check s)
    (ctrl_update "offset_cpu" "offset_cpu" buffer (ctrl_setting_offset_cpu s))
    (ctrl_update "offset_gpu" "offset_gpu" buffer (ctrl_setting_offset_gpu s))
    (ctrl_update "min_cpu" "min_cpu" buffer (ctrl_setting_min_cpu s))
    (ctrl_update "min_gpu" "min_gpu" buffer (ctrl_setting_min_gpu s))
    (ctrl_update "force_c" "force_cpu" buffer (ctrl_setting_force_cpu s))
    (ctrl_update "force_g" "force_gpu" buffer (ctrl_setting_force_gpu s)).

(** [if (ctrl_check++ >= 3) { ctrl_check = 0; ... }] (lines 219-240). *)
Definition ctrl_reload (inp : cycle_input) (s : session) : session :=
  let s1 := mkSession (initial s) (current s) (lastCPU s) (lastGPU s)
              (repeatCheck s) (lastfail s) (missing s)
              (if ctrl_check s >=? 3 then 0 else ctrl_check s + 1)
              (ctrl_setting_offset_cpu s) (ctrl_setting_offset_gpu s)
              (ctrl_setting_min_cpu s) (ctrl_setting_min_gpu s)
              (ctrl_setting_force_cpu s) (ctrl_setting_force_gpu s) in
  if ctrl_check s >=? 3 then
    match ctrl_file inp with
    | Some buffers => fold_left ctrl_line buffers s1
    | None => s1
    end
  else s1.

(** The retry loop on the CPU temperature (lines 242-246). *)
Fixpoint cputemp_tries (n tries : nat) (reads : nat -> Z) (lastCPU : Double.t)
    (cputemp : Double.t) : Double.t :=
  match n with
  | O => cputemp
  | S n' =>
      let cputemp := D (reads tries) in
      if Double.ltb cputemp (D 100) || Double.ltb cputemp (Double.add lastCPU (D 20))
      then cputemp
      else cputemp_tries n' (S tries) reads lastCPU cputemp
  end.

(** [cputemp] as the rest of the cycle sees it: after the retry loop and the
    clamp [if (cputemp < lastCPU - 10) cputemp = lastCPU - 10] (line 247). *)
Definition cycle_cputemp (inp : cycle_input) (s : session) : Double.t :=
  let cputemp := cputemp_tries 3 0 (cpu_temp_reads inp) (lastCPU s) (D 0) in
  if Double.ltb cputemp (Double.sub (lastCPU s) (D 10))
  then Double.sub (lastCPU s) (D 10) else cputemp.

(** [gputemp]: the last token drained from stdin (lines 206-215). *)
Definition cycle_gputemp (inp : cycle_input) : Double.t :=
  D (last (stdin_tokens inp) 0).

(** Lines 252-255. *)
Definition gpu_rescale (gputemp : Double.t) : Double.t :=
  if Double.leb gputemp (D 65) then Double.sub gputemp (D 10)
  else if Double.ltb gputemp (D 75)
       then Double.sub gputemp (Double.sub (D 75) gputemp)
       else gputemp.

(** Lines 257-267. *)
Definition blend (cputemp gputemptmp : Double.t) : Double.t * Double.t :=
  if Double.gtb cputemp gputemptmp
  then (cputemp,
        Double.div (Double.add (Double.mul (D 2) gputemptmp) cputemp) (D 3))
  else (Double.div (Double.add (Double.mul (D 2) cputemp) gputemptmp) (D 3),
        gputemptmp).

(** Lines 268-269: [if (last > 30) avg = (2 * avg + last) / 3]. *)
Definition smooth (last avg : Double.t) : Double.t :=
  if Double.gtb last (D 30)
  then Double.div (Double.add (Double.mul (D 2) avg) last) (D 3)
  else avg.

(** The smoothed pair [avg] of the cycle. *)
Definition cycle_avg (inp : cycle_input) (s : session) : Double.t * Double.t :=
  let avg := blend (cycle_cputemp inp s) (gpu_rescale (cycle_gputemp inp)) in
  (smooth (lastCPU s) (fst avg), smooth (lastGPU s) (snd avg)).

(** Lines 276-280: the four-segment curve, with the conversion to [int]. *)
Definition curve (avg : Double.t) : Z :=
  if Double.leb avg (D 40) then 0
  else if Double.leb avg (D 45) then 15
  else if Double.leb avg (D 75) then Double.to_int (Double.sub avg (D 30))
  else if Double.leb avg (D 90)
       then Double.to_int (Double.add (Double.mul (Double.sub avg (D 75)) (D 3)) (D 45))
       else 100.

(** Lines 283-289: control-file overrides and the final cap. *)
Definition overrides (s : session) (setDuty : Z * Z) : Z * Z :=
  let setDuty0 := fst setDuty in
  let setDuty1 := snd setDuty in
  let setDuty0 := if c_true (ctrl_setting_offset_cpu s)
                  then add32 setDuty0 (ctrl_setting_offset_cpu s) else setDuty0 in
  let setDuty1 := if c_true (ctrl_setting_offset_gpu s)
                  then add32 setDuty1 (ctrl_setting_offset_gpu s) else setDuty1 in
  let setDuty0 := if ctrl_setting_min_cpu s >? setDuty0
                  then ctrl_setting_min_cpu s else setDuty0 in
  let setDuty1 := if ctrl_setting_min_gpu s >? setDuty1
                  then ctrl_setting_min_gpu s else setDuty1 in
  let setDuty0 := if negb (ctrl_setting_force_cpu s =? -1)
                  then ctrl_setting_force_cpu s else setDuty0 in
  let setDuty1 := if negb (ctrl_setting_force_gpu s =? -1)
                  then ctrl_setting_force_gpu s else setDuty1 in
  (if setDuty0 >? 100 then 100 else setDuty0,
   if setDuty1 >? 100 then 100 else setDuty1).

(** Lines 294-306 for one channel: yields [doSet[i]] and [repeatCheck[i]]. *)
Definition rate_limit (current setDuty repeatCheck : Z) : Z * Z :=
  let r :=
    if (current =? 0) && negb (setDuty =? 0) then (1, repeatCheck)
    else if (setDuty >? current) && (setDuty >? 50) then (1, repeatCheck)
    else if setDuty >? add32 current 1 then (1, repeatCheck)
    else if setDuty <? add32 current (-5) then (1, repeatCheck)
    else if setDuty <? current then
      if repeatCheck >=? 4 then (1, repeatCheck) else (0, repeatCheck + 1)
    else (0, repeatCheck) in
  (fst r, if c_true (fst r) then 0 else snd r).

(** Lines 309-318: the first cycle, and the re-sync with the hardware.
    Yields [initial], [doSet] and [setDuty]. *)
Definition resync (inp : cycle_input) (initial : Z) (current doSet setDuty : Z * Z)
    : Z * (Z * Z) * (Z * Z) :=
  if c_true initial then (0, (1, 1), setDuty)
  else if negb (cur_cpu_setting inp =? fst current)
          || negb (cur_gpu_setting inp =? snd current)
  then (initial, (1, 1),
        (if fst setDuty <? fst current then fst current else fst setDuty,
         if snd setDuty <? snd current then snd current else snd setDuty))
  else (initial, doSet, setDuty).

(** The test of line 320. *)
Definition temp_fail (cputemp gputemp : Double.t) : bool :=
  Double.ltb cputemp (D TEMP_FAIL_THRESHOLD)
  || Double.ltb gputemp (D TEMP_FAIL_THRESHOLD).

(** Lines 320-337.  Yields [lastfail], [doSet] and [setDuty]. *)
Definition fault_guard (fail : bool) (lastfail : Z) (doSet setDuty : Z * Z)
    : Z * (Z * Z) * (Z * Z) :=
  if fail then
    if lastfail >=? 1 then
      (lastfail, (1, 1),
       (if fst setDuty <? 50 then 50 else fst setDuty,
        if snd setDuty <? 50 then 50 else snd setDuty))
    else (lastfail + 1, (0, 0), setDuty)
  else (0, doSet, setDuty).

(** Lines 347-360: up to [n] attempts to write and verify one channel,
    starting with attempt [j]. *)
Fixpoint write_attempts (n j : nat) (inp : cycle_input) (i : bool) (duty : Z)
    : list call :=
  match n with
  | O => []
  | S n' =>
      (if i then Write_gpu duty else Write_cpu duty) ::
      (if (write_result inp i j =? EXIT_SUCCESS) && (verify_read inp i j =? duty)
       then []
       else write_attempts n' (S j) inp i duty)
  end.

(** Lines 341-362: yields [current] and the writer calls. *)
Definition apply_duty (inp : cycle_input) (current doSet setDuty : Z * Z)
    : (Z * Z) * list call :=
  ((if c_true (fst doSet) then fst setDuty else fst current,
    if c_true (snd doSet) then snd setDuty else snd current),
   (if c_true (fst doSet) then write_attempts 3 0 inp false (fst setDuty) else [])
   ++ (if c_true (snd doSet) then write_attempts 3 0 inp true (snd setDuty) else [])).

(** The body of [if (found) { ... }] (lines 219-363). *)
Definition found_cycle (inp : cycle_input) (s0 : session) : session * list call :=
  let s := ctrl_reload inp s0 in
  let cputemp := cycle_cputemp inp s in
  let gputemp := cycle_gputemp inp in
  let avg := cycle_avg inp s in
  let lastCPU' := if Double.geb cputemp (D TEMP_FAIL_THRESHOLD) then fst avg else lastCPU s in
  let lastGPU' := if Double.geb gputemp (D TEMP_FAIL_THRESHOLD) then snd avg else lastGPU s in
  let setDuty := overrides s (curve (fst avg), curve (snd avg)) in
  let rl0 := rate_limit (fst (current s)) (fst setDuty) (fst (repeatCheck s)) in
  let rl1 := rate_limit (snd (current s)) (snd setDuty) (snd (repeatCheck s)) in
  let '(initial', doSet, setDuty) :=
    resync inp (initial s) (current s) (fst rl0, fst rl1) setDuty in
  let '(lastfail', doSet, setDuty) :=
    fault_guard (temp_fail cputemp gputemp) (lastfail s) doSet setDuty in
  let '(current', calls) := apply_duty inp (current s) doSet setDuty in
  (mkSession initial' current' lastCPU' lastGPU' (snd rl0, snd rl1) lastfail' 0
     (ctrl_check s)
     (ctrl_setting_offset_cpu s) (ctrl_setting_offset_gpu s)
     (ctrl_setting_min_cpu s) (ctrl_setting_min_gpu s)
     (ctrl_setting_force_cpu s) (ctrl_setting_force_gpu s),
   calls).

(** [missing++] (line 367). *)
Definition missed_cycle (s : session) : session :=
  mkSession (initial s) (current s) (lastCPU s) (lastGPU s) (repeatCheck s)
    (lastfail s) (missing s + 1) (ctrl_check s)
    (ctrl_setting_offset_cpu s) (ctrl_setting_offset_gpu s)
    (ctrl_setting_min_cpu s) (ctrl_setting_min_gpu s)
    (ctrl_setting_force_cpu s) (ctrl_setting_force_gpu s).

(** One iteration of [while (1)] (lines 193-370). *)
Definition iteration (inp : cycle_input) (s : session) : outcome * list call :=
  if missing s >? 5 then (Exit 1, [Write_gpu 70; Write_cpu 70])
  else
    match stdin_tokens inp with
    | _ :: _ => let (s', calls) := found_cycle inp s in (Continue s', calls)
    | [] => (Continue (missed_cycle s), [])
    end.

(** The loop over a finite prefix of the input history: it stops at the first
    [exit]; the calls of all iterations are collected in order. *)
Fixpoint run (inputs : list cycle_input) (s : session) : outcome * list call :=
  match inputs with
  | [] => (Continue s, [])
  | inp :: rest =>
      match iteration inp s with
      | (Continue s', calls) =>
          let (o, calls') := run rest s' in (o, calls ++ calls')
      | (Exit status, calls) => (Exit status, calls)
      end
  end.

(** [autoset_cpu_gpu]: the scheduler call, then the loop. *)
Definition autoset_cpu_gpu (sched_setscheduler : Z) (inputs : list cycle_input)
    : outcome * list call :=
  if negb (sched_setscheduler =? 0) then (Exit EXIT_FAILURE, [])
  else run inputs session_start.

(** Input records used in examples. *)
Definition silent : cycle_input :=
  mkInput [] None (fun _ => 0) 0 0 (fun _ _ => EXIT_SUCCESS) (fun _ _ => 0).

(** A cycle with one GPU token, a steady CPU reading, hardware duties as
    reported, and writes that succeed and verify at the first attempt. *)
Definition sample (cpu gpu cur_cpu cur_gpu : Z) (verify : Z * Z) : cycle_input :=
  mkInput [gpu] None (fun _ => cpu) cur_cpu cur_gpu (fun _ _ => EXIT_SUCCESS)
          (fun i _ => if i then snd verify else fst verify).

(* ===================================================================== *)
(** * Privilege-separated worker model *)
(* ===================================================================== *)

(** Stores to the fields of the shared block. *)
Definition set_exit (v : Z) (s : share_info_t) : share_info_t :=
  mkShare v (cpu_temp s) (gpu_temp s) (fan_duty s) (fan_rpms s) (auto_duty s)
          (auto_duty_val s) (manual_next_fan_duty s) (manual_prev_fan_duty s).
Definition set_cpu_temp (v : Z) (s : share_info_t) : share_info_t :=
  mkShare (exit s) v (gpu_temp s) (fan_duty s) (fan_rpms s) (auto_duty s)
          (auto_duty_val s) (manual_next_fan_duty s) (manual_prev_fan_duty s).
Definition set_gpu_temp (v : Z) (s : share_info_t) : share_info_t :=
  mkShare (exit s) (cpu_temp s) v (fan_duty s) (fan_rpms s) (auto_duty s)
          (auto_duty_val s) (manual_next_fan_duty s) (manual_prev_fan_duty s).
Definition set_fan_duty (v : Z) (s : share_info_t) : share_info_t :=
  mkShare (exit s) (cpu_temp s) (gpu_temp s) v (fan_rpms s) (auto_duty s)
          (auto_duty_val s) (manual_next_fan_duty s) (manual_prev_fan_duty s).
Definition set_fan_rpms (v : Z) (s : share_info_t) : share_info_t :=
  mkShare (exit s) (cpu_temp s) (gpu_temp s) (fan_duty s) v (auto_duty s)
          (auto_duty_val s) (manual_next_fan_duty s) (manual_prev_fan_duty s).
Definition set_auto_duty (v : Z) (s : share_info_t) : share_info_t :=
  mkShare (exit s) (cpu_temp s) (gpu_temp s) (fan_duty s) (fan_rpms s) v
          (auto_duty_val s) (manual_next_fan_duty s) (manual_prev_fan_duty s).
Definition set_auto_duty_val (v : Z) (s : share_info_t) : share_info_t :=
  mkShare (exit s) (cpu_temp s) (gpu_temp s) (fan_duty s) (fan_rpms s) (auto_duty s)
          v (manual_next_fan_duty s) (manual_prev_fan_duty s).
Definition set_manual_next_fan_duty (v : Z) (s : share_info_t) : share_info_t :=
  mkShare (exit s) (cpu_temp s) (gpu_temp s) (fan_duty s) (fan_rpms s) (auto_duty s)
          (auto_duty_val s) v (manual_prev_fan_duty s).
Definition set_manual_prev_fan_duty (v : Z) (s : share_info_t) : share_info_t :=
  mkShare (exit s) (cpu_temp s) (gpu_temp s) (fan_duty s) (fan_rpms s) (auto_duty s)
          (auto_duty_val s) (manual_next_fan_duty s) v.

(** The two processes that map the block. *)
Inductive actor : Type := Worker | Presentation.

(** What the worker obtains from outside during an iteration. *)
Record worker_env : Type := mkEnv {
  (** [parent_pid != 0 && kill (parent_pid, 0) == -1] *)
  parent_gone : bool;
  (** [len] after [fread (buf, 1, EC_REG_SIZE, io_fd)] and the bytes read *)
  fread_len : Z;
  buf : Z -> Z;
  (** [io_fd > 0] after the re-open at the end of the iteration *)
  fopen_ok : bool
}.

(** Program points of [main_ec_worker], one per access to the shared block
    (each access is a load or store of one [volatile int]).  Locals that are
    live at a point are its arguments. *)
Inductive worker_pc : Type :=
| W_loop_test (io_fd_ok : bool)
| W_check_parent
| W_load_manual_next
| W_test_manual_prev (new_fan_duty : Z)
| W_store_manual_prev (new_fan_duty : Z)
| W_fread
| W_store_cpu_temp (buf : Z -> Z)
| W_store_gpu_temp (buf : Z -> Z)
| W_store_fan_duty (buf : Z -> Z)
| W_store_fan_rpms (buf : Z -> Z)
| W_test_auto_duty
| W_adjust
| W_test_auto_duty_val (next_duty : Z)
| W_store_auto_duty_val (next_duty : Z)
| W_reopen
| W_quit.

(** One step of [main_ec_worker] (lines 570-620). *)
Definition worker_step (e : worker_env) (pc : worker_pc) (sh : share_info_t)
    : worker_pc * share_info_t * list call :=
  match pc with
  | W_loop_test io_fd_ok =>
      if (exit sh =? 0) && io_fd_ok then (W_check_parent, sh, []) else (W_quit, sh, [])
  | W_check_parent =>
      if parent_gone e then (W_quit, sh, []) else (W_load_manual_next, sh, [])
  | W_load_manual_next =>
      (W_test_manual_prev (manual_next_fan_duty sh), sh, [])
  | W_test_manual_prev new_fan_duty =>
      if negb (new_fan_duty =? 0) && negb (new_fan_duty =? manual_prev_fan_duty sh)
      then (W_store_manual_prev new_fan_duty, sh, [Write_cpu new_fan_duty])
      else (W_fread, sh, [])
  | W_store_manual_prev new_fan_duty =>
      (W_fread, set_manual_prev_fan_duty new_fan_duty sh, [])
  | W_fread =>
      if fread_len e =? 0x100 then (W_store_cpu_temp (buf e), sh, [])
      else (W_test_auto_duty, sh, [])
  | W_store_cpu_temp b =>
      (W_store_gpu_temp b, set_cpu_temp (b EC_REG_CPU_TEMP) sh, [])
  | W_store_gpu_temp b =>
      (W_store_fan_duty b, set_gpu_temp (b EC_REG_GPU_TEMP) sh, [])
  | W_store_fan_duty b =>
      (W_store_fan_rpms b,
       set_fan_duty (calculate_fan_duty (b EC_REG_CPU_FAN_DUTY)) sh, [])
  | W_store_fan_rpms b =>
      (W_test_auto_duty,
       set_fan_rpms (calculate_fan_rpms (b EC_REG_CPU_FAN_RPMS_HI)
                                        (b EC_REG_CPU_FAN_RPMS_LO)) sh, [])
  | W_test_auto_duty =>
      if auto_duty sh =? 1 then (W_adjust, sh, []) else (W_reopen, sh, [])
  | W_adjust =>
      (W_test_auto_duty_val (ec_auto_duty_adjust sh), sh, [])
  | W_test_auto_duty_val next_duty =>
      if negb (next_duty =? 0) && negb (next_duty =? auto_duty_val sh)
      then (W_store_auto_duty_val next_duty, sh, [Write_cpu next_duty])
      else (W_reopen, sh, [])
  | W_store_auto_duty_val next_duty =>
      (W_reopen, set_auto_duty_val next_duty sh, [])
  | W_reopen => (W_loop_test (fopen_ok e), sh, [])
  | W_quit => (W_quit, sh, [])
  end.

(** Program points of the presentation process: idle in [gtk_main], inside
    [ui_command_set_fan] (lines 708-722) before its second or third store,
    or gone. *)
Inductive ui_pc : Type :=
| P_idle
| P_store_auto_duty_val (fan_duty_val : Z)
| P_store_manual_next (fan_duty_val : Z)
| P_waitpid
| P_gone.

(** The steps of the interleaving. *)
Inductive label : Type :=
| Worker_step (e : worker_env)
  (** [ec_on_sigterm] runs in the worker *)
| Worker_sigterm
  (** a menu item calls [ui_command_set_fan (fan_duty)]: its first store *)
| Ui_command_set_fan (fan_duty : Z)
  (** the next store of a running [ui_command_set_fan] *)
| Ui_step
  (** [ui_update]: loads only *)
| Ui_update
  (** [gtk_main] returns and [main] stores the exit flag (line 446) *)
| Ui_quit
  (** [main_on_sigterm] runs in the parent *)
| Main_sigterm
  (** [main_on_sigchld] runs in the parent *)
| Main_sigchld.

Definition actor_of (l : label) : actor :=
  match l with
  | Worker_step _ | Worker_sigterm => Worker
  | _ => Presentation
  end.

Record config : Type := mkConfig {
  share_info : share_info_t;
  wpc : worker_pc;
  ppc : ui_pc;
  calls : list call
}.

(** The state right after [fork]: the block initialised, the debug file open. *)
Definition config_start : config :=
  mkConfig main_init_share (W_loop_test true) P_idle [].

Definition step (l : label) (c : config) : config :=
  let sh := share_info c in
  match l with
  | Worker_step e =>
      let '(pc, sh', w) := worker_step e (wpc c) sh in
      mkConfig sh' pc (ppc c) (calls c ++ w)
  | Worker_sigterm =>
      match wpc c with
      | W_quit => c
      | _ => mkConfig (set_exit 1 sh) (wpc c) (ppc c) (calls c)
      end
  | Ui_command_set_fan fan_duty =>
      match ppc c with
      | P_idle =>
          let fan_duty_val := wrap32 fan_duty in
          mkConfig (set_auto_duty (if fan_duty_val =? 0 then 1 else 0) sh)
                   (wpc c) (P_store_auto_duty_val fan_duty_val) (calls c)
      | _ => c
      end
  | Ui_step =>
      match ppc c with
      | P_store_auto_duty_val v =>
          mkConfig (set_auto_duty_val 0 sh) (wpc c) (P_store_manual_next v) (calls c)
      | P_store_manual_next v =>
          mkConfig (set_manual_next_fan_duty (if v =? 0 then 0 else v) sh)
                   (wpc c) P_idle (calls c)
      | _ => c
      end
  | Ui_update => c
  | Ui_quit =>
      match ppc c with
      | P_idle => mkConfig (set_exit 1 sh) (wpc c) P_waitpid (calls c)
      | _ => c
      end
  | Main_sigterm =>
      match ppc c with
      | P_gone => c
      | _ => mkConfig (set_exit 1 sh) (wpc c) P_gone (calls c)
      end
  | Main_sigchld =>
      mkConfig sh (wpc c) P_gone (calls c)
  end.

(** An interleaving is a list of labels, executed left to right. *)
Definition interleave (ls : list label) (c : config) : config :=
  fold_left (fun c l => step l c) ls c.

(** A register dump with the given CPU temperature and raw CPU fan duty. *)
Definition dump (cpu raw_duty : Z) : worker_env :=
  mkEnv false 0x100
        (fun off => if off =? EC_REG_CPU_TEMP then cpu
                    else if off =? EC_REG_CPU_FAN_DUTY then raw_duty else 0)
        true.

(* ===================================================================== *)
(** * Reference formulas used in the statements *)
(* ===================================================================== *)

(** [round (n / d)] for non-negative [n] and positive [d], halves up. *)
Definition round_div (n d : Z) : Z := (2 * n + d) / (2 * d).

(** The override order in closed form, for one channel: offset, then floor,
    then the forced value if there is one, then the cap at 100. *)
Definition effective_duty (offset floor force duty : Z) : Z :=
  Z.min 100 (if force =? -1 then Z.max floor (duty + offset) else force).

(** Bounds on the loop counters (they are incremented without wrap-around
    in the model; lemma [iteration_counters] shows that they never leave
    these bounds). *)
Definition counters_ok (s : session) : Prop :=
  0 <= fst (repeatCheck s) <= 4 /\ 0 <= snd (repeatCheck s) <= 4
  /\ 0 <= lastfail s <= 1 /\ 0 <= missing s <= 6 /\ 0 <= ctrl_check s <= 3.

(** The session with its [missing] counter replaced. *)
Definition set_missing (m : Z) (s : session) : session :=
  mkSession (initial s) (current s) (lastCPU s) (lastGPU s) (repeatCheck s)
    (lastfail s) m (ctrl_check s)
    (ctrl_setting_offset_cpu s) (ctrl_setting_offset_gpu s)
    (ctrl_setting_min_cpu s) (ctrl_setting_min_gpu s)
    (ctrl_setting_force_cpu s) (ctrl_setting_force_gpu s).

(** The duty targets of a cycle as they enter the rate limiter (line 289). *)
Definition cycle_setDuty (inp : cycle_input) (s : session) : Z * Z :=
  let s1 := ctrl_reload inp s in
  let avg := cycle_avg inp s1 in
  overrides s1 (curve (fst avg), curve (snd avg)).

(** The session once the control file has set [force_cpu -5]. *)
Definition forced_session : session :=
  ctrl_line session_start "force_cpu -5".

(** Four cycles at CPU 80, GPU 80; in the fourth the control file is due
    and holds the line [force_cpu -5], and the CPU writer refuses the duty. *)
Definition forced_run : list cycle_input :=
  let steady := sample 80 80 60 60 (60, 60) in
  [sample 80 80 0 0 (60, 60); steady; steady;
   mkInput [80] (Some ["force_cpu -5"%string]) (fun _ => 80) 60 60
           (fun i _ => if i then EXIT_SUCCESS else EXIT_FAILURE) (fun _ _ => 60)].

(** The session after a first cycle at CPU 80, GPU 80. *)
Definition warm_session : session :=
  fst (found_cycle (sample 80 80 0 0 (60, 60)) session_start).

(** A cycle on the warm session whose CPU target is 57, three points below
    the applied duty. *)
Definition held_request : cycle_input := sample 78 80 60 60 (57, 60).

(** The duty targets entering the rate limiter in each cycle of a run in
    which every cycle finds a token. *)
Fixpoint targets_trace (inputs : list cycle_input) (s : session) : list (Z * Z) :=
  match inputs with
  | [] => []
  | inp :: rest =>
      cycle_setDuty inp s :: targets_trace rest (fst (found_cycle inp s))
  end.

(** Nine cycles on the warm session with the CPU alternating between 77 and
    81 degrees, the GPU steady at 80 and the hardware reporting 60/60. *)
Definition alternating : list cycle_input :=
  let lo := sample 77 80 60 60 (56, 60) in
  let hi := sample 81 80 60 60 (60, 60) in
  [lo; hi; lo; hi; lo; hi; lo; hi; lo].

(** A cycle like [held_request] in which the hardware reports a CPU duty of
    50 instead of the 60 last applied. *)
Definition out_of_band : cycle_input := sample 78 80 50 60 (60, 60).

(** The configuration after the worker has completed one iteration on a
    register dump with CPU 85 and raw duty 128. *)
Definition config_after_auto : config :=
  interleave (repeat (Worker_step (dump 85 128)) 13) config_start.

(* ===================================================================== *)
(** * Instrumented machines *)
(* ===================================================================== *)

(** Port accesses, in program order. *)
Inductive port_event : Type :=
| Ev_inb (port : Z)
| Ev_outb (value port : Z)
| Ev_usleep (usec : Z).

(** Any machine, with a log of its port accesses kept beside its state. *)
Definition traced {Dev : Type} (hw : machine Dev) : machine (Dev * list port_event) := {|
  inb := fun port d =>
    let (v, d') := inb hw port (fst d) in (v, (d', snd d ++ [Ev_inb port]));
  outb := fun value port d =>
    (outb hw value port (fst d), snd d ++ [Ev_outb value port]);
  usleep := fun usec d => (usleep hw usec (fst d), snd d ++ [Ev_usleep usec]);
  fopen_rb := fun num attr d => fopen_rb hw num attr (fst d);
  fopen_wb := fun num attr d => fopen_wb hw num attr (fst d);
  fprintf_d := fun num attr v d => (fprintf_d hw num attr v (fst d), snd d)
|}.

(** [k] retries of the wait loop: a sleep of 1000 microseconds, then a read
    of the port. *)
Fixpoint polls (port : Z) (k : nat) : list port_event :=
  match k with
  | O => []
  | S k' => Ev_usleep 1000 :: Ev_inb port :: polls port k'
  end.

(** One call of the wait on the status port: the first read, then [k]
    retries. *)
Definition wait_events (k : nat) : list port_event :=
  Ev_inb EC_SC :: polls EC_SC k.

(** The port writes of a log, as (value, port) pairs. *)
Fixpoint outbs (log : list port_event) : list (Z * Z) :=
  match log with
  | [] => []
  | Ev_outb value port :: rest => (value, port) :: outbs rest
  | _ :: rest => outbs rest
  end.

(** A computation on the instrumented machine follows the computation [c]
    on the plain machine and appends accesses whose port writes are [ws]. *)
Definition logs {Dev A : Type} (c : Dev -> A * Dev)
    (c' : Dev * list port_event -> A * (Dev * list port_event))
    (ws : list (Z * Z)) : Prop :=
  forall (d : Dev) (l : list port_event),
    exists evs : list port_event,
      c' (d, l) = (fst (c d), (snd (c d), l ++ evs)) /\ outbs evs = ws.

(** The port writes of one register read. *)
Definition read_of (reg : Z) : list (Z * Z) :=
  [(EC_SC_READ_CMD, EC_SC); (reg, EC_DATA)].

(** The registers [main_dump_fan] reads on the port backend, in order. *)
Definition dump_registers : list Z :=
  [EC_REG_CPU_TEMP; EC_REG_CPU_FAN_DUTY;
   EC_REG_CPU_FAN_RPMS_HI; EC_REG_CPU_FAN_RPMS_LO;
   EC_REG_GPU_TEMP; EC_REG_GPU_FAN_DUTY;
   EC_REG_GPU_FAN_RPMS_HI; EC_REG_GPU_FAN_RPMS_LO].

(** The text [fprintf (fp, "%d\n", v)] produces. *)
Definition print_d (v : Z) : string :=
  (NilZero.string_of_int (Z.to_int v) ++ String "010"%char EmptyString)%string.

(** A machine whose sysfs attributes are files that keep what is written to
    them: the state maps an interface number and an attribute name to the
    file's text, [None] when the file does not exist.  Ports read zero. *)
Definition store_machine : machine (Z -> string -> option string) := {|
  inb := fun _ d => (0, d);
  outb := fun _ _ d => d;
  usleep := fun _ d => d;
  fopen_rb := fun num attr d => d num attr;
  fopen_wb := fun num attr d =>
    match d num attr with Some _ => true | None => false end;
  fprintf_d := fun num attr v d =>
    fun n a => if (n =? num) && String.eqb a attr then Some (print_d v) else d n a
|}.

(* ===================================================================== *)
(** * Observations on runs of the dual-sensor loop *)
(* ===================================================================== *)

(** The percentage a writer call carries. *)
Definition call_duty (c : call) : Z :=
  match c with
  | Write_cpu duty_percentage => duty_percentage
  | Write_gpu duty_percentage => duty_percentage
  end.

(** Number of iterations without a token at the end of an input history,
    counted on from [m]. *)
Definition streak (m : Z) (inputs : list cycle_input) : Z :=
  fold_left (fun m inp => match stdin_tokens inp with
                          | [] => m + 1
                          | _ :: _ => 0
                          end) inputs m.

(** The six control settings of a session. *)
Definition settings (s : session) : list Z :=
  [ctrl_setting_offset_cpu s; ctrl_setting_offset_gpu s;
   ctrl_setting_min_cpu s; ctrl_setting_min_gpu s;
   ctrl_setting_force_cpu s; ctrl_setting_force_gpu s].

(** Number of positions at which two lists of integers differ. *)
Fixpoint differences (xs ys : list Z) : nat :=
  match xs, ys with
  | x :: xs', y :: ys' =>
      if x =? y then differences xs' ys' else S (differences xs' ys')
  | _, _ => O
  end.

(** Settings under which no negative target can arise: non-negative floors,
    forced values absent (-1) or non-negative. *)
Definition settings_sane (s : session) : Prop :=
  0 <= ctrl_setting_min_cpu s /\ 0 <= ctrl_setting_min_gpu s
  /\ -1 <= ctrl_setting_force_cpu s /\ -1 <= ctrl_setting_force_gpu s.

(** The decision of a cycle after the re-sync block and after the fault
    block: ([initial], [doSet], [setDuty]) and ([lastfail], [doSet],
    [setDuty]). *)
Definition cycle_resync (inp : cycle_input) (s : session) : Z * (Z * Z) * (Z * Z) :=
  let t := cycle_setDuty inp s in
  resync inp (initial s) (current s)
    (fst (rate_limit (fst (current s)) (fst t) (fst (repeatCheck s))),
     fst (rate_limit (snd (current s)) (snd t) (snd (repeatCheck s)))) t.

Definition cycle_fault_guard (inp : cycle_input) (s : session)
    : Z * (Z * Z) * (Z * Z) :=
  let rs := cycle_resync inp s in
  fault_guard (temp_fail (cycle_cputemp inp s) (cycle_gputemp inp)) (lastfail s)
    (snd (fst rs)) (snd rs).

(* ===================================================================== *)
(** * Uninterrupted worker iterations, steps left to the worker *)
(* ===================================================================== *)

(** The worker's steps from a program point up to the next loop test (or to
    its end), with nothing else running in between; [fuel] bounds the number
    of steps (an iteration takes at most 14). *)
Fixpoint worker_iteration (fuel : nat) (e : worker_env) (pc : worker_pc)
    (sh : share_info_t) : worker_pc * share_info_t * list call :=
  match fuel with
  | O => (pc, sh, [])
  | S fuel' =>
      match pc with
      | W_loop_test _ | W_quit => (pc, sh, [])
      | _ =>
          let '(pc1, sh1, w1) := worker_step e pc sh in
          let '(pc2, sh2, w2) := worker_iteration fuel' e pc1 sh1 in
          (pc2, sh2, w1 ++ w2)
      end
  end.

Arguments worker_iteration !fuel e !pc sh.

(** Number of steps the worker needs at most to reach its end from a
    program point once the exit flag is set. *)
Definition steps_to_quit (pc : worker_pc) : nat :=
  match pc with
  | W_quit => 0
  | W_loop_test _ => 1
  | W_reopen => 2
  | W_store_auto_duty_val _ => 3
  | W_test_auto_duty_val _ => 4
  | W_adjust => 5
  | W_test_auto_duty => 6
  | W_store_fan_rpms _ => 7
  | W_store_fan_duty _ => 8
  | W_store_gpu_temp _ => 9
  | W_store_cpu_temp _ => 10
  | W_fread => 11
  | W_store_manual_prev _ => 12
  | W_test_manual_prev _ => 13
  | W_load_manual_next => 14
  | W_check_parent => 15
  end.

(** Number of worker steps in an interleaving. *)
Fixpoint worker_steps_in (ls : list label) : nat :=
  match ls with
  | [] => O
  | Worker_step _ :: rest => S (worker_steps_in rest)
  | _ :: rest => worker_steps_in rest
  end.

(* ===================================================================== *)
(** * Menu, diagnostics and interface discovery *)
(* ===================================================================== *)

Inductive MenuItemType : Type := NA | AUTO | MANUAL.

Definition MenuItemType_eqb (a b : MenuItemType) : bool :=
  match a, b with
  | NA, NA | AUTO, AUTO | MANUAL, MANUAL => true
  | _, _ => false
  end.

(** An entry of [menuitems]; [widget] tells whether the widget pointer is
    set. *)
Record menuitem : Type := mkItem {
  label_ : string;
  option_ : Z;
  type_ : MenuItemType;
  widget : bool
}.

(** The table [menuitems] once [main_ui_worker] has created the widgets. *)
Definition menuitems : list menuitem :=
  [mkItem "Set FAN to AUTO" 0 AUTO true;
   mkItem "" 0 NA true;
   mkItem "Set FAN to  60%" 60 MANUAL true;
   mkItem "Set FAN to  70%" 70 MANUAL true;
   mkItem "Set FAN to  80%" 80 MANUAL true;
   mkItem "Set FAN to  90%" 90 MANUAL true;
   mkItem "Set FAN to 100%" 100 MANUAL true;
   mkItem "" 0 NA true;
   mkItem "Quit" 0 NA true].

(** [ui_toggle_menuitems]: the sensitivity given to each entry, [None] for
    an entry without widget (it is skipped). *)
Definition ui_toggle_menuitems (items : list menuitem) (fan_duty : Z)
    : list (option bool) :=
  map (fun it =>
         if negb (widget it) then None
         else if fan_duty =? 0
              then Some (negb (MenuItemType_eqb (type_ it) AUTO))
              else Some (negb (MenuItemType_eqb (type_ it) MANUAL)
                         || negb (wrap32 (option_ it) =? fan_duty)))
      items.

(** The labels of the entries made insensitive. *)
Fixpoint insensitive (items : list menuitem) (sens : list (option bool))
    : list string :=
  match items, sens with
  | it :: items', Some false :: sens' => label_ it :: insensitive items' sens'
  | _ :: items', _ :: sens' => insensitive items' sens'
  | _, _ => []
  end.

(** [main_dump_fan]: the six values it prints, in order, and its return
    value. *)
Definition main_dump_fan {Dev : Type} (hw : machine Dev)
    (use_hwmon_interface hwmon_interface_num uninit : Z) (d : Dev)
    : (Z * list Z) * Dev :=
  let (cpu_t, d) := ec_query_cpu_temp hw use_hwmon_interface hwmon_interface_num uninit d in
  let (cpu_d, d) := ec_query_cpu_fan_duty hw use_hwmon_interface hwmon_interface_num uninit d in
  let (cpu_r, d) := ec_query_cpu_fan_rpms hw use_hwmon_interface hwmon_interface_num uninit d in
  let (gpu_t, d) := ec_query_gpu_temp hw d in
  let (gpu_d, d) := ec_query_gpu_fan_duty hw use_hwmon_interface hwmon_interface_num uninit d in
  let (gpu_r, d) := ec_query_gpu_fan_rpms hw use_hwmon_interface hwmon_interface_num uninit d in
  ((EXIT_SUCCESS, [cpu_t; cpu_d; cpu_r; gpu_t; gpu_d; gpu_r]), d).

(** [main_test_cpu_fan] and [main_test_gpu_fan]: the write, whose result is
    dropped, then the dump. *)
Definition main_test_cpu_fan {Dev : Type} (hw : machine Dev)
    (use_hwmon_interface hwmon_interface_num uninit duty_percentage : Z) (d : Dev)
    : (Z * list Z) * Dev :=
  let (_, d) := ec_write_cpu_fan_duty hw use_hwmon_interface hwmon_interface_num
                  duty_percentage d in
  let (r, d) := main_dump_fan hw use_hwmon_interface hwmon_interface_num uninit d in
  ((EXIT_SUCCESS, snd r), d).

Definition main_test_gpu_fan {Dev : Type} (hw : machine Dev)
    (use_hwmon_interface hwmon_interface_num uninit duty_percentage : Z) (d : Dev)
    : (Z * list Z) * Dev :=
  let (_, d) := ec_write_gpu_fan_duty hw use_hwmon_interface hwmon_interface_num
                  duty_percentage d in
  let (r, d) := main_dump_fan hw use_hwmon_interface hwmon_interface_num uninit d in
  ((EXIT_SUCCESS, snd r), d).

(** The name a hwmon instance must report, as [strcmp] wants it. *)
Definition clevo_name : string :=
  String.append "clevo_xsm_wmi" (String "010"%char EmptyString).

(** The discovery loop of [main] (lines 518-538): [names i] is the text of
    [/sys/class/hwmon/hwmon<i>/name], [None] when it cannot be opened.  The
    result is [Some (Some i)] when interface [i] is found, [Some None] when
    the loop ends without one ([main] then returns [EXIT_FAILURE]), and
    [None] when [fuel] iterations were not enough.  (On an empty name file
    the buffer still holds the path, which differs from the wanted name just
    as the empty string does.) *)
Fixpoint hwmon_find (fuel : nat) (names : Z -> option string) (i : Z)
    : option (option Z) :=
  match fuel with
  | O => None
  | S fuel' =>
      match names i with
      | None => Some None
      | Some text =>
          if String.eqb (fgets 1023 text) clevo_name then Some (Some i)
          else hwmon_find fuel' names (i + 1)
      end
  end.

(* ===================================================================== *)
(** * Auxiliary facts *)
(* ===================================================================== *)

Lemma wrap32_small (z : Z) : INT_MIN <= z <= INT_MAX -> wrap32 z = z.
Proof.
  unfold wrap32, INT_MIN, INT_MAX. intros H.
  rewrite Z.mod_small; lia.
Qed.

Lemma add32_small (a b : Z) : INT_MIN <= a + b <= INT_MAX -> add32 a b = a + b.
Proof. apply wrap32_small. Qed.

Lemma if_gtb_max (a b : Z) : (if a >? b then a else b) = Z.max a b.
Proof. rewrite Z.gtb_ltb. destruct (Z.ltb_spec b a); lia. Qed.

Lemma if_gtb_cap (x : Z) : (if x >? 100 then 100 else x) = Z.min 100 x.
Proof. rewrite Z.gtb_ltb. destruct (Z.ltb_spec 100 x); lia. Qed.

(** A boolean property checked on [0 .. n-1] holds on that range. *)
Lemma forallb_range (P : Z -> bool) (n : nat) :
  forallb P (map Z.of_nat (seq 0 n)) = true ->
  forall p, 0 <= p < Z.of_nat n -> P p = true.
Proof.
  intros H p Hp.
  rewrite forallb_forall in H. apply H.
  apply in_map_iff. exists (Z.to_nat p). split; [lia|].
  apply in_seq. lia.
Qed.

(* ===================================================================== *)
(** * The stepped ladder *)
(* ===================================================================== *)

(** C3, as stated, fails: keyed on the temperature alone the tables give 70
    at 58 degrees, while the code at 58 degrees and duty 70 falls through
    every guarded row and returns 100. *)
Lemma ladder_stated_differs :
  ~ (forall s : share_info_t,
       ec_auto_duty_adjust s = ladder_stated (Z.max (cpu_temp s) (gpu_temp s))).
Proof.
  intros H. specialize (H (mkShare 0 58 0 70 0 1 0 0 0)).
  vm_compute in H. discriminate H.
Qed.

(** C3 (amended): for every shared block, [ec_auto_duty_adjust] returns the
    duty of the first rising row whose threshold is reached and whose target
    is above the current duty, else of the first falling row whose threshold
    is not exceeded and whose target is below the current duty, else 100; it
    depends on the block only through max(cpu_temp, gpu_temp) and fan_duty. *)
Theorem ec_auto_duty_adjust_tables (s : share_info_t) :
  ec_auto_duty_adjust s
  = ladder_guarded (Z.max (cpu_temp s) (gpu_temp s)) (fan_duty s).
Proof.
  unfold ec_auto_duty_adjust, ladder_guarded.
  generalize (Z.max (cpu_temp s) (gpu_temp s)) as temp.
  generalize (fan_duty s) as duty. intros duty temp.
  cbn [first_row rising_table falling_table fst snd].
  repeat match goal with
         | |- context [if ?b then _ else _] => destruct b
         end; reflexivity.
Qed.

(** C4, as stated, fails: at duty 50 and 58 degrees the ladder asks for a
    change (70), and at duty 80 and 50 degrees it asks for 70, not 60. *)
Lemma ladder_scenario_as_stated_fails :
  ~ (ec_auto_duty_adjust (mkShare 0 58 0 50 0 1 0 0 0) = 50
     /\ ec_auto_duty_adjust (mkShare 0 60 0 50 0 1 0 0 0) = 80
     /\ ec_auto_duty_adjust (mkShare 0 50 0 80 0 1 0 0 0) = 60).
Proof. vm_compute. intros [H _]. discriminate H. Qed.

(** C4 (amended): with current duty 50, a combined temperature of 58 raises
    the duty to 70 and one of 60 raises it to 80; with current duty 80, a
    combined temperature of 50 lowers the duty to 70 (falling row <= 55). *)
Theorem ladder_scenario (s : share_info_t) :
  (Z.max (cpu_temp s) (gpu_temp s) = 58 -> fan_duty s = 50 ->
   ec_auto_duty_adjust s = 70)
  /\ (Z.max (cpu_temp s) (gpu_temp s) = 60 -> fan_duty s = 50 ->
      ec_auto_duty_adjust s = 80)
  /\ (Z.max (cpu_temp s) (gpu_temp s) = 50 -> fan_duty s = 80 ->
      ec_auto_duty_adjust s = 70).
Proof.
  unfold ec_auto_duty_adjust.
  repeat split; intros Ht Hd; rewrite Ht, Hd; reflexivity.
Qed.

Lemma ladder_scenario_witness :
  ec_auto_duty_adjust (mkShare 0 58 40 50 0 1 0 0 0) = 70
  /\ ec_auto_duty_adjust (mkShare 0 45 60 50 0 1 0 0 0) = 80
  /\ ec_auto_duty_adjust (mkShare 0 50 50 80 0 1 0 0 0) = 70.
Proof.
  split; [|split].
  - apply (proj1 (ladder_scenario (mkShare 0 58 40 50 0 1 0 0 0))); reflexivity.
  - apply (proj1 (proj2 (ladder_scenario (mkShare 0 45 60 50 0 1 0 0 0)))); reflexivity.
  - apply (proj2 (proj2 (ladder_scenario (mkShare 0 50 50 80 0 1 0 0 0)))); reflexivity.
Defined.

(* ===================================================================== *)
(** * The duty codec *)
(* ===================================================================== *)

Lemma duty_codec_checked :
  forallb (fun p =>
             (duty_to_raw p =? round_div (p * 255) 100)
             && (calculate_fan_duty (duty_to_raw p)
                 =? round_div (duty_to_raw p * 100) 255)
             && (calculate_fan_duty (duty_to_raw p) =? p)
             && (0 <=? duty_to_raw p) && (duty_to_raw p <=? 255))
          (map Z.of_nat (seq 0 101)) = true.
Proof. vm_compute. reflexivity. Qed.

(** The decoder agrees with rounding to nearest on every byte. *)
Lemma calculate_fan_duty_rounds (raw : Z) :
  0 <= raw <= 255 -> calculate_fan_duty raw = round_div (raw * 100) 255.
Proof.
  intros H.
  assert (C : forallb (fun r => calculate_fan_duty r =? round_div (r * 100) 255)
                      (map Z.of_nat (seq 0 256)) = true)
    by (vm_compute; reflexivity).
  apply Z.eqb_eq.
  apply (forallb_range _ _ C). lia.
Qed.

(** C8: for every integer percentage p in 0..100, the byte written for p is
    round(p/100*255), the percentage decoded from it is round(raw/255*100),
    and decoding the encoded duty differs from p by at most 1. *)
Theorem duty_round_trip (p : Z) :
  0 <= p <= 100 ->
  duty_to_raw p = round_div (p * 255) 100
  /\ calculate_fan_duty (duty_to_raw p) = round_div (duty_to_raw p * 100) 255
  /\ Z.abs (calculate_fan_duty (duty_to_raw p) - p) <= 1.
Proof.
  intros H.
  pose proof (forallb_range _ _ duty_codec_checked p ltac:(lia)) as C.
  cbv beta in C.
  repeat rewrite andb_true_iff in C.
  destruct C as [[[[C1 C2] C3] _] _].
  apply Z.eqb_eq in C1. apply Z.eqb_eq in C2. apply Z.eqb_eq in C3.
  repeat split; try assumption.
  rewrite C3. replace (p - p) with 0 by lia. simpl. lia.
Qed.

Lemma duty_round_trip_witness :
  0 <= 37 <= 100
  /\ duty_to_raw 37 = round_div (37 * 255) 100
  /\ calculate_fan_duty (duty_to_raw 37) = round_div (duty_to_raw 37 * 100) 255
  /\ Z.abs (calculate_fan_duty (duty_to_raw 37) - 37) <= 1.
Proof.
  assert (H : 0 <= 37 <= 100) by lia.
  split; [exact H | exact (duty_round_trip 37 H)].
Defined.

(** The round trip is in fact exact on 0..100. *)
Lemma codec_round_trip_exact (p : Z) :
  0 <= p <= 100 -> calculate_fan_duty (duty_to_raw p) = p.
Proof.
  intros H.
  pose proof (forallb_range _ _ duty_codec_checked p ltac:(lia)) as C.
  cbv beta in C.
  repeat rewrite andb_true_iff in C.
  destruct C as [[[[_ _] C3] _] _].
  now apply Z.eqb_eq in C3.
Qed.

(* ===================================================================== *)
(** * The port handshake *)
(* ===================================================================== *)

Section ChannelFacts.
Context {Dev : Type}.
Variable hw : machine Dev.

(** 101 loop tests are enough: more fuel does not change the result. *)
Lemma ec_io_wait_loop_fuel (n fuel : nat) :
  forall (port flag value data i : Z) (d : Dev),
    (1 <= n)%nat -> 101 - i <= Z.of_nat n -> (n <= fuel)%nat ->
    ec_io_wait_loop hw fuel port flag value data i d
    = ec_io_wait_loop hw n port flag value data i d.
Proof.
  revert fuel. induction n as [|n IH]; intros fuel port flag value data i d H1 Hi Hf.
  - lia.
  - destruct fuel as [|fuel]; [lia|].
    cbn [ec_io_wait_loop].
    destruct (negb (Z.land (Z.shiftr data flag) 1 =? value)); [|reflexivity].
    destruct (i <? 100) eqn:Hlt; [|reflexivity].
    apply Z.ltb_lt in Hlt.
    unfold bind, act. destruct (inb hw port (usleep hw 1000 d)) as [x d'].
    apply IH; lia.
Qed.

(** The counter leaves the loop at 101 at most. *)
Lemma ec_io_wait_loop_bound (fuel : nat) :
  forall (port flag value data i : Z) (d : Dev),
    i <= 100 ->
    snd (fst (ec_io_wait_loop hw fuel port flag value data i d)) <= 101.
Proof.
  induction fuel as [|fuel IH]; intros port flag value data i d Hi.
  - cbn. lia.
  - cbn [ec_io_wait_loop].
    destruct (negb (Z.land (Z.shiftr data flag) 1 =? value)); [|cbn; lia].
    destruct (i <? 100) eqn:Hlt; [|cbn; lia].
    apply Z.ltb_lt in Hlt.
    unfold bind, act. destruct (inb hw port (usleep hw 1000 d)) as [x d'].
    apply IH. lia.
Qed.

(** Whatever the device does, [ec_io_wait] returns [EXIT_SUCCESS]: the
    failure branch tests [i >= 1000], which the loop cannot reach. *)
Lemma ec_io_wait_never_fails (port flag value : Z) (d : Dev) :
  fst (ec_io_wait hw port flag value d) = EXIT_SUCCESS.
Proof.
  unfold ec_io_wait, bind.
  destruct (inb hw port d) as [x d1].
  pose proof (ec_io_wait_loop_bound 101 port flag value (x mod 256) 0 d1) as B.
  destruct (ec_io_wait_loop hw 101 port flag value (x mod 256) 0 d1) as [r d2].
  cbn [fst snd] in *.
  destruct (snd r >=? 1000) eqn:E; [|reflexivity].
  apply Z.geb_le in E. lia.
Qed.

(** So does the vendor write sequence, which returns its last wait. *)
Lemma ec_io_do_never_fails (cmd port value : Z) (d : Dev) :
  fst (ec_io_do hw cmd port value d) = EXIT_SUCCESS.
Proof.
  unfold ec_io_do, bind, act.
  repeat match goal with
         | |- context [ec_io_wait hw ?p ?f ?v ?x] =>
             lazymatch goal with
             | |- fst (ec_io_wait hw p f v x) = _ => fail
             | _ => destruct (ec_io_wait hw p f v x) as [? ?]
             end
         end.
  apply ec_io_wait_never_fails.
Qed.
End ChannelFacts.

(** C1 (code defect): on a controller whose "input buffer full" bit never
    clears, the wait loop runs out of its 100 retries (the counter ends at
    101 with the bit still set), yet [ec_io_wait] returns [EXIT_SUCCESS];
    [ec_io_read] goes on and returns the byte found on the data port, and
    [ec_io_do] sends all three bytes and returns [EXIT_SUCCESS]. *)
Theorem ec_io_wait_timeout_unreported :
  let d0 := mkStuck 0 [] in
  fst (ec_io_wait_loop stuck_ec 101 EC_SC IBF 0 0x02 0 d0) = (0x02, 101)
  /\ Z.land (Z.shiftr 0x02 IBF) 1 <> 0
  /\ fst (ec_io_wait stuck_ec EC_SC IBF 0 d0) = EXIT_SUCCESS
  /\ port_reads (snd (ec_io_wait stuck_ec EC_SC IBF 0 d0)) = 101
  /\ fst (ec_io_read stuck_ec EC_REG_CPU_TEMP d0) = 0xFF
  /\ ec_io_do stuck_ec 0x99 0x01 179 d0
     = (EXIT_SUCCESS, mkStuck 404 [(0x99, EC_SC); (0x01, EC_DATA); (179, EC_DATA)]).
Proof. vm_compute. repeat split; discriminate. Qed.

(* ===================================================================== *)
(** * The hwmon backend *)
(* ===================================================================== *)

(** C10: in hwmon mode, a query whose attribute file cannot be opened
    returns 99 and leaves no other trace, for each of the five hwmon
    queries; a duty write with a percentage in 0..100 whose attribute file
    cannot be opened returns 99 as well, which is neither [EXIT_SUCCESS] nor
    [EXIT_FAILURE]; and 99 is also what a readable attribute can yield
    (99000 millidegrees, PWM 252, 99 RPM). *)
Theorem hwmon_open_failure_returns_99
    {Dev : Type} (hw : machine Dev) (use_hwmon_interface hwmon_interface_num uninit : Z)
    (d : Dev) :
  use_hwmon_interface <> 0 ->
  (fopen_rb hw hwmon_interface_num "temp1_input" d = None ->
   ec_query_cpu_temp hw use_hwmon_interface hwmon_interface_num uninit d = (99, d))
  /\ (fopen_rb hw hwmon_interface_num "pwm1" d = None ->
      ec_query_cpu_fan_duty hw use_hwmon_interface hwmon_interface_num uninit d = (99, d))
  /\ (fopen_rb hw hwmon_interface_num "pwm2" d = None ->
      ec_query_gpu_fan_duty hw use_hwmon_interface hwmon_interface_num uninit d = (99, d))
  /\ (fopen_rb hw hwmon_interface_num "fan1_input" d = None ->
      ec_query_cpu_fan_rpms hw use_hwmon_interface hwmon_interface_num uninit d = (99, d))
  /\ (fopen_rb hw hwmon_interface_num "fan2_input" d = None ->
      ec_query_gpu_fan_rpms hw use_hwmon_interface hwmon_interface_num uninit d = (99, d))
  /\ (forall p, 0 <= p <= 100 ->
        fopen_wb hw hwmon_interface_num "pwm1" d = false ->
        ec_write_cpu_fan_duty hw use_hwmon_interface hwmon_interface_num p d = (99, d))
  /\ (forall p, 0 <= p <= 100 ->
        fopen_wb hw hwmon_interface_num "pwm2" d = false ->
        ec_write_gpu_fan_duty hw use_hwmon_interface hwmon_interface_num p d = (99, d))
  /\ (99 <> EXIT_SUCCESS /\ 99 <> EXIT_FAILURE)
  /\ (let readable text := sysfs_machine (fun _ _ => Some text) in
      ec_query_cpu_temp (readable "99000"%string) use_hwmon_interface hwmon_interface_num uninit tt
      = (99, tt)
      /\ ec_query_cpu_fan_duty (readable "252"%string) use_hwmon_interface hwmon_interface_num uninit tt
         = (99, tt)
      /\ ec_query_cpu_fan_rpms (readable "99"%string) use_hwmon_interface hwmon_interface_num uninit tt
         = (99, tt)).
Proof.
  intros Huse.
  assert (Ht : c_true use_hwmon_interface = true).
  { unfold c_true. apply negb_true_iff. apply Z.eqb_neq. exact Huse. }
  assert (G : forall p, 0 <= p <= 100 -> (p <? 0) || (p >? 100) = false).
  { intros p Hp. apply orb_false_iff. rewrite Z.gtb_ltb.
    split; apply Z.ltb_ge; lia. }
  unfold ec_query_cpu_temp, ec_query_cpu_fan_duty, ec_query_gpu_fan_duty,
    ec_query_cpu_fan_rpms, ec_query_gpu_fan_rpms,
    ec_write_cpu_fan_duty, ec_write_gpu_fan_duty.
  rewrite Ht.
  repeat match goal with
         | |- _ /\ _ => split
         end;
    try (intros H; rewrite H; reflexivity);
    try (intros p Hp H; rewrite (G p Hp), H; reflexivity);
    try discriminate.
  all: cbn [sysfs_machine fopen_rb]; vm_compute; reflexivity.
Qed.

Lemma hwmon_open_failure_returns_99_witness :
  ec_query_cpu_temp stuck_ec 1 0 0 (mkStuck 0 []) = (99, mkStuck 0 [])
  /\ ec_write_cpu_fan_duty stuck_ec 1 0 70 (mkStuck 0 []) = (99, mkStuck 0 []).
Proof.
  pose proof (hwmon_open_failure_returns_99 stuck_ec 1 0 0 (mkStuck 0 [])
                ltac:(discriminate)) as H.
  split.
  - apply (proj1 H). reflexivity.
  - apply (proj1 (proj2 (proj2 (proj2 (proj2 (proj2 H))))) 70); [lia | reflexivity].
Defined.

(* ===================================================================== *)
(** * The dual-sensor loop: control-file overrides *)
(* ===================================================================== *)

(** C6, as stated, fails in its last step: there is no lower clamp, a forced
    value of -5 read from the control file is the effective duty. *)
Lemma overrides_not_clamped_below :
  ctrl_setting_force_cpu forced_session = -5
  /\ overrides forced_session (30, 30) = (-5, 30)
  /\ ~ (0 <= fst (overrides forced_session (30, 30)) <= 100)
  /\ snd (run forced_run session_start)
     = [Write_cpu 60; Write_gpu 60; Write_cpu (-5); Write_cpu (-5); Write_cpu (-5)]
  /\ match fst (run forced_run session_start) with
     | Continue s => current s = (-5, 60)
     | Exit _ => False
     end.
Proof.
  vm_compute. repeat split; try reflexivity.
  intros [H _]. apply H. reflexivity.
Qed.

(** C6 (amended): each channel's target goes through the additive offset,
    then the floor, then the forced value (which replaces the floored value
    whenever it is not -1, so min_cpu=60 with force_cpu=40 yields 40), and
    is then capped at 100 from above only; the result lies in [0,100] when
    the floor is non-negative and the forced value is absent or
    non-negative. *)
Theorem overrides_order (s : session) (setDuty : Z * Z) :
  INT_MIN <= fst setDuty + ctrl_setting_offset_cpu s <= INT_MAX ->
  INT_MIN <= snd setDuty + ctrl_setting_offset_gpu s <= INT_MAX ->
  overrides s setDuty
  = (effective_duty (ctrl_setting_offset_cpu s) (ctrl_setting_min_cpu s)
       (ctrl_setting_force_cpu s) (fst setDuty),
     effective_duty (ctrl_setting_offset_gpu s) (ctrl_setting_min_gpu s)
       (ctrl_setting_force_gpu s) (snd setDuty))
  /\ fst (overrides s setDuty) <= 100
  /\ snd (overrides s setDuty) <= 100
  /\ (ctrl_setting_min_cpu s = 60 -> ctrl_setting_force_cpu s = 40 ->
      fst (overrides s setDuty) = 40)
  /\ (0 <= ctrl_setting_min_cpu s -> -1 <= ctrl_setting_force_cpu s ->
      0 <= fst (overrides s setDuty))
  /\ (0 <= ctrl_setting_min_gpu s -> -1 <= ctrl_setting_force_gpu s ->
      0 <= snd (overrides s setDuty)).
Proof.
  intros H0 H1.
  assert (A : forall d off, INT_MIN <= d + off <= INT_MAX ->
                (if c_true off then add32 d off else d) = d + off).
  { intros d off H. unfold c_true.
    destruct (off =? 0) eqn:E; cbn [negb].
    - apply Z.eqb_eq in E. lia.
    - apply add32_small. exact H. }
  assert (E : overrides s setDuty
              = (effective_duty (ctrl_setting_offset_cpu s) (ctrl_setting_min_cpu s)
                   (ctrl_setting_force_cpu s) (fst setDuty),
                 effective_duty (ctrl_setting_offset_gpu s) (ctrl_setting_min_gpu s)
                   (ctrl_setting_force_gpu s) (snd setDuty))).
  { unfold overrides. cbv zeta. rewrite (A _ _ H0), (A _ _ H1).
    unfold effective_duty. rewrite !if_gtb_max.
    f_equal.
    - destruct (ctrl_setting_force_cpu s =? -1); cbn [negb]; apply if_gtb_cap.
    - destruct (ctrl_setting_force_gpu s =? -1); cbn [negb]; apply if_gtb_cap. }
  rewrite E. cbn [fst snd]. unfold effective_duty.
  repeat split.
  - lia.
  - lia.
  - intros Hm Hf. rewrite Hf. reflexivity.
  - intros Hm Hf. destruct (Z.eqb_spec (ctrl_setting_force_cpu s) (-1)); lia.
  - intros Hm Hf. destruct (Z.eqb_spec (ctrl_setting_force_gpu s) (-1)); lia.
Qed.

Lemma overrides_order_witness :
  fst (overrides (ctrl_line (ctrl_line session_start "min_cpu 60") "force_cpu 40")
         (25, 25)) = 40.
Proof.
  apply (proj1 (proj2 (proj2 (proj2
           (overrides_order
              (ctrl_line (ctrl_line session_start "min_cpu 60") "force_cpu 40")
              (25, 25)
              ltac:(vm_compute; split; discriminate)
              ltac:(vm_compute; split; discriminate)))))); reflexivity.
Defined.

(* ===================================================================== *)
(** * The dual-sensor loop: rate limiting *)
(* ===================================================================== *)

(** The control-file pass leaves the controller's own state alone. *)
Lemma ctrl_lines_frame (buffers : list string) :
  forall s : session,
    let s' := fold_left ctrl_line buffers s in
    initial s' = initial s /\ current s' = current s /\ lastCPU s' = lastCPU s
    /\ lastGPU s' = lastGPU s /\ repeatCheck s' = repeatCheck s
    /\ lastfail s' = lastfail s /\ missing s' = missing s
    /\ ctrl_check s' = ctrl_check s.
Proof.
  induction buffers as [|b bs IH]; intros s; cbn [fold_left].
  - repeat split.
  - specialize (IH (ctrl_line s b)). cbv zeta in *. exact IH.
Qed.

Lemma ctrl_reload_frame (inp : cycle_input) (s : session) :
  let s' := ctrl_reload inp s in
  initial s' = initial s /\ current s' = current s /\ lastCPU s' = lastCPU s
  /\ lastGPU s' = lastGPU s /\ repeatCheck s' = repeatCheck s
  /\ lastfail s' = lastfail s /\ missing s' = missing s.
Proof.
  unfold ctrl_reload.
  destruct (ctrl_check s >=? 3); [destruct (ctrl_file inp) as [bs|]|];
    try (cbn; repeat split; fail).
  cbv zeta.
  match goal with
  | |- context [fold_left ctrl_line bs ?s1] =>
      destruct (ctrl_lines_frame bs s1) as (A & B & C & D & E & F & G & _)
  end.
  repeat split; assumption.
Qed.

Lemma cycle_cputemp_reload (inp : cycle_input) (s : session) :
  cycle_cputemp inp (ctrl_reload inp s) = cycle_cputemp inp s.
Proof.
  destruct (ctrl_reload_frame inp s) as (_ & _ & H & _).
  unfold cycle_cputemp. rewrite H. reflexivity.
Qed.

(** The rate limiter on a small downward request. *)
Lemma rate_limit_small_decrease (current setDuty repeatCheck : Z) :
  0 <= setDuty -> current <= 100 -> current - 5 <= setDuty < current ->
  rate_limit current setDuty repeatCheck
  = if repeatCheck >=? 4 then (1, 0) else (0, repeatCheck + 1).
Proof.
  intros Hs Hc Hd. unfold rate_limit.
  rewrite !add32_small by (unfold INT_MIN, INT_MAX; lia).
  destruct (Z.eqb_spec current 0); [lia|]. cbn [andb].
  rewrite !Z.gtb_ltb.
  destruct (Z.ltb_spec current setDuty); [lia|]. cbn [andb].
  destruct (Z.ltb_spec (current + 1) setDuty); [lia|].
  destruct (Z.ltb_spec setDuty (current + -5)); [lia|].
  destruct (Z.ltb_spec setDuty current); [|lia].
  destruct (repeatCheck >=? 4); reflexivity.
Qed.

(** A cycle that asks for the duty already applied leaves the counter alone. *)
Lemma rate_limit_no_request (current repeatCheck : Z) :
  0 <= current <= 100 ->
  rate_limit current current repeatCheck = (0, repeatCheck).
Proof.
  intros Hc. unfold rate_limit.
  rewrite !add32_small by (unfold INT_MIN, INT_MAX; lia).
  rewrite !Z.gtb_ltb, Z.ltb_irrefl.
  destruct (Z.eqb_spec current 0) as [->|_]; cbn [andb negb Z.eqb].
  - reflexivity.
  - destruct (Z.ltb_spec (current + 1) current); [lia|].
    destruct (Z.ltb_spec current (current + -5)); [lia|].
    reflexivity.
Qed.

(** The counters a cycle leaves behind are those of the rate limiter,
    whatever the first-cycle, re-sync and fault blocks do afterwards. *)
Lemma found_cycle_repeatCheck (inp : cycle_input) (s : session) :
  repeatCheck (fst (found_cycle inp s))
  = (snd (rate_limit (fst (current s)) (fst (cycle_setDuty inp s))
            (fst (repeatCheck s))),
     snd (rate_limit (snd (current s)) (snd (cycle_setDuty inp s))
            (snd (repeatCheck s)))).
Proof.
  unfold found_cycle, cycle_setDuty.
  destruct (ctrl_reload_frame inp s) as (_ & Fc & _ & _ & Fr & _).
  cbv zeta in Fc, Fr.
  set (s1 := ctrl_reload inp s) in *.
  set (sd := overrides s1 _).
  rewrite Fc, Fr.
  destruct (resync inp (initial s1) (current s) _ sd) as [[i' doSet] setDuty].
  destruct (fault_guard _ (lastfail s1) doSet setDuty) as [[l' doSet'] setDuty'].
  destruct (apply_duty inp (current s) doSet' setDuty') as [c' w].
  reflexivity.
Qed.

(** C7, as stated, fails twice.  The held-back requests need not be
    consecutive: with the CPU target alternating between 56 and the applied
    60, the fifth request is applied although no two requests were adjacent.
    And an apply forced by the re-sync does not reset the counter: the CPU
    writer is called while the CPU counter goes from 1 to 2. *)
Lemma debounce_not_consecutive_nor_reset :
  (map fst (targets_trace alternating warm_session)
   = [56; 60; 56; 60; 56; 60; 56; 60; 56]
   /\ current warm_session = (60, 60)
   /\ snd (run alternating warm_session) = [Write_cpu 56])
  /\ (let s1 := fst (found_cycle held_request warm_session) in
      repeatCheck s1 = (1, 0)
      /\ snd (found_cycle out_of_band s1) = [Write_cpu 60; Write_gpu 60]
      /\ repeatCheck (fst (found_cycle out_of_band s1)) = (2, 0)).
Proof. vm_compute. repeat split. Qed.

(** C7 (amended): in the rate limiter, a downward request of at most 5
    points below the current duty is not applied while the channel's repeat
    counter is below 4: the counter is incremented instead, and a cycle that
    asks for the current duty leaves it as it is; once the counter has
    reached 4 the request is applied.  The counter is reset whenever the rate
    limiter itself decides to apply on the channel, and the counters a cycle
    leaves behind are the rate limiter's, untouched by the applies forced
    later in the cycle. *)
Theorem debounce_counter (cur target count : Z) :
  0 <= target <= cur -> cur <= 100 -> cur - 5 <= target ->
  (target < cur -> count < 4 -> rate_limit cur target count = (0, count + 1))
  /\ (target < cur -> 4 <= count -> rate_limit cur target count = (1, 0))
  /\ (target = cur -> rate_limit cur target count = (0, count))
  /\ (forall c d r, fst (rate_limit c d r) <> 0 -> snd (rate_limit c d r) = 0)
  /\ (forall inp s,
        repeatCheck (fst (found_cycle inp s))
        = (snd (rate_limit (fst (current s)) (fst (cycle_setDuty inp s))
                  (fst (repeatCheck s))),
           snd (rate_limit (snd (current s)) (snd (cycle_setDuty inp s))
                  (snd (repeatCheck s))))).
Proof.
  intros Hs Hc Hd.
  split; [|split; [|split; [|split]]].
  - intros Hlt H.
    rewrite rate_limit_small_decrease by lia.
    destruct (Z.geb_spec count 4); [lia|reflexivity].
  - intros Hlt H.
    rewrite rate_limit_small_decrease by lia.
    destruct (Z.geb_spec count 4); [reflexivity|lia].
  - intros ->. apply rate_limit_no_request. lia.
  - intros c d r H. unfold rate_limit in *. cbn [fst snd] in *.
    unfold c_true.
    match goal with
    | |- (if negb (?x =? 0) then _ else _) = _ => destruct (Z.eqb_spec x 0)
    end; [contradiction|reflexivity].
  - intros inp s. apply found_cycle_repeatCheck.
Qed.

Lemma debounce_counter_witness :
  rate_limit 60 57 2 = (0, 3) /\ rate_limit 60 57 4 = (1, 0)
  /\ rate_limit 60 60 2 = (0, 2).
Proof.
  pose proof (debounce_counter 60 57 2 ltac:(lia) ltac:(lia) ltac:(lia)) as H2.
  pose proof (debounce_counter 60 57 4 ltac:(lia) ltac:(lia) ltac:(lia)) as H4.
  pose proof (debounce_counter 60 60 2 ltac:(lia) ltac:(lia) ltac:(lia)) as H0.
  split; [|split].
  - apply (proj1 H2); lia.
  - apply (proj1 (proj2 H4)); lia.
  - apply (proj1 (proj2 (proj2 H0))); reflexivity.
Defined.

(** Attempts on one channel only call that channel's writer. *)
Lemma write_attempts_gpu_only (n : nat) :
  forall (j : nat) (inp : cycle_input) (duty d : Z),
    ~ In (Write_cpu d) (write_attempts n j inp true duty).
Proof.
  induction n as [|n IH]; intros j inp duty d; cbn [write_attempts].
  - intros [].
  - intros [H|H]; [discriminate H|].
    destruct ((write_result inp true j =? EXIT_SUCCESS)
              && (verify_read inp true j =? duty)); [destruct H|].
    exact (IH _ _ _ _ H).
Qed.

Lemma write_attempts_cpu_only (n : nat) :
  forall (j : nat) (inp : cycle_input) (duty d : Z),
    ~ In (Write_gpu d) (write_attempts n j inp false duty).
Proof.
  induction n as [|n IH]; intros j inp duty d; cbn [write_attempts].
  - intros [].
  - intros [H|H]; [discriminate H|].
    destruct ((write_result inp false j =? EXIT_SUCCESS)
              && (verify_read inp false j =? duty)); [destruct H|].
    exact (IH _ _ _ _ H).
Qed.

(** The same at the level of a whole cycle, for the CPU channel: past the
    first cycle, with the hardware reporting the duties last applied and no
    temperature fault, a held-back request causes no call of the CPU writer
    and leaves the CPU duty as it was. *)
Lemma found_cycle_debounce_cpu (inp : cycle_input) (s : session) :
  initial s = 0 ->
  cur_cpu_setting inp = fst (current s) ->
  cur_gpu_setting inp = snd (current s) ->
  temp_fail (cycle_cputemp inp s) (cycle_gputemp inp) = false ->
  0 <= fst (cycle_setDuty inp s) ->
  fst (current s) <= 100 ->
  fst (current s) - 5 <= fst (cycle_setDuty inp s) < fst (current s) ->
  fst (repeatCheck s) < 4 ->
  fst (current (fst (found_cycle inp s))) = fst (current s)
  /\ fst (repeatCheck (fst (found_cycle inp s))) = fst (repeatCheck s) + 1
  /\ forall d, ~ In (Write_cpu d) (snd (found_cycle inp s)).
Proof.
  intros Hi Hc0 Hc1 Hf Hs Hc Hd Hr.
  unfold found_cycle, cycle_setDuty in *.
  rewrite cycle_cputemp_reload.
  destruct (ctrl_reload_frame inp s) as (Fi & Fc & _ & _ & Fr & Fl & _).
  cbv zeta in Fi, Fc, Fr, Fl.
  set (s1 := ctrl_reload inp s) in *.
  set (sd := overrides s1 _) in *.
  rewrite Fi, Fc, Fr, Fl, Hf.
  rewrite (rate_limit_small_decrease _ _ (fst (repeatCheck s)) Hs Hc Hd).
  destruct (Z.geb_spec (fst (repeatCheck s)) 4) as [?|_]; [lia|].
  unfold resync. rewrite Hi, Hc0, Hc1, !Z.eqb_refl.
  cbn [c_true negb orb Z.eqb fault_guard apply_duty fst snd current repeatCheck app].
  repeat split.
  intros d.
  destruct (c_true (fst (rate_limit (snd (current s)) (snd sd) (snd (repeatCheck s))))).
  - apply write_attempts_gpu_only.
  - intros [].
Qed.

(** The lemma applies to the warm session and a cycle that asks for 57. *)
Lemma found_cycle_debounce_cpu_example :
  fst (current (fst (found_cycle held_request warm_session)))
  = fst (current warm_session)
  /\ fst (repeatCheck (fst (found_cycle held_request warm_session)))
     = fst (repeatCheck warm_session) + 1
  /\ forall d, ~ In (Write_cpu d) (snd (found_cycle held_request warm_session)).
Proof.
  apply found_cycle_debounce_cpu; vm_compute;
    first [reflexivity | discriminate | split; first [reflexivity | discriminate]].
Qed.

(* ===================================================================== *)
(** * The dual-sensor loop: temperature faults *)
(* ===================================================================== *)

(** C5, as stated, fails for the CPU: the test uses the reading after the
    clamp to lastCPU - 10.  Once the session is warm (lastCPU = 80), a raw
    CPU reading of 5 enters the cycle as 70, is not a fault, and the cycle
    changes both duties. *)
Lemma raw_cpu_reading_below_floor_not_absorbed :
  let inp := sample 5 30 60 60 (43, 21) in
  cpu_temp_reads inp 0%nat < TEMP_FAIL_THRESHOLD
  /\ lastfail warm_session = 0
  /\ current warm_session = (60, 60)
  /\ snd (found_cycle inp warm_session) = [Write_cpu 43; Write_gpu 21]
  /\ current (fst (found_cycle inp warm_session)) = (43, 21).
Proof. vm_compute. repeat split. Qed.

(** C5 (amended): in a cycle of the dual-sensor loop where the CPU
    temperature after the downward clamp, or the GPU temperature, is below
    15, the cycle makes no writer call and leaves both duties unchanged if
    the fault counter is zero, and otherwise raises both targets to at least
    50 and applies both; so of two consecutive such cycles the first changes
    nothing and the second applies at least 50 on both channels.  A cycle
    without such a reading resets the fault counter. *)
Theorem fault_absorption (inp : cycle_input) (s : session) :
  (temp_fail (cycle_cputemp inp s) (cycle_gputemp inp) = true ->
   lastfail s < 1 ->
   snd (found_cycle inp s) = []
   /\ current (fst (found_cycle inp s)) = current s
   /\ lastfail (fst (found_cycle inp s)) = lastfail s + 1)
  /\ (temp_fail (cycle_cputemp inp s) (cycle_gputemp inp) = true ->
      1 <= lastfail s ->
      50 <= fst (current (fst (found_cycle inp s)))
      /\ 50 <= snd (current (fst (found_cycle inp s)))
      /\ snd (found_cycle inp s)
         = write_attempts 3 0 inp false (fst (current (fst (found_cycle inp s))))
           ++ write_attempts 3 0 inp true (snd (current (fst (found_cycle inp s))))
      /\ lastfail (fst (found_cycle inp s)) = lastfail s)
  /\ (temp_fail (cycle_cputemp inp s) (cycle_gputemp inp) = false ->
      lastfail (fst (found_cycle inp s)) = 0)
  /\ (forall inp2 : cycle_input,
        lastfail s = 0 ->
        temp_fail (cycle_cputemp inp s) (cycle_gputemp inp) = true ->
        temp_fail (cycle_cputemp inp2 (fst (found_cycle inp s))) (cycle_gputemp inp2)
        = true ->
        snd (found_cycle inp s) = []
        /\ exists d0 d1,
             50 <= d0 /\ 50 <= d1
             /\ current (fst (found_cycle inp2 (fst (found_cycle inp s)))) = (d0, d1)
             /\ snd (found_cycle inp2 (fst (found_cycle inp s)))
                = write_attempts 3 0 inp2 false d0 ++ write_attempts 3 0 inp2 true d1).
Proof.
  assert (First : forall inp s,
             temp_fail (cycle_cputemp inp s) (cycle_gputemp inp) = true ->
             lastfail s < 1 ->
             snd (found_cycle inp s) = []
             /\ current (fst (found_cycle inp s)) = current s
             /\ lastfail (fst (found_cycle inp s)) = lastfail s + 1).
  { clear inp s. intros inp s Hf Hl.
    unfold found_cycle. rewrite cycle_cputemp_reload.
    destruct (ctrl_reload_frame inp s) as (_ & Fc & _ & _ & _ & Fl & _).
    cbv zeta in Fc, Fl.
    set (s1 := ctrl_reload inp s) in *.
    destruct (resync inp (initial s1) (current s1) _ _) as [[i' doSet] setDuty].
    rewrite Hf, Fl, Fc. unfold fault_guard.
    destruct (Z.geb_spec (lastfail s) 1); [lia|].
    cbn. destruct (current s). repeat split. }
  assert (Second : forall inp s,
             temp_fail (cycle_cputemp inp s) (cycle_gputemp inp) = true ->
             1 <= lastfail s ->
             50 <= fst (current (fst (found_cycle inp s)))
             /\ 50 <= snd (current (fst (found_cycle inp s)))
             /\ snd (found_cycle inp s)
                = write_attempts 3 0 inp false (fst (current (fst (found_cycle inp s))))
                  ++ write_attempts 3 0 inp true (snd (current (fst (found_cycle inp s))))
             /\ lastfail (fst (found_cycle inp s)) = lastfail s).
  { clear inp s. intros inp s Hf Hl.
    unfold found_cycle. rewrite cycle_cputemp_reload.
    destruct (ctrl_reload_frame inp s) as (_ & Fc & _ & _ & _ & Fl & _).
    cbv zeta in Fc, Fl.
    set (s1 := ctrl_reload inp s) in *.
    destruct (resync inp (initial s1) (current s1) _ _) as [[i' doSet] setDuty].
    rewrite Hf, Fl, Fc. unfold fault_guard.
    destruct (Z.geb_spec (lastfail s) 1); [|lia].
    cbn [apply_duty c_true Z.eqb negb fst snd current lastfail].
    repeat split.
    - destruct (Z.ltb_spec (fst setDuty) 50); lia.
    - destruct (Z.ltb_spec (snd setDuty) 50); lia. }
  split; [apply First|]. split; [apply Second|]. split.
  - intros Hf.
    unfold found_cycle. rewrite cycle_cputemp_reload.
    set (s1 := ctrl_reload inp s) in *.
    destruct (resync inp (initial s1) (current s1) _ _) as [[i' doSet] setDuty].
    rewrite Hf. unfold fault_guard.
    destruct (apply_duty inp (current s1) doSet setDuty). reflexivity.
  - intros inp2 Hl Hf Hf2.
    destruct (First inp s Hf ltac:(lia)) as (E1 & _ & L1).
    split; [exact E1|].
    destruct (Second inp2 (fst (found_cycle inp s)) Hf2 ltac:(lia)) as (A & B & C & _).
    exists (fst (current (fst (found_cycle inp2 (fst (found_cycle inp s)))))),
           (snd (current (fst (found_cycle inp2 (fst (found_cycle inp s)))))).
    repeat split; try assumption.
    destruct (current (fst (found_cycle inp2 (fst (found_cycle inp s))))); reflexivity.
Qed.

Lemma fault_absorption_witness :
  snd (found_cycle (sample 50 10 0 0 (0, 0)) session_start) = []
  /\ current (fst (found_cycle (sample 50 10 0 0 (0, 0)) session_start))
     = current session_start
  /\ lastfail (fst (found_cycle (sample 50 10 0 0 (0, 0)) session_start))
     = lastfail session_start + 1.
Proof.
  apply (proj1 (fault_absorption (sample 50 10 0 0 (0, 0)) session_start));
    vm_compute; reflexivity.
Defined.

(* ===================================================================== *)
(** * The dual-sensor loop: missing GPU input *)
(* ===================================================================== *)

Lemma run_app (xs ys : list cycle_input) :
  forall s : session,
    run (xs ++ ys) s
    = match run xs s with
      | (Continue s', calls) =>
          let (o, calls') := run ys s' in (o, calls ++ calls')
      | (Exit status, calls) => (Exit status, calls)
      end.
Proof.
  induction xs as [|x xs IH]; intros s; cbn [app run].
  - destruct (run ys s) as [o c]. reflexivity.
  - destruct (iteration x s) as [[s'|status] c]; [|reflexivity].
    rewrite IH.
    destruct (run xs s') as [[s''|status] c']; [|reflexivity].
    destruct (run ys s'') as [o c'']. rewrite app_assoc. reflexivity.
Qed.

Lemma set_missing_same (s : session) : set_missing (missing s) s = s.
Proof. destruct s; reflexivity. Qed.

(** Cycles without a token only count, as long as the counter is at most 5
    when they start. *)
Lemma run_missed (inputs : list cycle_input) :
  forall s : session,
    Forall (fun inp => stdin_tokens inp = []) inputs ->
    missing s + Z.of_nat (List.length inputs) <= 6 ->
    run inputs s
    = (Continue (set_missing (missing s + Z.of_nat (List.length inputs)) s), []).
Proof.
  induction inputs as [|inp rest IH]; intros s Hall Hm.
  - cbn [run List.length Z.of_nat]. rewrite Z.add_0_r, set_missing_same. reflexivity.
  - inversion Hall as [|? ? Hinp Hrest]; subst.
    cbn [List.length] in Hm. rewrite Nat2Z.inj_succ in Hm.
    cbn [run]. unfold iteration. rewrite Hinp.
    rewrite Z.gtb_ltb. destruct (Z.ltb_spec 5 (missing s)); [lia|].
    rewrite (IH (missed_cycle s) Hrest) by (cbn [missed_cycle missing]; lia).
    cbn [List.length missed_cycle missing set_missing initial current lastCPU lastGPU
         repeatCheck lastfail ctrl_check ctrl_setting_offset_cpu
         ctrl_setting_offset_gpu ctrl_setting_min_cpu ctrl_setting_min_gpu
         ctrl_setting_force_cpu ctrl_setting_force_gpu app].
    rewrite Nat2Z.inj_succ.
    replace (missing s + 1 + Z.of_nat (List.length rest))
      with (missing s + Z.succ (Z.of_nat (List.length rest))) by lia.
    reflexivity.
Qed.

(** C2, as stated, fails: after five consecutive cycles without a GPU token
    the sixth iteration still passes the test [missing > 5]; without a token
    it only counts, with a token it runs a normal cycle and clears the
    counter.  No 70% write and no exit happen. *)
Lemma five_missing_cycles_do_not_terminate :
  run (repeat silent 5) session_start = (Continue (set_missing 5 session_start), [])
  /\ run (repeat silent 5 ++ [silent]) session_start
     = (Continue (set_missing 6 session_start), [])
  /\ (let r := run (repeat silent 5 ++ [sample 50 50 0 0 (20, 15)]) session_start in
      snd r = [Write_cpu 20; Write_gpu 15]
      /\ match fst r with Continue s => missing s = 0 | Exit _ => False end).
Proof. vm_compute. repeat split. Qed.

(** C2 (amended): starting with the missing-input counter at zero, up to six
    consecutive cycles without a GPU token only count; when six such cycles
    have gone by, the next iteration calls the GPU and the CPU duty writers
    with 70 and exits with status 1. *)
Theorem liveness_after_six_missing (s : session) (inputs : list cycle_input)
    (next : cycle_input) :
  missing s = 0 ->
  Forall (fun inp => stdin_tokens inp = []) inputs ->
  (List.length inputs <= 6)%nat ->
  run inputs s = (Continue (set_missing (Z.of_nat (List.length inputs)) s), [])
  /\ (List.length inputs = 6%nat ->
      run (inputs ++ [next]) s = (Exit 1, [Write_gpu 70; Write_cpu 70])).
Proof.
  intros Hm Hall Hlen.
  assert (R : run inputs s
              = (Continue (set_missing (Z.of_nat (List.length inputs)) s), [])).
  { rewrite (run_missed inputs s Hall) by lia. rewrite Hm. reflexivity. }
  split; [exact R|].
  intros H6. rewrite run_app, R, H6.
  reflexivity.
Qed.

Lemma liveness_after_six_missing_witness :
  run (repeat silent 6 ++ [silent]) session_start
  = (Exit 1, [Write_gpu 70; Write_cpu 70]).
Proof.
  apply (proj2 (liveness_after_six_missing session_start (repeat silent 6) silent
                  eq_refl
                  ltac:(repeat constructor)
                  ltac:(cbn; lia))).
  reflexivity.
Defined.

(* ===================================================================== *)
(** * The shared control block *)
(* ===================================================================== *)

(** C9, as stated, fails for the applied auto-duty: after the worker has
    recorded an automatic duty of 100, a menu command of the presentation
    side stores 0 into [auto_duty_val]. *)
Lemma presentation_resets_auto_duty_val :
  let c1 := step (Ui_command_set_fan 60) config_after_auto in
  let c2 := step Ui_step c1 in
  actor_of Ui_step = Presentation
  /\ auto_duty_val (share_info c1) = 100
  /\ auto_duty_val (share_info c2) = 0.
Proof. vm_compute. repeat split. Qed.

(** The exit flag stays set along any interleaving. *)
Lemma exit_stays_set (ls : list label) :
  forall c : config,
    exit (share_info c) <> 0 -> exit (share_info (interleave ls c)) <> 0.
Proof.
  induction ls as [|l ls IH]; intros c H; cbn [interleave fold_left].
  - exact H.
  - apply IH.
    destruct l; cbn [step].
    + destruct (worker_step e (wpc c) (share_info c)) as [[pc sh'] w] eqn:E.
      cbn [share_info].
      destruct (wpc c); cbn [worker_step] in E;
        repeat match type of E with
               | context [if ?b then _ else _] => destruct b
               end;
        inversion E; subst; cbn; exact H.
    + destruct (wpc c); cbn; try exact H; discriminate.
    + destruct (ppc c); cbn; exact H.
    + destruct (ppc c); cbn; exact H.
    + exact H.
    + destruct (ppc c); cbn; try exact H; discriminate.
    + destruct (ppc c); cbn; try exact H; discriminate.
    + exact H.
Qed.

(** C9 (amended): at every step of every interleaving, a step of the
    presentation side leaves cpu_temp, gpu_temp, fan_duty, fan_rpms and
    manual_prev_fan_duty unchanged, and changes auto_duty_val only by storing
    0; a step of the worker leaves auto_duty and manual_next_fan_duty
    unchanged; and once the exit flag is non-zero it stays non-zero. *)
Theorem single_writer_discipline (ls : list label) (l : label) (c0 : config) :
  let c := interleave ls c0 in
  let c' := step l c in
  (actor_of l = Presentation ->
   cpu_temp (share_info c') = cpu_temp (share_info c)
   /\ gpu_temp (share_info c') = gpu_temp (share_info c)
   /\ fan_duty (share_info c') = fan_duty (share_info c)
   /\ fan_rpms (share_info c') = fan_rpms (share_info c)
   /\ manual_prev_fan_duty (share_info c') = manual_prev_fan_duty (share_info c)
   /\ (auto_duty_val (share_info c') = auto_duty_val (share_info c)
       \/ auto_duty_val (share_info c') = 0))
  /\ (actor_of l = Worker ->
      auto_duty (share_info c') = auto_duty (share_info c)
      /\ manual_next_fan_duty (share_info c') = manual_next_fan_duty (share_info c))
  /\ (exit (share_info c) <> 0 -> exit (share_info c') <> 0)
  /\ (exit (share_info c0) <> 0 -> exit (share_info c) <> 0).
Proof.
  intros c c'. subst c'.
  split; [|split; [|split]]; [| | |intros H; exact (exit_stays_set ls c0 H)];
    generalize c as k; clear c; intros k.
  - intros Ha.
    destruct l; try discriminate Ha; cbn [step];
      destruct (ppc k); cbn; repeat split; auto.
  - intros Ha.
    destruct l; try discriminate Ha; cbn [step].
    + destruct (worker_step e (wpc k) (share_info k)) as [[pc sh'] w] eqn:E.
      cbn [share_info].
      destruct (wpc k); cbn [worker_step] in E;
        repeat match type of E with
               | context [if ?b then _ else _] => destruct b
               end;
        inversion E; subst; cbn; split; reflexivity.
    + destruct (wpc k); cbn; split; reflexivity.
  - intros H. exact (exit_stays_set [l] k H).
Qed.

Lemma single_writer_discipline_witness :
  auto_duty (share_info (step (Worker_step (dump 85 128)) config_start))
  = auto_duty (share_info config_start)
  /\ manual_next_fan_duty (share_info (step (Worker_step (dump 85 128)) config_start))
     = manual_next_fan_duty (share_info config_start).
Proof.
  exact (proj1 (proj2 (single_writer_discipline [] (Worker_step (dump 85 128))
                         config_start)) eq_refl).
Defined.

(* ===================================================================== *)
(** * The loop counters stay small *)
(* ===================================================================== *)

Lemma rate_limit_counter (c d r : Z) :
  0 <= r <= 4 -> 0 <= snd (rate_limit c d r) <= 4.
Proof.
  intros H. unfold rate_limit.
  destruct (Z.geb_spec r 4);
    repeat match goal with
           | |- context [if ?b then _ else _] => destruct b; cbn [fst snd c_true Z.eqb negb]
           end; lia.
Qed.

Lemma ctrl_reload_check (inp : cycle_input) (s : session) :
  0 <= ctrl_check s <= 3 -> 0 <= ctrl_check (ctrl_reload inp s) <= 3.
Proof.
  intros H. unfold ctrl_reload.
  destruct (Z.geb_spec (ctrl_check s) 3).
  - destruct (ctrl_file inp) as [bs|]; [|cbn; lia].
    match goal with
    | |- context [fold_left ctrl_line bs ?s1] =>
        destruct (ctrl_lines_frame bs s1) as (_ & _ & _ & _ & _ & _ & _ & E)
    end.
    rewrite E. cbn. lia.
  - cbn. lia.
Qed.

Lemma found_cycle_counters (inp : cycle_input) (s : session) :
  0 <= lastfail s <= 1 ->
  0 <= lastfail (fst (found_cycle inp s)) <= 1
  /\ missing (fst (found_cycle inp s)) = 0
  /\ ctrl_check (fst (found_cycle inp s)) = ctrl_check (ctrl_reload inp s).
Proof.
  intros Hl. unfold found_cycle.
  destruct (ctrl_reload_frame inp s) as (_ & _ & _ & _ & _ & Fl & _).
  cbv zeta in Fl.
  set (s1 := ctrl_reload inp s) in *.
  destruct (resync inp (initial s1) (current s1) _ _) as [[i' doSet] setDuty].
  rewrite Fl. unfold fault_guard.
  destruct (temp_fail _ _); [destruct (Z.geb_spec (lastfail s) 1)|];
    match goal with
    | |- context [apply_duty ?a ?b ?c ?d] => destruct (apply_duty a b c d)
    end; cbn [fst lastfail missing ctrl_check]; repeat split; lia.
Qed.

(** Every iteration that continues keeps the counters within their bounds. *)
Lemma iteration_counters (inp : cycle_input) (s s' : session) (c : list call) :
  counters_ok s -> iteration inp s = (Continue s', c) -> counters_ok s'.
Proof.
  intros (R0 & R1 & L & M & K) E. unfold iteration in E.
  rewrite Z.gtb_ltb in E. destruct (Z.ltb_spec 5 (missing s)); [discriminate E|].
  destruct (stdin_tokens inp).
  - inversion E; subst. unfold counters_ok. cbn. repeat split; lia.
  - pose proof (found_cycle_repeatCheck inp s) as HR.
    pose proof (found_cycle_counters inp s L) as (HL & HM & HK).
    pose proof (ctrl_reload_check inp s K) as HC.
    pose proof (rate_limit_counter (fst (current s)) (fst (cycle_setDuty inp s)) _ R0).
    pose proof (rate_limit_counter (snd (current s)) (snd (cycle_setDuty inp s)) _ R1).
    destruct (found_cycle inp s) as [s2 c2]. inversion E; subst.
    cbn [fst] in *. unfold counters_ok. rewrite HR, HM, HK. cbn [fst snd].
    repeat split; lia.
Qed.

Lemma counters_ok_start : counters_ok session_start.
Proof. unfold counters_ok. cbn. lia. Qed.

(* ===================================================================== *)
(** * Further properties: the telemetry codec *)
(* ===================================================================== *)

Lemma land_shiftl8_byte (hi lo : Z) :
  0 <= lo < 256 -> Z.land (Z.shiftl hi 8) lo = 0.
Proof.
  intros H. apply Z.bits_inj'. intros n Hn.
  rewrite Z.land_spec, Z.bits_0.
  destruct (Z.lt_ge_cases n 8) as [Hlt|Hge].
  - rewrite Z.shiftl_spec_low by lia. reflexivity.
  - destruct (Z.eq_dec lo 0) as [->|Hz].
    + rewrite Z.bits_0. apply andb_false_r.
    + rewrite (Z.bits_above_log2 lo n); [apply andb_false_r | lia |].
      assert (Z.log2 lo < 8) by (apply Z.log2_lt_pow2; lia). lia.
Qed.

(** X1: for a high and a low byte, [calculate_fan_rpms] combines them as
    (hi << 8) | lo, yields 0 when the combined value is 0 and 2156220
    divided by it (integer division) otherwise; the result is at most
    2156220, at least 32 for a non-zero raw value, and does not increase
    when the raw value does. *)
Theorem calculate_fan_rpms_decodes (hi lo hi' lo' : Z) :
  0 <= hi <= 255 -> 0 <= lo <= 255 -> 0 <= hi' <= 255 -> 0 <= lo' <= 255 ->
  let raw := Z.lor (Z.shiftl hi 8) lo in
  let raw' := Z.lor (Z.shiftl hi' 8) lo' in
  raw = 256 * hi + lo
  /\ (raw = 0 -> calculate_fan_rpms hi lo = 0)
  /\ (raw <> 0 ->
      calculate_fan_rpms hi lo = 2156220 / raw
      /\ 32 <= calculate_fan_rpms hi lo <= 2156220)
  /\ (0 < raw <= raw' -> calculate_fan_rpms hi' lo' <= calculate_fan_rpms hi lo).
Proof.
  intros Hh Hl Hh' Hl'.
  assert (L : forall h l, 0 <= h <= 255 -> 0 <= l <= 255 ->
                Z.lor (Z.shiftl h 8) l = 256 * h + l
                /\ Z.shiftl h 8 + l = 256 * h + l).
  { intros h l _ Hlo.
    pose proof (Z.add_lor_land (Z.shiftl h 8) l) as A.
    rewrite land_shiftl8_byte in A by lia.
    rewrite Z.shiftl_mul_pow2 in * by lia.
    change (2 ^ 8) with 256 in *. lia. }
  destruct (L hi lo Hh Hl) as [E1 E2]. destruct (L hi' lo' Hh' Hl') as [E1' E2'].
  cbv zeta. rewrite E1, E1'. unfold calculate_fan_rpms. rewrite E2, E2'.
  assert (Q : forall r, 0 < r -> r <= 65535 ->
                (if r >? 0 then Z.quot 2156220 r else 0) = 2156220 / r
                /\ 32 <= 2156220 / r <= 2156220).
  { intros r Hr Hr'. rewrite Z.gtb_ltb.
    destruct (Z.ltb_spec 0 r); [|lia].
    rewrite Z.quot_div_nonneg by lia. split; [reflexivity|].
    split.
    - apply Z.div_le_lower_bound; lia.
    - apply Z.div_le_upper_bound; nia. }
  split; [reflexivity|]. split; [|split].
  - intros ->. reflexivity.
  - intros Hnz.
    destruct (Q (256 * hi + lo) ltac:(lia) ltac:(lia)) as [Qe Qb].
    rewrite Qe. split; [reflexivity | exact Qb].
  - intros [Hpos Hle].
    rewrite (proj1 (Q (256 * hi + lo) ltac:(lia) ltac:(lia))).
    rewrite (proj1 (Q (256 * hi' + lo') ltac:(lia) ltac:(lia))).
    apply Z.div_le_compat_l; lia.
Qed.

Lemma calculate_fan_rpms_decodes_witness :
  calculate_fan_rpms 0x03 0xE8 = 2156220 / Z.lor (Z.shiftl 0x03 8) 0xE8
  /\ 32 <= calculate_fan_rpms 0x03 0xE8 <= 2156220.
Proof.
  apply (proj1 (proj2 (proj2
           (calculate_fan_rpms_decodes 0x03 0xE8 0 0
              ltac:(lia) ltac:(lia) ltac:(lia) ltac:(lia))))).
  vm_compute. discriminate.
Defined.

(** The encoder agrees with rounding to nearest on every percentage. *)
Lemma duty_to_raw_rounds (p : Z) :
  0 <= p <= 100 -> duty_to_raw p = round_div (p * 255) 100.
Proof.
  intros H.
  pose proof (forallb_range _ _ duty_codec_checked p ltac:(lia)) as C.
  cbv beta in C. repeat rewrite andb_true_iff in C.
  destruct C as [[[[C1 _] _] _] _]. now apply Z.eqb_eq in C1.
Qed.

(** X2: on every byte, [calculate_fan_duty] is round(raw * 100 / 255); it
    maps 0 to 0 and 255 to 100, stays within 0..100 and is monotone. *)
Theorem calculate_fan_duty_on_bytes (raw raw' : Z) :
  0 <= raw <= raw' -> raw' <= 255 ->
  calculate_fan_duty raw = (200 * raw + 255) / 510
  /\ 0 <= calculate_fan_duty raw <= 100
  /\ calculate_fan_duty raw <= calculate_fan_duty raw'
  /\ calculate_fan_duty 0 = 0 /\ calculate_fan_duty 255 = 100.
Proof.
  intros H H'.
  rewrite !calculate_fan_duty_rounds by lia. unfold round_div.
  replace (2 * (raw * 100) + 255) with (200 * raw + 255) by lia.
  replace (2 * (raw' * 100) + 255) with (200 * raw' + 255) by lia.
  change (2 * 255) with 510.
  repeat split.
  - apply Z.div_pos; lia.
  - apply Z.lt_succ_r. apply Z.div_lt_upper_bound; lia.
  - apply Z.div_le_mono; lia.
Qed.

Lemma calculate_fan_duty_on_bytes_witness :
  calculate_fan_duty 128 = (200 * 128 + 255) / 510
  /\ 0 <= calculate_fan_duty 128 <= 100
  /\ calculate_fan_duty 128 <= calculate_fan_duty 200
  /\ calculate_fan_duty 0 = 0 /\ calculate_fan_duty 255 = 100.
Proof.
  apply (calculate_fan_duty_on_bytes 128 200); lia.
Defined.

(** X3: on 0..100 the byte written for a percentage is round(p * 255 / 100),
    a valid byte, with 0 for 0% and 255 for 100%; a higher percentage gives
    a strictly higher byte, so different percentages never share a byte. *)
Theorem duty_to_raw_on_percentages (p q : Z) :
  0 <= p -> p < q -> q <= 100 ->
  duty_to_raw p = (510 * p + 100) / 200
  /\ 0 <= duty_to_raw p <= 255
  /\ duty_to_raw p < duty_to_raw q
  /\ duty_to_raw 0 = 0 /\ duty_to_raw 100 = 255.
Proof.
  intros H0 H1 H2.
  rewrite !duty_to_raw_rounds by lia. unfold round_div.
  replace (2 * (p * 255) + 100) with (510 * p + 100) by lia.
  replace (2 * (q * 255) + 100) with (510 * q + 100) by lia.
  change (2 * 100) with 200.
  repeat split.
  - apply Z.div_pos; lia.
  - apply Z.lt_succ_r. apply Z.div_lt_upper_bound; lia.
  - apply Z.lt_le_trans with ((510 * p + 100 + 400) / 200).
    + replace (510 * p + 100 + 400) with (510 * p + 100 + 2 * 200) by lia.
      rewrite Z.div_add by lia. lia.
    + apply Z.div_le_mono; lia.
Qed.

Lemma duty_to_raw_on_percentages_witness :
  duty_to_raw 49 = (510 * 49 + 100) / 200
  /\ 0 <= duty_to_raw 49 <= 255
  /\ duty_to_raw 49 < duty_to_raw 50
  /\ duty_to_raw 0 = 0 /\ duty_to_raw 100 = 255.
Proof.
  apply (duty_to_raw_on_percentages 49 50); lia.
Defined.

(* ===================================================================== *)
(** * Further properties: the port protocol *)
(* ===================================================================== *)

Lemma outbs_app (l1 l2 : list port_event) : outbs (l1 ++ l2) = outbs l1 ++ outbs l2.
Proof.
  induction l1 as [|e l1 IH]; cbn [app outbs]; [reflexivity|].
  destruct e; rewrite IH; reflexivity.
Qed.

Lemma outbs_polls (port : Z) (k : nat) : outbs (polls port k) = [].
Proof. induction k as [|k IH]; cbn [polls outbs]; [reflexivity | exact IH]. Qed.

Lemma outbs_wait_events (k : nat) : outbs (wait_events k) = [].
Proof. unfold wait_events. cbn [outbs]. apply outbs_polls. Qed.

Section TracedFacts.
Context {Dev : Type}.
Variable hw : machine Dev.

(** The wait loop on the instrumented machine: same result and device state
    as on the plain machine, [k] retries in the log, and on return either
    the flag has the wanted value or the retries are used up. *)
Lemma traced_wait_loop (fuel : nat) :
  forall (port flag value data i : Z) (d : Dev) (l : list port_event),
    i <= 100 -> 101 - i <= Z.of_nat fuel ->
    exists k : nat,
      Z.of_nat k <= 100 - i
      /\ ec_io_wait_loop (traced hw) fuel port flag value data i (d, l)
         = (fst (ec_io_wait_loop hw fuel port flag value data i d),
            (snd (ec_io_wait_loop hw fuel port flag value data i d),
             l ++ polls port k))
      /\ let r := fst (ec_io_wait_loop hw fuel port flag value data i d) in
         (Z.land (Z.shiftr (fst r) flag) 1 = value /\ snd r = i + Z.of_nat k)
         \/ (Z.land (Z.shiftr (fst r) flag) 1 <> value
             /\ snd r = 101 /\ Z.of_nat k = 100 - i).
Proof.
  induction fuel as [|fuel IH]; intros port flag value data i d l Hi Hf; [lia|].
  cbn [ec_io_wait_loop].
  destruct (Z.eqb_spec (Z.land (Z.shiftr data flag) 1) value) as [He|Hne];
    cbn [negb].
  - exists 0%nat. unfold ret. cbn [polls fst snd]. rewrite app_nil_r.
    split; [lia|]. split; [reflexivity|].
    left. split; [exact He | lia].
  - destruct (Z.ltb_spec i 100) as [Hlt|Hge].
    + unfold bind, act. cbn [traced usleep inb fst snd].
      destruct (inb hw port (usleep hw 1000 d)) as [v d2].
      destruct (IH port flag value (v mod 256) (i + 1) d2
                  ((l ++ [Ev_usleep 1000]) ++ [Ev_inb port])
                  ltac:(lia) ltac:(lia)) as (k & Hk & E & P).
      exists (S k). rewrite E. cbn [polls].
      rewrite <- !app_assoc. cbn [app].
      split; [lia|]. split; [reflexivity|].
      cbv zeta in *. destruct P as [[P1 P2]|[P1 [P2 P3]]]; [left|right];
        repeat split; try assumption; lia.
    + exists 0%nat. unfold ret. cbn [polls fst snd]. rewrite app_nil_r.
      split; [lia|]. split; [reflexivity|].
      right. repeat split; try assumption; lia.
Qed.

Lemma traced_wait (port flag value : Z) (d : Dev) (l : list port_event) :
  exists k : nat,
    (k <= 100)%nat
    /\ ec_io_wait (traced hw) port flag value (d, l)
       = (fst (ec_io_wait hw port flag value d),
          (snd (ec_io_wait hw port flag value d),
           l ++ Ev_inb port :: polls port k)).
Proof.
  unfold ec_io_wait, bind. cbn [traced inb fst snd].
  destruct (inb hw port d) as [v d1].
  destruct (traced_wait_loop 101 port flag value (v mod 256) 0 d1 (l ++ [Ev_inb port])
              ltac:(lia) ltac:(lia)) as (k & Hk & E & _).
  exists k. split; [lia|]. rewrite E.
  destruct (ec_io_wait_loop hw 101 port flag value (v mod 256) 0 d1) as [r d2].
  cbn [fst snd]. rewrite <- app_assoc. cbn [app].
  destruct (snd r >=? 1000); reflexivity.
Qed.

(** X4: [ec_io_wait] reads the port once and then, as long as the flag does
    not have the wanted value, at most 100 more times with a sleep of 1000
    microseconds before each; it writes to no port.  When the loop ends,
    either the last byte read has the flag at the wanted value or all 100
    retries are used up and the counter is 101. *)
Theorem ec_io_wait_polls (port flag value : Z) (d : Dev) (l : list port_event) :
  exists k : nat,
    (k <= 100)%nat
    /\ snd (snd (ec_io_wait (traced hw) port flag value (d, l)))
       = l ++ Ev_inb port :: polls port k
    /\ fst (ec_io_wait (traced hw) port flag value (d, l))
       = fst (ec_io_wait hw port flag value d)
    /\ let r := fst (ec_io_wait_loop hw 101 port flag value
                       (fst (inb hw port d) mod 256) 0 (snd (inb hw port d))) in
       (Z.land (Z.shiftr (fst r) flag) 1 = value /\ snd r = Z.of_nat k)
       \/ (Z.land (Z.shiftr (fst r) flag) 1 <> value /\ snd r = 101 /\ k = 100%nat).
Proof.
  unfold ec_io_wait, bind. cbn [traced inb fst snd].
  destruct (inb hw port d) as [v d1]. cbn [fst snd].
  destruct (traced_wait_loop 101 port flag value (v mod 256) 0 d1 (l ++ [Ev_inb port])
              ltac:(lia) ltac:(lia)) as (k & Hk & E & P).
  exists k. split; [lia|]. rewrite E.
  destruct (ec_io_wait_loop hw 101 port flag value (v mod 256) 0 d1) as [r d2].
  cbn [fst snd] in *. rewrite <- app_assoc. cbn [app].
  split; [destruct (snd r >=? 1000); reflexivity|].
  split; [destruct (snd r >=? 1000); reflexivity|].
  destruct P as [[P1 P2]|[P1 [P2 P3]]]; [left|right]; repeat split; try assumption; lia.
Qed.



Lemma traced_io_do (cmd port value : Z) (d : Dev) (l : list port_event) :
  exists k1 k2 k3 k4 : nat,
    (k1 <= 100 /\ k2 <= 100 /\ k3 <= 100 /\ k4 <= 100)%nat
    /\ snd (snd (ec_io_do (traced hw) cmd port value (d, l)))
       = l ++ wait_events k1 ++ [Ev_outb cmd EC_SC]
           ++ wait_events k2 ++ [Ev_outb port EC_DATA]
           ++ wait_events k3 ++ [Ev_outb (value mod 256) EC_DATA]
           ++ wait_events k4
    /\ fst (snd (ec_io_do (traced hw) cmd port value (d, l)))
       = snd (ec_io_do hw cmd port value d).
Proof.
  unfold ec_io_do, bind, act.
  destruct (traced_wait EC_SC IBF 0 d l) as (k1 & H1 & E1). rewrite E1.
  destruct (ec_io_wait hw EC_SC IBF 0 d) as [r1 d1]. cbn [fst snd traced outb].
  match goal with
  | |- context [ec_io_wait (traced hw) EC_SC IBF 0 (?x, ?y)] =>
      destruct (traced_wait EC_SC IBF 0 x y) as (k2 & H2 & E2)
  end.
  rewrite E2.
  destruct (ec_io_wait hw EC_SC IBF 0 (outb hw cmd EC_SC d1)) as [r2 d2].
  cbn [fst snd].
  match goal with
  | |- context [ec_io_wait (traced hw) EC_SC IBF 0 (?x, ?y)] =>
      destruct (traced_wait EC_SC IBF 0 x y) as (k3 & H3 & E3)
  end.
  rewrite E3.
  destruct (ec_io_wait hw EC_SC IBF 0 (outb hw port EC_DATA d2)) as [r3 d3].
  cbn [fst snd].
  match goal with
  | |- context [ec_io_wait (traced hw) EC_SC IBF 0 (?x, ?y)] =>
      destruct (traced_wait EC_SC IBF 0 x y) as (k4 & H4 & E4)
  end.
  rewrite E4. cbn [fst snd].
  exists k1, k2, k3, k4. split; [lia|]. split; [|reflexivity].
  unfold wait_events. rewrite <- !app_assoc. cbn [app]. reflexivity.
Qed.

(** X6: whatever the controller does, [ec_io_do] performs, in this order: a
    wait, the write of the command to the status port, a wait, the write of
    the sub-address to the data port, a wait, the write of the value's low
    8 bits to the data port, and a final wait. *)
Theorem ec_io_do_protocol (cmd port value : Z) (d : Dev) (l : list port_event) :
  exists k1 k2 k3 k4 : nat,
    (k1 <= 100 /\ k2 <= 100 /\ k3 <= 100 /\ k4 <= 100)%nat
    /\ snd (snd (ec_io_do (traced hw) cmd port value (d, l)))
       = l ++ wait_events k1 ++ [Ev_outb cmd EC_SC]
           ++ wait_events k2 ++ [Ev_outb port EC_DATA]
           ++ wait_events k3 ++ [Ev_outb (value mod 256) EC_DATA]
           ++ wait_events k4
    /\ fst (snd (ec_io_do (traced hw) cmd port value (d, l)))
       = snd (ec_io_do hw cmd port value d).
Proof. exact (traced_io_do cmd port value d l). Qed.
End TracedFacts.

Lemma duty_to_raw_byte (p : Z) : 0 <= p <= 100 -> 0 <= duty_to_raw p <= 255.
Proof.
  intros H.
  pose proof (forallb_range _ _ duty_codec_checked p ltac:(lia)) as C.
  cbv beta in C. repeat rewrite andb_true_iff in C.
  destruct C as [[[[_ _] _] C4] C5].
  apply Z.leb_le in C4. apply Z.leb_le in C5. lia.
Qed.

(** X7: on the port backend, a duty writer called with a percentage outside
    0..100 returns [EXIT_FAILURE] without any port access; with a percentage
    in 0..100 its port writes are, in order, the command 0x99 to the status
    port, the channel selector (1 for the CPU fan, 2 for the GPU fan) to the
    data port and the byte round(p * 255 / 100) to the data port. *)
Theorem ec_write_fan_duty_port_sequence {Dev : Type} (hw : machine Dev)
    (hwmon_interface_num p : Z) (d : Dev) (l : list port_event) :
  ((p < 0 \/ 100 < p) ->
   ec_write_cpu_fan_duty (traced hw) 0 hwmon_interface_num p (d, l)
   = (EXIT_FAILURE, (d, l))
   /\ ec_write_gpu_fan_duty (traced hw) 0 hwmon_interface_num p (d, l)
      = (EXIT_FAILURE, (d, l)))
  /\ (0 <= p <= 100 ->
      outbs (snd (snd (ec_write_cpu_fan_duty (traced hw) 0 hwmon_interface_num p (d, l))))
      = outbs l ++ [(0x99, EC_SC); (0x01, EC_DATA); ((510 * p + 100) / 200, EC_DATA)]
      /\ outbs (snd (snd (ec_write_gpu_fan_duty (traced hw) 0 hwmon_interface_num p (d, l))))
         = outbs l ++ [(0x99, EC_SC); (0x02, EC_DATA); ((510 * p + 100) / 200, EC_DATA)]).
Proof.
  unfold ec_write_cpu_fan_duty, ec_write_gpu_fan_duty.
  split.
  - intros H.
    assert (G : (p <? 0) || (p >? 100) = true).
    { apply orb_true_iff. rewrite Z.gtb_ltb.
      destruct H; [left|right]; apply Z.ltb_lt; lia. }
    rewrite G. split; reflexivity.
  - intros H.
    assert (G : (p <? 0) || (p >? 100) = false).
    { apply orb_false_iff. rewrite Z.gtb_ltb. split; apply Z.ltb_ge; lia. }
    rewrite G. cbn [c_true Z.eqb negb].
    pose proof (duty_to_raw_byte p H) as B.
    assert (V : duty_to_raw p mod 256 = (510 * p + 100) / 200).
    { rewrite Z.mod_small by lia. rewrite duty_to_raw_rounds by lia.
      unfold round_div. f_equal; lia. }
    split.
    + destruct (traced_io_do hw 0x99 0x01 (duty_to_raw p) d l)
        as (k1 & k2 & k3 & k4 & _ & E & _).
      rewrite E, V. rewrite !outbs_app, !outbs_wait_events. reflexivity.
    + destruct (traced_io_do hw 0x99 0x02 (duty_to_raw p) d l)
        as (k1 & k2 & k3 & k4 & _ & E & _).
      rewrite E, V. rewrite !outbs_app, !outbs_wait_events. reflexivity.
Qed.

Lemma ec_write_fan_duty_port_sequence_witness :
  outbs (snd (snd (ec_write_cpu_fan_duty (traced stuck_ec) 0 0 70 (mkStuck 0 [], []))))
  = outbs [] ++ [(0x99, EC_SC); (0x01, EC_DATA); ((510 * 70 + 100) / 200, EC_DATA)]
  /\ outbs (snd (snd (ec_write_gpu_fan_duty (traced stuck_ec) 0 0 70 (mkStuck 0 [], []))))
     = outbs [] ++ [(0x99, EC_SC); (0x02, EC_DATA); ((510 * 70 + 100) / 200, EC_DATA)].
Proof.
  apply (proj2 (ec_write_fan_duty_port_sequence stuck_ec 0 70 (mkStuck 0 []) [])).
  lia.
Defined.

(* ===================================================================== *)
(** * Further properties: the hwmon backend *)
(* ===================================================================== *)

(** Scanning the text printed for a byte gives the byte back. *)
Lemma scan_print_byte (uninit v : Z) :
  0 <= v <= 255 -> hwmon_scan uninit (print_d v) = v.
Proof.
  intros H.
  assert (C : forallb (fun v => match scan_int (fgets 1023 (print_d v)) with
                                | Some x => x =? v
                                | None => false
                                end) (map Z.of_nat (seq 0 256)) = true)
    by (vm_compute; reflexivity).
  pose proof (forallb_range _ _ C v ltac:(lia)) as E. cbv beta in E.
  unfold hwmon_scan. destruct (scan_int (fgets 1023 (print_d v))); [|discriminate E].
  now apply Z.eqb_eq in E.
Qed.

(** X8: on sysfs files that keep what is written to them, in hwmon mode, a
    duty write with a percentage in 0..100 to an existing pwm file returns 0
    and changes that file only, and the duty query that follows returns the
    percentage written, for the CPU fan (pwm1) and the GPU fan (pwm2). *)
Theorem hwmon_duty_write_then_query
    (files : Z -> string -> option string)
    (use_hwmon_interface hwmon_interface_num uninit p : Z) :
  use_hwmon_interface <> 0 -> 0 <= p <= 100 ->
  (files hwmon_interface_num "pwm1"%string <> None ->
   let r := ec_write_cpu_fan_duty store_machine use_hwmon_interface
              hwmon_interface_num p files in
   fst r = 0
   /\ ec_query_cpu_fan_duty store_machine use_hwmon_interface hwmon_interface_num
        uninit (snd r) = (p, snd r)
   /\ forall n a, (n, a) <> (hwmon_interface_num, "pwm1"%string) ->
                  snd r n a = files n a)
  /\ (files hwmon_interface_num "pwm2"%string <> None ->
      let r := ec_write_gpu_fan_duty store_machine use_hwmon_interface
                 hwmon_interface_num p files in
      fst r = 0
      /\ ec_query_gpu_fan_duty store_machine use_hwmon_interface hwmon_interface_num
           uninit (snd r) = (p, snd r)
      /\ forall n a, (n, a) <> (hwmon_interface_num, "pwm2"%string) ->
                     snd r n a = files n a).
Proof.
  intros Huse Hp.
  assert (Ht : c_true use_hwmon_interface = true).
  { unfold c_true. apply negb_true_iff. apply Z.eqb_neq. exact Huse. }
  assert (G : (p <? 0) || (p >? 100) = false).
  { apply orb_false_iff. rewrite Z.gtb_ltb. split; apply Z.ltb_ge; lia. }
  pose proof (duty_to_raw_byte p Hp) as B.
  unfold ec_write_cpu_fan_duty, ec_write_gpu_fan_duty,
    ec_query_cpu_fan_duty, ec_query_gpu_fan_duty.
  rewrite G, Ht. cbn [store_machine fopen_wb fopen_rb fprintf_d].
  split; intros Hex;
    match goal with
    | |- context [files hwmon_interface_num ?attr] =>
        destruct (files hwmon_interface_num attr) eqn:Ef; [|contradiction]
    end;
    cbv zeta; cbn [fst snd];
    rewrite Z.eqb_refl, String.eqb_refl; cbn [andb];
    rewrite scan_print_byte by exact B;
    rewrite codec_round_trip_exact by exact Hp;
    (split; [reflexivity|]); (split; [reflexivity|]);
    intros n a Hne;
    match goal with
    | |- context [(n =? ?m) && String.eqb a ?attr] =>
        destruct (Z.eqb_spec n m) as [->|]; [|reflexivity];
        destruct (String.eqb_spec a attr) as [->|]; [|reflexivity];
        contradiction Hne; reflexivity
    end.
Qed.

Lemma hwmon_duty_write_then_query_witness :
  let files := fun (n : Z) (a : string) =>
                 if String.eqb a "pwm1" then Some "0"%string else None in
  fst (ec_write_cpu_fan_duty store_machine 1 3 70 files) = 0
  /\ ec_query_cpu_fan_duty store_machine 1 3 0
       (snd (ec_write_cpu_fan_duty store_machine 1 3 70 files))
     = (70, snd (ec_write_cpu_fan_duty store_machine 1 3 70 files)).
Proof.
  intros files.
  destruct (proj1 (hwmon_duty_write_then_query files 1 3 0 70
                     ltac:(discriminate) ltac:(lia))
              ltac:(discriminate)) as (A & B & _).
  split; [exact A | exact B].
Defined.

(* ===================================================================== *)
(** * Further properties: the stepped ladder *)
(* ===================================================================== *)

Lemma ladder_facts (s : share_info_t) :
  In (ec_auto_duty_adjust s) [30; 40; 50; 60; 70; 80; 90; 100]
  /\ (80 <= Z.max (cpu_temp s) (gpu_temp s) -> ec_auto_duty_adjust s = 100)
  /\ (75 < Z.max (cpu_temp s) (gpu_temp s) -> fan_duty s <= 100 ->
      fan_duty s <= ec_auto_duty_adjust s)
  /\ (ec_auto_duty_adjust s = fan_duty s <->
      fan_duty s = 100 /\ 75 < Z.max (cpu_temp s) (gpu_temp s)).
Proof.
  unfold ec_auto_duty_adjust.
  generalize (Z.max (cpu_temp s) (gpu_temp s)) as temp.
  generalize (fan_duty s) as duty. intros duty temp. cbv zeta.
  rewrite !Z.geb_leb, !Z.gtb_ltb.
  assert (R : temp <= 9 \/ 10 <= temp <= 15 \/ 16 <= temp <= 19
              \/ 20 <= temp <= 25 \/ 26 <= temp <= 29 \/ 30 <= temp <= 35
              \/ 36 <= temp <= 39 \/ 40 <= temp <= 45 \/ 46 <= temp <= 54
              \/ temp = 55 \/ 56 <= temp <= 59 \/ 60 <= temp <= 65
              \/ 66 <= temp <= 69 \/ 70 <= temp <= 75 \/ 76 <= temp <= 79
              \/ 80 <= temp) by lia.
  repeat destruct R as [R|R];
    repeat match goal with
           | |- context [?a <=? ?b] =>
               first [rewrite (proj2 (Z.leb_le a b)) by lia
                     | rewrite (proj2 (Z.leb_gt a b)) by lia]
           end;
    cbn [andb];
    repeat match goal with
           | |- context [if ?a <? ?b then _ else _] => destruct (Z.ltb_spec a b)
           end;
    (split; [cbn [In]; tauto|]); (split; [|split; [|split]]); lia.
Qed.

(** X9: [ec_auto_duty_adjust] always returns one of 30, 40, ..., 100; at a
    combined temperature of 80 or more it returns 100 whatever the duty;
    above 75 it never returns less than a current duty of at most 100; and
    it returns the current duty itself only when that duty is 100 and the
    temperature is above 75. *)
Theorem ec_auto_duty_adjust_range (s : share_info_t) :
  In (ec_auto_duty_adjust s) [30; 40; 50; 60; 70; 80; 90; 100]
  /\ (80 <= Z.max (cpu_temp s) (gpu_temp s) -> ec_auto_duty_adjust s = 100)
  /\ (75 < Z.max (cpu_temp s) (gpu_temp s) -> fan_duty s <= 100 ->
      fan_duty s <= ec_auto_duty_adjust s)
  /\ (ec_auto_duty_adjust s = fan_duty s <->
      fan_duty s = 100 /\ 75 < Z.max (cpu_temp s) (gpu_temp s)).
Proof. exact (ladder_facts s). Qed.

Lemma ec_auto_duty_adjust_range_witness :
  ec_auto_duty_adjust (mkShare 0 85 85 70 0 1 0 0 0) = 100.
Proof.
  apply (proj1 (proj2 (ec_auto_duty_adjust_range (mkShare 0 85 85 70 0 1 0 0 0)))).
  vm_compute. discriminate.
Defined.

(* ===================================================================== *)
(** * Further properties: one cycle of the dual-sensor loop *)
(* ===================================================================== *)

(** A cycle, seen through its decision. *)
Lemma found_cycle_decision (inp : cycle_input) (s : session) :
  let fg := cycle_fault_guard inp s in
  current (fst (found_cycle inp s))
  = fst (apply_duty inp (current s) (snd (fst fg)) (snd fg))
  /\ snd (found_cycle inp s)
     = snd (apply_duty inp (current s) (snd (fst fg)) (snd fg))
  /\ initial (fst (found_cycle inp s)) = fst (fst (cycle_resync inp s))
  /\ lastfail (fst (found_cycle inp s)) = fst (fst fg)
  /\ settings (fst (found_cycle inp s)) = settings (ctrl_reload inp s).
Proof.
  unfold cycle_fault_guard, cycle_resync, found_cycle, cycle_setDuty.
  rewrite cycle_cputemp_reload.
  destruct (ctrl_reload_frame inp s) as (Fi & Fc & _ & _ & Fr & Fl & _).
  cbv zeta in Fi, Fc, Fr, Fl. cbv zeta.
  set (s1 := ctrl_reload inp s) in *.
  set (sd := overrides s1 _).
  rewrite Fi, Fc, Fr, Fl.
  destruct (resync inp (initial s) (current s) _ sd) as [[i' doSet] setDuty].
  cbn [fst snd].
  destruct (fault_guard _ (lastfail s) doSet setDuty) as [[l' doSet'] setDuty'].
  cbn [fst snd].
  destruct (apply_duty inp (current s) doSet' setDuty') as [c' w].
  repeat split.
Qed.

Lemma overrides_cap (s : session) (setDuty : Z * Z) :
  fst (overrides s setDuty) <= 100 /\ snd (overrides s setDuty) <= 100.
Proof.
  unfold overrides. cbv zeta. cbn [fst snd]. rewrite !if_gtb_cap. lia.
Qed.

Lemma overrides_floor (s : session) (setDuty : Z * Z) :
  settings_sane s ->
  0 <= fst (overrides s setDuty) /\ 0 <= snd (overrides s setDuty).
Proof.
  intros (M0 & M1 & F0 & F1).
  unfold overrides. cbv zeta. cbn [fst snd]. rewrite !if_gtb_cap, !if_gtb_max.
  destruct (Z.eqb_spec (ctrl_setting_force_cpu s) (-1));
    destruct (Z.eqb_spec (ctrl_setting_force_gpu s) (-1)); cbn [negb]; lia.
Qed.

Lemma cycle_setDuty_cap (inp : cycle_input) (s : session) :
  fst (cycle_setDuty inp s) <= 100 /\ snd (cycle_setDuty inp s) <= 100.
Proof. unfold cycle_setDuty. cbv zeta. apply overrides_cap. Qed.

(** The attempts on a channel: between one and [n] calls of that channel's
    writer, all with the same duty; a single call when the first attempt
    succeeds and verifies. *)
Lemma write_attempts_shape (n : nat) :
  forall (j : nat) (inp : cycle_input) (i : bool) (duty : Z),
    let ev := if i then Write_gpu duty else Write_cpu duty in
    Forall (fun c => c = ev) (write_attempts n j inp i duty)
    /\ (List.length (write_attempts n j inp i duty) <= n)%nat
    /\ (n <> O -> exists rest, write_attempts n j inp i duty = ev :: rest)
    /\ (n <> O -> write_result inp i j = EXIT_SUCCESS -> verify_read inp i j = duty ->
        write_attempts n j inp i duty = [ev]).
Proof.
  induction n as [|n IH]; intros j inp i duty ev.
  - cbn. repeat split; try constructor; intros; congruence.
  - cbn [write_attempts]. fold ev.
    specialize (IH (S j) inp i duty). cbv zeta in IH. fold ev in IH.
    destruct IH as (A & B & _).
    repeat split.
    + constructor; [reflexivity|].
      destruct ((write_result inp i j =? EXIT_SUCCESS) && (verify_read inp i j =? duty));
        [constructor | exact A].
    + destruct ((write_result inp i j =? EXIT_SUCCESS) && (verify_read inp i j =? duty));
        cbn [List.length]; lia.
    + intros _. eexists. reflexivity.
    + intros _ Hw Hv. rewrite Hw, Hv, !Z.eqb_refl. reflexivity.
Qed.

(** X10: a cycle makes at most six writer calls, CPU calls first: its calls
    are none or one to three calls of the CPU writer with the duty the cycle
    leaves as the applied CPU duty, followed by none or one to three calls
    of the GPU writer with the applied GPU duty. *)
Theorem found_cycle_calls (inp : cycle_input) (s : session) :
  exists cpu_calls gpu_calls : list call,
    snd (found_cycle inp s) = cpu_calls ++ gpu_calls
    /\ (List.length cpu_calls <= 3)%nat /\ (List.length gpu_calls <= 3)%nat
    /\ Forall (fun c => c = Write_cpu (fst (current (fst (found_cycle inp s)))))
              cpu_calls
    /\ Forall (fun c => c = Write_gpu (snd (current (fst (found_cycle inp s)))))
              gpu_calls.
Proof.
  destruct (found_cycle_decision inp s) as (Ec & Ew & _).
  cbv zeta in Ec, Ew. rewrite Ec, Ew. unfold apply_duty. cbn [fst snd].
  set (fg := cycle_fault_guard inp s).
  destruct (write_attempts_shape 3 0 inp false (fst (snd fg))) as (A0 & B0 & _).
  destruct (write_attempts_shape 3 0 inp true (snd (snd fg))) as (A1 & B1 & _).
  cbv zeta in A0, A1.
  eexists. eexists. split; [reflexivity|].
  destruct (c_true (fst (snd (fst fg)))); destruct (c_true (snd (snd (fst fg))));
    repeat split; try assumption; try (cbn; lia); constructor.
Qed.

(** X11: in steady state the loop leaves the controller alone: past the
    first cycle, when the hardware reports the duties last applied, no
    temperature is below the floor and both targets equal the applied
    duties, the cycle calls no writer and keeps duties and repeat counters. *)
Theorem found_cycle_steady (inp : cycle_input) (s : session) :
  initial s = 0 ->
  cur_cpu_setting inp = fst (current s) ->
  cur_gpu_setting inp = snd (current s) ->
  temp_fail (cycle_cputemp inp s) (cycle_gputemp inp) = false ->
  cycle_setDuty inp s = current s ->
  0 <= fst (current s) -> 0 <= snd (current s) ->
  snd (found_cycle inp s) = []
  /\ current (fst (found_cycle inp s)) = current s
  /\ repeatCheck (fst (found_cycle inp s)) = repeatCheck s.
Proof.
  intros Hi H0 H1 Hf Ht P0 P1.
  destruct (cycle_setDuty_cap inp s) as [C0 C1]. rewrite Ht in C0, C1.
  destruct (found_cycle_decision inp s) as (Ec & Ew & _).
  pose proof (found_cycle_repeatCheck inp s) as Er.
  cbv zeta in Ec, Ew. rewrite Ec, Ew, Er.
  unfold cycle_fault_guard, cycle_resync. cbv zeta. rewrite Hf, Ht.
  rewrite !rate_limit_no_request by lia.
  unfold resync. rewrite Hi, H0, H1, !Z.eqb_refl.
  cbn [c_true Z.eqb negb orb fault_guard apply_duty fst snd app].
  destruct (current s), (repeatCheck s). repeat split.
Qed.

Lemma found_cycle_steady_witness :
  snd (found_cycle (sample 80 80 60 60 (60, 60)) warm_session) = []
  /\ current (fst (found_cycle (sample 80 80 60 60 (60, 60)) warm_session))
     = current warm_session
  /\ repeatCheck (fst (found_cycle (sample 80 80 60 60 (60, 60)) warm_session))
     = repeatCheck warm_session.
Proof.
  apply found_cycle_steady; vm_compute;
    first [reflexivity | discriminate].
Defined.

(** X12: every cycle with a token clears the first-cycle flag; and on the
    first cycle, unless a temperature is below the floor, both targets are
    applied as they are: the applied duties become the targets and both
    writers are called with them. *)
Theorem found_cycle_first (inp : cycle_input) (s : session) :
  initial (fst (found_cycle inp s)) = 0
  /\ (initial s <> 0 ->
      temp_fail (cycle_cputemp inp s) (cycle_gputemp inp) = false ->
      current (fst (found_cycle inp s)) = cycle_setDuty inp s
      /\ snd (found_cycle inp s)
         = write_attempts 3 0 inp false (fst (cycle_setDuty inp s))
           ++ write_attempts 3 0 inp true (snd (cycle_setDuty inp s))).
Proof.
  destruct (found_cycle_decision inp s) as (Ec & Ew & Ei & _).
  cbv zeta in Ec, Ew. rewrite Ec, Ew, Ei.
  unfold cycle_fault_guard, cycle_resync, resync. cbv zeta.
  destruct (Z.eqb_spec (initial s) 0) as [Hz|Hnz].
  - split; [|intros H; contradiction].
    rewrite Hz. cbn [c_true Z.eqb negb].
    destruct (negb (cur_cpu_setting inp =? fst (current s))
              || negb (cur_gpu_setting inp =? snd (current s))); reflexivity.
  - assert (Hc : c_true (initial s) = true).
    { unfold c_true. apply negb_true_iff, Z.eqb_neq. exact Hnz. }
    rewrite Hc. split; [reflexivity|]. intros _ Hf. rewrite Hf.
    cbn [fault_guard apply_duty c_true Z.eqb negb fst snd].
    destruct (cycle_setDuty inp s). split; reflexivity.
Qed.

Lemma found_cycle_first_witness :
  current (fst (found_cycle (sample 80 80 0 0 (60, 60)) session_start))
  = cycle_setDuty (sample 80 80 0 0 (60, 60)) session_start
  /\ snd (found_cycle (sample 80 80 0 0 (60, 60)) session_start)
     = write_attempts 3 0 (sample 80 80 0 0 (60, 60)) false
         (fst (cycle_setDuty (sample 80 80 0 0 (60, 60)) session_start))
       ++ write_attempts 3 0 (sample 80 80 0 0 (60, 60)) true
            (snd (cycle_setDuty (sample 80 80 0 0 (60, 60)) session_start)).
Proof.
  apply (proj2 (found_cycle_first (sample 80 80 0 0 (60, 60)) session_start));
    vm_compute; first [reflexivity | discriminate].
Defined.

(** X13: a re-sync never lowers a duty: past the first cycle, when the
    hardware reports a duty other than the one last applied on either
    channel and no temperature is below the floor, both channels are
    applied, each with the larger of its target and its applied duty. *)
Theorem found_cycle_resync (inp : cycle_input) (s : session) :
  initial s = 0 ->
  cur_cpu_setting inp <> fst (current s) \/ cur_gpu_setting inp <> snd (current s) ->
  temp_fail (cycle_cputemp inp s) (cycle_gputemp inp) = false ->
  current (fst (found_cycle inp s))
  = (Z.max (fst (cycle_setDuty inp s)) (fst (current s)),
     Z.max (snd (cycle_setDuty inp s)) (snd (current s)))
  /\ snd (found_cycle inp s)
     = write_attempts 3 0 inp false (Z.max (fst (cycle_setDuty inp s)) (fst (current s)))
       ++ write_attempts 3 0 inp true
            (Z.max (snd (cycle_setDuty inp s)) (snd (current s))).
Proof.
  intros Hi Hm Hf.
  destruct (found_cycle_decision inp s) as (Ec & Ew & _).
  cbv zeta in Ec, Ew. rewrite Ec, Ew.
  unfold cycle_fault_guard, cycle_resync, resync. cbv zeta. rewrite Hi, Hf.
  cbn [c_true Z.eqb negb].
  assert (G : negb (cur_cpu_setting inp =? fst (current s))
              || negb (cur_gpu_setting inp =? snd (current s)) = true).
  { apply orb_true_iff.
    destruct Hm as [H|H]; [left|right]; apply negb_true_iff, Z.eqb_neq; exact H. }
  rewrite G.
  cbn [fault_guard apply_duty c_true Z.eqb negb fst snd].
  assert (M : forall a b, (if a <? b then b else a) = Z.max a b).
  { intros a b. destruct (Z.ltb_spec a b); lia. }
  rewrite !M. split; reflexivity.
Qed.

Lemma found_cycle_resync_witness :
  current (fst (found_cycle out_of_band warm_session))
  = (Z.max (fst (cycle_setDuty out_of_band warm_session)) (fst (current warm_session)),
     Z.max (snd (cycle_setDuty out_of_band warm_session)) (snd (current warm_session)))
  /\ snd (found_cycle out_of_band warm_session)
     = write_attempts 3 0 out_of_band false
         (Z.max (fst (cycle_setDuty out_of_band warm_session))
                (fst (current warm_session)))
       ++ write_attempts 3 0 out_of_band true
            (Z.max (snd (cycle_setDuty out_of_band warm_session))
                   (snd (current warm_session))).
Proof.
  apply found_cycle_resync.
  - vm_compute. reflexivity.
  - left. vm_compute. discriminate.
  - vm_compute. reflexivity.
Defined.

Lemma rate_limit_immediate (cur target count : Z) :
  0 <= cur <= 100 ->
  (cur = 0 /\ target <> 0) \/ (cur < target /\ 50 < target)
  \/ cur + 1 < target \/ target < cur - 5 ->
  rate_limit cur target count = (1, 0).
Proof.
  intros Hc H. unfold rate_limit.
  rewrite !add32_small by (unfold INT_MIN, INT_MAX; lia).
  rewrite !Z.gtb_ltb.
  destruct (Z.eqb_spec cur 0), (Z.eqb_spec target 0),
    (Z.ltb_spec cur target), (Z.ltb_spec 50 target),
    (Z.ltb_spec (cur + 1) target), (Z.ltb_spec target (cur + -5));
    cbn [andb negb fst snd c_true Z.eqb]; try reflexivity; lia.
Qed.

(** X14: moves that are not held back.  Past the first cycle, with the
    hardware reporting the duties last applied and no temperature below the
    floor, a channel whose target leaves zero, rises above 50, rises by more
    than one point or falls by more than five points is applied in that very
    cycle: its writer is called with the target, the target becomes the
    applied duty and the channel's repeat counter is cleared. *)
Theorem found_cycle_immediate (inp : cycle_input) (s : session) :
  initial s = 0 ->
  cur_cpu_setting inp = fst (current s) ->
  cur_gpu_setting inp = snd (current s) ->
  temp_fail (cycle_cputemp inp s) (cycle_gputemp inp) = false ->
  (0 <= fst (current s) <= 100 ->
   (fst (current s) = 0 /\ fst (cycle_setDuty inp s) <> 0)
   \/ (fst (current s) < fst (cycle_setDuty inp s) /\ 50 < fst (cycle_setDuty inp s))
   \/ fst (current s) + 1 < fst (cycle_setDuty inp s)
   \/ fst (cycle_setDuty inp s) < fst (current s) - 5 ->
   fst (current (fst (found_cycle inp s))) = fst (cycle_setDuty inp s)
   /\ fst (repeatCheck (fst (found_cycle inp s))) = 0
   /\ In (Write_cpu (fst (cycle_setDuty inp s))) (snd (found_cycle inp s)))
  /\ (0 <= snd (current s) <= 100 ->
      (snd (current s) = 0 /\ snd (cycle_setDuty inp s) <> 0)
      \/ (snd (current s) < snd (cycle_setDuty inp s) /\ 50 < snd (cycle_setDuty inp s))
      \/ snd (current s) + 1 < snd (cycle_setDuty inp s)
      \/ snd (cycle_setDuty inp s) < snd (current s) - 5 ->
      snd (current (fst (found_cycle inp s))) = snd (cycle_setDuty inp s)
      /\ snd (repeatCheck (fst (found_cycle inp s))) = 0
      /\ In (Write_gpu (snd (cycle_setDuty inp s))) (snd (found_cycle inp s))).
Proof.
  intros Hi H0 H1 Hf.
  destruct (found_cycle_decision inp s) as (Ec & Ew & _).
  pose proof (found_cycle_repeatCheck inp s) as Er.
  cbv zeta in Ec, Ew. rewrite Ec, Ew, Er.
  unfold cycle_fault_guard, cycle_resync, resync. cbv zeta.
  rewrite Hi, Hf, H0, H1, !Z.eqb_refl.
  cbn [c_true Z.eqb negb orb fault_guard fst snd].
  split; intros Hc Hm; rewrite (rate_limit_immediate _ _ _ Hc Hm);
    unfold apply_duty; cbn [c_true Z.eqb negb fst snd];
    (split; [reflexivity|]); (split; [reflexivity|]); apply in_or_app.
  - left.
    destruct (write_attempts_shape 3 0 inp false (fst (cycle_setDuty inp s)))
      as (_ & _ & (rest & E) & _); [discriminate|].
    rewrite E. left. reflexivity.
  - right.
    destruct (write_attempts_shape 3 0 inp true (snd (cycle_setDuty inp s)))
      as (_ & _ & (rest & E) & _); [discriminate|].
    rewrite E. left. reflexivity.
Qed.

Lemma found_cycle_immediate_witness :
  let inp := sample 90 90 60 60 (90, 90) in
  fst (current (fst (found_cycle inp warm_session))) = fst (cycle_setDuty inp warm_session)
  /\ fst (repeatCheck (fst (found_cycle inp warm_session))) = 0
  /\ In (Write_cpu (fst (cycle_setDuty inp warm_session)))
        (snd (found_cycle inp warm_session)).
Proof.
  intros inp.
  apply (proj1 (found_cycle_immediate inp warm_session
                  ltac:(vm_compute; reflexivity) ltac:(vm_compute; reflexivity)
                  ltac:(vm_compute; reflexivity) ltac:(vm_compute; reflexivity))).
  - vm_compute. split; discriminate.
  - right. left. vm_compute. split; reflexivity.
Defined.

(* ===================================================================== *)
(** * Further properties: runs of the dual-sensor loop *)
(* ===================================================================== *)

Lemma decision_upper (inp : cycle_input) (s : session) :
  fst (current s) <= 100 -> snd (current s) <= 100 ->
  fst (snd (cycle_fault_guard inp s)) <= 100
  /\ snd (snd (cycle_fault_guard inp s)) <= 100.
Proof.
  intros C0 C1. destruct (cycle_setDuty_cap inp s) as [T0 T1].
  unfold cycle_fault_guard, cycle_resync, resync, fault_guard. cbv zeta.
  repeat match goal with
         | |- context [if ?b then _ else _] =>
             lazymatch b with
             | (_ <? _) => fail
             | _ => destruct b
             end
         end; cbn [fst snd];
    repeat match goal with
           | |- context [if ?a <? ?b then _ else _] => destruct (Z.ltb_spec a b)
           end; lia.
Qed.

Lemma decision_lower (inp : cycle_input) (s : session) :
  0 <= fst (current s) -> 0 <= snd (current s) ->
  settings_sane (ctrl_reload inp s) ->
  0 <= fst (snd (cycle_fault_guard inp s))
  /\ 0 <= snd (snd (cycle_fault_guard inp s)).
Proof.
  intros C0 C1 Hs.
  assert (T : 0 <= fst (cycle_setDuty inp s) /\ 0 <= snd (cycle_setDuty inp s)).
  { unfold cycle_setDuty. cbv zeta. apply overrides_floor. exact Hs. }
  destruct T as [T0 T1].
  unfold cycle_fault_guard, cycle_resync, resync, fault_guard. cbv zeta.
  repeat match goal with
         | |- context [if ?b then _ else _] =>
             lazymatch b with
             | (_ <? _) => fail
             | _ => destruct b
             end
         end; cbn [fst snd];
    repeat match goal with
           | |- context [if ?a <? ?b then _ else _] => destruct (Z.ltb_spec a b)
           end; lia.
Qed.

(** What a cycle applies and calls, for any property of duties that holds of
    the decided targets and of the duties applied before. *)
Lemma found_cycle_duties (P : Z -> Prop) (inp : cycle_input) (s : session) :
  P (fst (current s)) -> P (snd (current s)) ->
  P (fst (snd (cycle_fault_guard inp s))) ->
  P (snd (snd (cycle_fault_guard inp s))) ->
  P (fst (current (fst (found_cycle inp s))))
  /\ P (snd (current (fst (found_cycle inp s))))
  /\ Forall (fun c => P (call_duty c)) (snd (found_cycle inp s)).
Proof.
  intros C0 C1 D0 D1.
  destruct (found_cycle_decision inp s) as (Ec & Ew & _).
  cbv zeta in Ec, Ew. rewrite Ec, Ew. unfold apply_duty. cbn [fst snd].
  set (fg := cycle_fault_guard inp s) in *.
  destruct (write_attempts_shape 3 0 inp false (fst (snd fg))) as (A0 & _).
  destruct (write_attempts_shape 3 0 inp true (snd (snd fg))) as (A1 & _).
  cbv zeta in A0, A1.
  assert (F0 : Forall (fun c => P (call_duty c))
                 (write_attempts 3 0 inp false (fst (snd fg)))).
  { eapply Forall_impl; [|exact A0]. intros c ->. exact D0. }
  assert (F1 : Forall (fun c => P (call_duty c))
                 (write_attempts 3 0 inp true (snd (snd fg)))).
  { eapply Forall_impl; [|exact A1]. intros c ->. exact D1. }
  destruct (c_true (fst (snd (fst fg)))); destruct (c_true (snd (snd (fst fg))));
    repeat split; try assumption; apply Forall_app; split;
    try assumption; constructor.
Qed.

Lemma ctrl_reload_none (inp : cycle_input) (s : session) :
  ctrl_file inp = None -> settings (ctrl_reload inp s) = settings s.
Proof.
  intros H. unfold ctrl_reload. rewrite H.
  destruct (ctrl_check s >=? 3); reflexivity.
Qed.

Lemma settings_sane_ext (s1 s2 : session) :
  settings s1 = settings s2 -> settings_sane s2 -> settings_sane s1.
Proof.
  unfold settings, settings_sane. intros E H.
  injection E as E0 E1 E2 E3 E4 E5. rewrite E2, E3, E4, E5. exact H.
Qed.

Lemma run_upper (inputs : list cycle_input) :
  forall s : session,
    fst (current s) <= 100 -> snd (current s) <= 100 ->
    Forall (fun c => call_duty c <= 100) (snd (run inputs s)).
Proof.
  induction inputs as [|inp rest IH]; intros s C0 C1; cbn [run].
  - constructor.
  - unfold iteration.
    destruct (missing s >? 5).
    + cbn. constructor; [cbn; lia|]. constructor; [cbn; lia|]. constructor.
    + destruct (stdin_tokens inp).
      * specialize (IH (missed_cycle s) C0 C1).
        destruct (run rest (missed_cycle s)) as [o c]. exact IH.
      * destruct (decision_upper inp s C0 C1) as [D0 D1].
        destruct (found_cycle_duties (fun d => d <= 100) inp s C0 C1 D0 D1)
          as (N0 & N1 & F).
        destruct (found_cycle inp s) as [s' c]. cbn [fst snd] in *.
        specialize (IH s' N0 N1).
        destruct (run rest s') as [o c']. cbn [snd] in *.
        apply Forall_app. split; assumption.
Qed.

Lemma run_range (inputs : list cycle_input) :
  forall s : session,
    0 <= fst (current s) <= 100 -> 0 <= snd (current s) <= 100 ->
    settings_sane s ->
    Forall (fun inp => ctrl_file inp = None) inputs ->
    Forall (fun c => 0 <= call_duty c <= 100) (snd (run inputs s)).
Proof.
  induction inputs as [|inp rest IH]; intros s C0 C1 Hs Hn; cbn [run].
  - constructor.
  - inversion Hn as [|? ? Hinp Hrest]; subst.
    unfold iteration.
    destruct (missing s >? 5).
    + cbn. constructor; [cbn; lia|]. constructor; [cbn; lia|]. constructor.
    + destruct (stdin_tokens inp).
      * specialize (IH (missed_cycle s) C0 C1 Hs Hrest).
        destruct (run rest (missed_cycle s)) as [o c]. exact IH.
      * assert (Hs1 : settings_sane (ctrl_reload inp s)).
        { apply (settings_sane_ext _ s); [apply ctrl_reload_none; exact Hinp | exact Hs]. }
        destruct (decision_upper inp s ltac:(lia) ltac:(lia)) as [D0 D1].
        destruct (decision_lower inp s ltac:(lia) ltac:(lia) Hs1) as [L0 L1].
        destruct (found_cycle_duties (fun d => 0 <= d <= 100) inp s C0 C1
                    (conj L0 D0) (conj L1 D1)) as (N0 & N1 & F).
        destruct (found_cycle_decision inp s) as (_ & _ & _ & _ & Est).
        assert (Hs' : settings_sane (fst (found_cycle inp s))).
        { apply (settings_sane_ext _ (ctrl_reload inp s)); assumption. }
        destruct (found_cycle inp s) as [s' c]. cbn [fst snd] in *.
        specialize (IH s' N0 N1 Hs' Hrest).
        destruct (run rest s') as [o c']. cbn [snd] in *.
        apply Forall_app. split; assumption.
Qed.

(** X15: along any run that starts with applied duties of at most 100 (as
    the loop does, at 0), every duty handed to a writer is at most 100; if
    moreover the applied duties start non-negative, the floors are
    non-negative, the forced values are absent or non-negative and no cycle
    reads a control file, every duty handed to a writer lies in 0..100, so
    that the writers never refuse one. *)
Theorem run_duties_bounded (inputs : list cycle_input) (s : session) :
  fst (current s) <= 100 -> snd (current s) <= 100 ->
  Forall (fun c => call_duty c <= 100) (snd (run inputs s))
  /\ (0 <= fst (current s) -> 0 <= snd (current s) -> settings_sane s ->
      Forall (fun inp => ctrl_file inp = None) inputs ->
      Forall (fun c => 0 <= call_duty c <= 100) (snd (run inputs s))).
Proof.
  intros C0 C1. split.
  - apply run_upper; assumption.
  - intros P0 P1 Hs Hn. apply run_range; try assumption; lia.
Qed.

Lemma run_duties_bounded_witness :
  Forall (fun c => 0 <= call_duty c <= 100)
         (snd (run [sample 80 80 0 0 (60, 60); sample 5 30 60 60 (43, 21)]
                   session_start)).
Proof.
  apply (proj2 (run_duties_bounded
                  [sample 80 80 0 0 (60, 60); sample 5 30 60 60 (43, 21)]
                  session_start ltac:(cbn; lia) ltac:(cbn; lia))).
  - cbn. lia.
  - cbn. lia.
  - unfold settings_sane. cbn. lia.
  - repeat constructor.
Defined.

Lemma found_cycle_bookkeeping (inp : cycle_input) (s : session) :
  missing (fst (found_cycle inp s)) = 0
  /\ ctrl_check (fst (found_cycle inp s)) = ctrl_check (ctrl_reload inp s).
Proof.
  unfold found_cycle.
  set (s1 := ctrl_reload inp s).
  destruct (resync inp (initial s1) (current s1) _ _) as [[i' doSet] setDuty].
  destruct (fault_guard _ (lastfail s1) doSet setDuty) as [[l' doSet'] setDuty'].
  destruct (apply_duty inp (current s1) doSet' setDuty') as [c' w].
  split; reflexivity.
Qed.

Lemma iteration_exit (inp : cycle_input) (s : session) :
  5 < missing s -> iteration inp s = (Exit 1, [Write_gpu 70; Write_cpu 70]).
Proof.
  intros H. unfold iteration. rewrite Z.gtb_ltb.
  destruct (Z.ltb_spec 5 (missing s)); [reflexivity | lia].
Qed.

Lemma iteration_continue (inp : cycle_input) (s : session) :
  missing s <= 5 ->
  exists s' c, iteration inp s = (Continue s', c)
               /\ missing s' = streak (missing s) [inp].
Proof.
  intros H. unfold iteration, streak. cbn [fold_left]. rewrite Z.gtb_ltb.
  destruct (Z.ltb_spec 5 (missing s)); [lia|].
  destruct (stdin_tokens inp).
  - eexists. eexists. split; reflexivity.
  - pose proof (proj1 (found_cycle_bookkeeping inp s)) as M.
    destruct (found_cycle inp s) as [s' c]. eexists. eexists.
    split; [reflexivity | exact M].
Qed.

Lemma streak_cons (m : Z) (inp : cycle_input) (rest : list cycle_input) :
  streak m (inp :: rest) = streak (streak m [inp]) rest.
Proof. reflexivity. Qed.

(** X16: the loop ends only through its missing-input exit.  If a run
    exits, its status is 1, its last two calls are the GPU and the CPU
    writer with 70, and the exiting iteration was entered after more than
    five consecutive iterations without a token; and a run in which no
    iteration is entered after such a streak does not exit. *)
Theorem run_exit_only_on_missing_input (inputs : list cycle_input) (s : session) :
  (forall status calls,
      run inputs s = (Exit status, calls) ->
      status = 1
      /\ exists pre inp post s1 calls0,
           inputs = pre ++ inp :: post
           /\ run pre s = (Continue s1, calls0)
           /\ 5 < streak (missing s) pre
           /\ calls = calls0 ++ [Write_gpu 70; Write_cpu 70])
  /\ ((forall pre inp post, inputs = pre ++ inp :: post -> streak (missing s) pre <= 5) ->
      exists s' calls, run inputs s = (Continue s', calls)
                       /\ missing s' = streak (missing s) inputs).
Proof.
  split.
  - revert s. induction inputs as [|x rest IH]; intros s status calls H.
    + discriminate H.
    + cbn [run] in H.
      destruct (Z.le_gt_cases (missing s) 5) as [Hle|Hgt].
      * destruct (iteration_continue x s Hle) as (s2 & cc & E & M).
        rewrite E in H.
        destruct (run rest s2) as [o c'] eqn:R.
        injection H as -> <-.
        destruct (IH s2 status c' R)
          as (St & pre & inp & post & s1 & c0 & Ein & Rp & Hs & Ec).
        split; [exact St|].
        exists (x :: pre), inp, post, s1, (cc ++ c0).
        repeat split.
        -- rewrite Ein. reflexivity.
        -- cbn [run]. rewrite E, Rp. reflexivity.
        -- rewrite streak_cons, <- M. exact Hs.
        -- rewrite Ec, app_assoc. reflexivity.
      * rewrite (iteration_exit x s ltac:(lia)) in H.
        injection H as <- <-. split; [reflexivity|].
        exists [], x, rest, s, []. repeat split. cbn. lia.
  - revert s. induction inputs as [|x rest IH]; intros s H.
    + exists s, []. split; reflexivity.
    + pose proof (H [] x rest eq_refl) as H0. cbn in H0.
      destruct (iteration_continue x s H0) as (s2 & cc & E & M).
      destruct (IH s2) as (s' & c' & R & M').
      { intros pre inp post Ein. rewrite M, <- streak_cons.
        apply (H (x :: pre) inp post). rewrite Ein. reflexivity. }
      exists s', (cc ++ c'). cbn [run]. rewrite E, R.
      split; [reflexivity|]. rewrite M', M. reflexivity.
Qed.

Lemma run_exit_only_on_missing_input_witness :
  1 = 1
  /\ exists pre inp post s1 calls0,
       repeat silent 7 = pre ++ inp :: post
       /\ run pre session_start = (Continue s1, calls0)
       /\ 5 < streak (missing session_start) pre
       /\ [Write_gpu 70; Write_cpu 70] = calls0 ++ [Write_gpu 70; Write_cpu 70].
Proof.
  apply (proj1 (run_exit_only_on_missing_input (repeat silent 7) session_start)
           1 [Write_gpu 70; Write_cpu 70]).
  reflexivity.
Defined.

(* ===================================================================== *)
(** * Further properties: the control file *)
(* ===================================================================== *)

Lemma strip_prefix_app (key : string) :
  forall b r : string, strip_prefix key b = Some r -> b = (key ++ r)%string.
Proof.
  induction key as [|k key IH]; intros b r H; cbn [strip_prefix] in H.
  - injection H as ->. reflexivity.
  - destruct b as [|c b]; [discriminate H|].
    destruct (Ascii.eqb_spec k c) as [->|]; [|discriminate H].
    cbn [String.append]. f_equal. apply IH. exact H.
Qed.

Lemma ctrl_update_changed (guard key b : string) (v : Z) :
  ctrl_update guard key b v <> v -> exists r, strip_prefix key b = Some r.
Proof.
  unfold ctrl_update, sscanf_key. intros H.
  destruct (strip_prefix guard b); [|contradiction].
  destruct (strip_prefix key b) as [r|]; [|contradiction].
  exists r. reflexivity.
Qed.

Lemma settings_ctrl_line (s : session) (b : string) :
  settings (ctrl_line s b)
  = [ctrl_update "offset_cpu" "offset_cpu" b (ctrl_setting_offset_cpu s);
     ctrl_update "offset_gpu" "offset_gpu" b (ctrl_setting_offset_gpu s);
     ctrl_update "min_cpu" "min_cpu" b (ctrl_setting_min_cpu s);
     ctrl_update "min_gpu" "min_gpu" b (ctrl_setting_min_gpu s);
     ctrl_update "force_c" "force_cpu" b (ctrl_setting_force_cpu s);
     ctrl_update "force_g" "force_gpu" b (ctrl_setting_force_gpu s)].
Proof. reflexivity. Qed.

(** X17: one pass over a control-file buffer changes at most one of the six
    settings, changes none when the buffer starts with none of the six key
    words or when no integer follows the key word, and never touches the
    controller's own state (applied duties, smoothed temperatures,
    counters). *)
Theorem ctrl_line_one_setting (s : session) (b : string) :
  (differences (settings s) (settings (ctrl_line s b)) <= 1)%nat
  /\ ((forall key, In key ["offset_cpu"; "offset_gpu"; "min_cpu"; "min_gpu";
                           "force_cpu"; "force_gpu"]%string ->
                   match strip_prefix key b with
                   | Some rest => scan_int rest = None
                   | None => True
                   end) ->
      settings (ctrl_line s b) = settings s)
  /\ (initial (ctrl_line s b) = initial s /\ current (ctrl_line s b) = current s
      /\ lastCPU (ctrl_line s b) = lastCPU s /\ lastGPU (ctrl_line s b) = lastGPU s
      /\ repeatCheck (ctrl_line s b) = repeatCheck s
      /\ lastfail (ctrl_line s b) = lastfail s /\ missing (ctrl_line s b) = missing s
      /\ ctrl_check (ctrl_line s b) = ctrl_check s).
Proof.
  split; [|split; [|repeat split]].
  - rewrite settings_ctrl_line. unfold settings. cbn [differences].
    repeat match goal with
           | |- context [?v =? ctrl_update ?g ?k b ?v] =>
               let H := fresh "U" in
               destruct (Z.eqb_spec v (ctrl_update g k b v)) as [_|H];
               [|apply not_eq_sym, ctrl_update_changed in H; destruct H as [? H];
                 apply strip_prefix_app in H]
           end;
      try lia;
      exfalso;
      repeat match goal with
             | H1 : b = _, H2 : b = _ |- _ =>
                 rewrite H1 in H2; cbn in H2; congruence
             end.
  - intros H. rewrite settings_ctrl_line. unfold settings.
    assert (K : forall guard key v,
               In key ["offset_cpu"; "offset_gpu"; "min_cpu"; "min_gpu";
                       "force_cpu"; "force_gpu"]%string ->
               ctrl_update guard key b v = v).
    { intros guard key v Hin. specialize (H key Hin).
      unfold ctrl_update, sscanf_key.
      destruct (strip_prefix guard b); [|reflexivity].
      destruct (strip_prefix key b); [|reflexivity].
      rewrite H. reflexivity. }
    rewrite !K by (cbn; tauto). reflexivity.
Qed.

Lemma ctrl_line_one_setting_witness :
  settings (ctrl_line session_start "# fan control") = settings session_start.
Proof.
  apply (proj1 (proj2 (ctrl_line_one_setting session_start "# fan control"))).
  intros key Hin. cbn in Hin.
  repeat destruct Hin as [<-|Hin]; try exact I; contradiction.
Defined.

Lemma settings_fold (bs : list string) :
  forall s1 s2 : session,
    settings s1 = settings s2 ->
    settings (fold_left ctrl_line bs s1) = settings (fold_left ctrl_line bs s2).
Proof.
  induction bs as [|b bs IH]; intros s1 s2 E; cbn [fold_left]; [exact E|].
  apply IH. rewrite !settings_ctrl_line.
  unfold settings in E. injection E as -> -> -> -> -> ->. reflexivity.
Qed.

Lemma found_cycle_settings (inp : cycle_input) (s : session) :
  (ctrl_check s < 3 ->
   settings (fst (found_cycle inp s)) = settings s
   /\ ctrl_check (fst (found_cycle inp s)) = ctrl_check s + 1)
  /\ (3 <= ctrl_check s ->
      settings (fst (found_cycle inp s))
      = settings (match ctrl_file inp with
                  | Some buffers => fold_left ctrl_line buffers s
                  | None => s
                  end)
      /\ ctrl_check (fst (found_cycle inp s)) = 0).
Proof.
  destruct (found_cycle_decision inp s) as (_ & _ & _ & _ & Es).
  destruct (found_cycle_bookkeeping inp s) as (_ & Ek).
  rewrite Es, Ek. unfold ctrl_reload.
  split; intros H; destruct (Z.geb_spec (ctrl_check s) 3); try lia.
  - split; reflexivity.
  - destruct (ctrl_file inp) as [bs|]; [|split; reflexivity].
    split.
    + apply settings_fold. reflexivity.
    + match goal with
      | |- context [fold_left ctrl_line bs ?s1] =>
          destruct (ctrl_lines_frame bs s1) as (_ & _ & _ & _ & _ & _ & _ & E)
      end.
      rewrite E. reflexivity.
Qed.

Lemma iteration_found (inp : cycle_input) (s : session) :
  missing s <= 5 -> stdin_tokens inp <> [] ->
  iteration inp s = (Continue (fst (found_cycle inp s)), snd (found_cycle inp s)).
Proof.
  intros H Ht. unfold iteration. rewrite Z.gtb_ltb.
  destruct (Z.ltb_spec 5 (missing s)); [lia|].
  destruct (stdin_tokens inp); [contradiction|].
  destruct (found_cycle inp s). reflexivity.
Qed.

(** X18: the control file is consulted on every fourth cycle that finds a
    token.  Starting with the file counter at zero, three cycles with a
    token leave the six settings as they are, whatever a control file would
    hold, and the fourth takes them from the passes over its control file
    (or keeps them when the file cannot be opened) and resets the counter. *)
Theorem control_file_every_fourth_cycle
    (i1 i2 i3 i4 : cycle_input) (s : session) :
  ctrl_check s = 0 -> missing s <= 5 ->
  stdin_tokens i1 <> [] -> stdin_tokens i2 <> [] ->
  stdin_tokens i3 <> [] -> stdin_tokens i4 <> [] ->
  exists s3 calls3 s4 calls4,
    run [i1; i2; i3] s = (Continue s3, calls3)
    /\ settings s3 = settings s
    /\ run [i1; i2; i3; i4] s = (Continue s4, calls4)
    /\ settings s4
       = settings (match ctrl_file i4 with
                   | Some buffers => fold_left ctrl_line buffers s
                   | None => s
                   end)
    /\ ctrl_check s4 = 0.
Proof.
  intros Hk Hm T1 T2 T3 T4.
  set (s1 := fst (found_cycle i1 s)).
  set (s2 := fst (found_cycle i2 s1)).
  set (s3 := fst (found_cycle i3 s2)).
  set (s4 := fst (found_cycle i4 s3)).
  destruct (proj1 (found_cycle_settings i1 s) ltac:(lia)) as [E1 K1].
  destruct (proj1 (found_cycle_settings i2 s1) ltac:(unfold s1; lia)) as [E2 K2].
  destruct (proj1 (found_cycle_settings i3 s2) ltac:(unfold s2, s1 in *; lia))
    as [E3 K3].
  destruct (proj2 (found_cycle_settings i4 s3) ltac:(unfold s3, s2, s1 in *; lia))
    as [E4 K4].
  pose proof (proj1 (found_cycle_bookkeeping i1 s)) as M1.
  pose proof (proj1 (found_cycle_bookkeeping i2 s1)) as M2.
  pose proof (proj1 (found_cycle_bookkeeping i3 s2)) as M3.
  fold s1 in E1, K1, M1. fold s2 in E2, K2, M2. fold s3 in E3, K3, M3.
  fold s4 in E4, K4.
  assert (S3 : settings s3 = settings s) by (rewrite E3, E2, E1; reflexivity).
  eexists s3, _, s4, _.
  cbn [run].
  rewrite (iteration_found i1 s Hm T1). fold s1.
  rewrite (iteration_found i2 s1 ltac:(lia) T2). fold s2.
  rewrite (iteration_found i3 s2 ltac:(lia) T3). fold s3.
  rewrite (iteration_found i4 s3 ltac:(lia) T4). fold s4.
  split; [reflexivity|]. split; [exact S3|]. split; [reflexivity|].
  split; [|exact K4].
  rewrite E4. destruct (ctrl_file i4) as [bs|]; [|exact S3].
  apply settings_fold. exact S3.
Qed.

Lemma control_file_every_fourth_cycle_witness :
  exists s3 calls3 s4 calls4,
    run (firstn 3 forced_run) session_start = (Continue s3, calls3)
    /\ settings s3 = settings session_start
    /\ run forced_run session_start = (Continue s4, calls4)
    /\ settings s4
       = settings (fold_left ctrl_line ["force_cpu -5"%string] session_start)
    /\ ctrl_check s4 = 0.
Proof.
  apply (control_file_every_fourth_cycle
           (sample 80 80 0 0 (60, 60)) (sample 80 80 60 60 (60, 60))
           (sample 80 80 60 60 (60, 60))
           (mkInput [80] (Some ["force_cpu -5"%string]) (fun _ => 80) 60 60
              (fun i _ => if i then EXIT_SUCCESS else EXIT_FAILURE) (fun _ _ => 60))
           session_start); cbn; first [reflexivity | lia | discriminate].
Defined.

(* ===================================================================== *)
(** * Further properties: the privileged worker *)
(* ===================================================================== *)

Lemma ladder_nonzero (s : share_info_t) : (ec_auto_duty_adjust s =? 0) = false.
Proof.
  apply Z.eqb_neq. destruct (ladder_facts s) as (H & _).
  cbn [In] in H. lia.
Qed.

(** The ladder reads three fields only. *)
Lemma ladder_ext (a b : share_info_t) :
  cpu_temp a = cpu_temp b -> gpu_temp a = gpu_temp b -> fan_duty a = fan_duty b ->
  ec_auto_duty_adjust a = ec_auto_duty_adjust b.
Proof. intros H1 H2 H3. unfold ec_auto_duty_adjust. rewrite H1, H2, H3. reflexivity. Qed.

(** An uninterrupted iteration, in closed form. *)
(** One step of an iteration, and its end. *)
Lemma worker_iteration_step (n : nat) (e : worker_env) (pc pc1 pc2 : worker_pc)
    (sh sh1 sh2 : share_info_t) (w1 w2 : list call) :
  match pc with W_loop_test _ | W_quit => False | _ => True end ->
  worker_step e pc sh = (pc1, sh1, w1) ->
  worker_iteration n e pc1 sh1 = (pc2, sh2, w2) ->
  worker_iteration (S n) e pc sh = (pc2, sh2, w1 ++ w2).
Proof.
  intros R H1 H2.
  destruct pc; try contradiction; cbn [worker_iteration]; rewrite H1, H2; reflexivity.
Qed.

Lemma worker_iteration_stop (n : nat) (e : worker_env) (b : bool) (sh : share_info_t) :
  worker_iteration n e (W_loop_test b) sh = (W_loop_test b, sh, []).
Proof. destruct n; reflexivity. Qed.

(** An uninterrupted iteration, in closed form. *)
Lemma worker_iteration_closed (e : worker_env) (sh : share_info_t) :
  parent_gone e = false ->
  worker_iteration 15 e W_check_parent sh
  = let manual := negb (manual_next_fan_duty sh =? 0)
                  && negb (manual_next_fan_duty sh =? manual_prev_fan_duty sh) in
    let sh1 := if manual
               then set_manual_prev_fan_duty (manual_next_fan_duty sh) sh else sh in
    let sh2 := if fread_len e =? 0x100
               then set_fan_rpms (calculate_fan_rpms (buf e EC_REG_CPU_FAN_RPMS_HI)
                                                     (buf e EC_REG_CPU_FAN_RPMS_LO))
                      (set_fan_duty (calculate_fan_duty (buf e EC_REG_CPU_FAN_DUTY))
                         (set_gpu_temp (buf e EC_REG_GPU_TEMP)
                            (set_cpu_temp (buf e EC_REG_CPU_TEMP) sh1)))
               else sh1 in
    let auto := (auto_duty sh2 =? 1)
                && negb (ec_auto_duty_adjust sh2 =? auto_duty_val sh2) in
    (W_loop_test (fopen_ok e),
     if auto then set_auto_duty_val (ec_auto_duty_adjust sh2) sh2 else sh2,
     (if manual then [Write_cpu (manual_next_fan_duty sh)] else [])
     ++ (if auto then [Write_cpu (ec_auto_duty_adjust sh2)] else [])).
Proof.
  intros Hp. cbv zeta.
  destruct (negb (manual_next_fan_duty sh =? 0)
            && negb (manual_next_fan_duty sh =? manual_prev_fan_duty sh)) eqn:Hm;
    destruct (fread_len e =? 256) eqn:Hf;
    match goal with
    | |- _ = (_, (if (auto_duty ?x =? 1) && _ then _ else _), _) =>
        destruct (auto_duty x =? 1) eqn:Ha;
        [destruct (ec_auto_duty_adjust x =? auto_duty_val x) eqn:Hv|]
    end;
    (etransitivity;
     [ repeat (eapply worker_iteration_step;
               [ exact I
               | cbn [worker_step];
                 rewrite ?Hp, ?Hm, ?Hf, ?Ha, ?Hv, ?ladder_nonzero;
                 cbn [negb andb]; reflexivity
               | ]);
       apply worker_iteration_stop
     | cbn [app negb andb]; reflexivity ]).
Qed.

(** X19: one uninterrupted iteration of the worker whose parent is alive
    ends at the next loop test and leaves the exit flag, the mode flag and
    the manual request as they were.  After a full 256-byte read the
    telemetry fields are the decoded registers 0x07, 0xCD, 0xCE and
    0xD0/0xD1; after any other read they are unchanged.  In automatic mode
    the iteration ends with auto_duty_val equal to the ladder's answer on
    the published telemetry, and the CPU writer is called with that answer
    exactly when it differs from the auto_duty_val found. *)
Theorem worker_iteration_effect (e : worker_env) (sh : share_info_t) :
  parent_gone e = false ->
  let r := worker_iteration 15 e W_check_parent sh in
  let sh' := snd (fst r) in
  fst (fst r) = W_loop_test (fopen_ok e)
  /\ (exit sh' = exit sh /\ auto_duty sh' = auto_duty sh
      /\ manual_next_fan_duty sh' = manual_next_fan_duty sh)
  /\ (fread_len e = 0x100 ->
      cpu_temp sh' = buf e EC_REG_CPU_TEMP
      /\ gpu_temp sh' = buf e EC_REG_GPU_TEMP
      /\ fan_duty sh' = calculate_fan_duty (buf e EC_REG_CPU_FAN_DUTY)
      /\ fan_rpms sh' = calculate_fan_rpms (buf e EC_REG_CPU_FAN_RPMS_HI)
                                           (buf e EC_REG_CPU_FAN_RPMS_LO))
  /\ (fread_len e <> 0x100 ->
      cpu_temp sh' = cpu_temp sh /\ gpu_temp sh' = gpu_temp sh
      /\ fan_duty sh' = fan_duty sh /\ fan_rpms sh' = fan_rpms sh)
  /\ (auto_duty sh = 1 -> auto_duty_val sh' = ec_auto_duty_adjust sh')
  /\ (auto_duty sh <> 1 -> auto_duty_val sh' = auto_duty_val sh)
  /\ snd r
     = (if negb (manual_next_fan_duty sh =? 0)
           && negb (manual_next_fan_duty sh =? manual_prev_fan_duty sh)
        then [Write_cpu (manual_next_fan_duty sh)] else [])
       ++ (if (auto_duty sh =? 1)
              && negb (ec_auto_duty_adjust sh' =? auto_duty_val sh)
           then [Write_cpu (ec_auto_duty_adjust sh')] else []).
Proof.
  intros Hp. cbv zeta. rewrite (worker_iteration_closed e sh Hp). cbv zeta.
  set (manual := negb (manual_next_fan_duty sh =? 0)
                 && negb (manual_next_fan_duty sh =? manual_prev_fan_duty sh)).
  set (sh1 := if manual then _ else sh).
  set (sh2 := if fread_len e =? 256 then _ else sh1).
  assert (F1 : exit sh1 = exit sh /\ auto_duty sh1 = auto_duty sh
               /\ manual_next_fan_duty sh1 = manual_next_fan_duty sh
               /\ auto_duty_val sh1 = auto_duty_val sh
               /\ cpu_temp sh1 = cpu_temp sh /\ gpu_temp sh1 = gpu_temp sh
               /\ fan_duty sh1 = fan_duty sh /\ fan_rpms sh1 = fan_rpms sh).
  { unfold sh1. destruct manual; cbn; repeat split. }
  destruct F1 as (X1 & X2 & X3 & X4 & X5 & X6 & X7 & X8).
  assert (F2 : exit sh2 = exit sh /\ auto_duty sh2 = auto_duty sh
               /\ manual_next_fan_duty sh2 = manual_next_fan_duty sh
               /\ auto_duty_val sh2 = auto_duty_val sh).
  { unfold sh2. destruct (fread_len e =? 256); cbn; repeat split; assumption. }
  destruct F2 as (Y1 & Y2 & Y3 & Y4).
  rewrite Y2, Y4.
  set (next := ec_auto_duty_adjust sh2).
  set (auto := (auto_duty sh =? 1) && negb (next =? auto_duty_val sh)).
  set (sh3 := if auto then set_auto_duty_val next sh2 else sh2).
  assert (F3 : exit sh3 = exit sh2 /\ auto_duty sh3 = auto_duty sh2
               /\ manual_next_fan_duty sh3 = manual_next_fan_duty sh2
               /\ cpu_temp sh3 = cpu_temp sh2 /\ gpu_temp sh3 = gpu_temp sh2
               /\ fan_duty sh3 = fan_duty sh2 /\ fan_rpms sh3 = fan_rpms sh2).
  { unfold sh3. destruct auto; cbn; repeat split. }
  destruct F3 as (Z1 & Z2 & Z3 & Z4 & Z5 & Z6 & Z7).
  assert (N : ec_auto_duty_adjust sh3 = next).
  { apply ladder_ext; assumption. }
  cbn [fst snd]. rewrite N.
  split; [reflexivity|].
  split; [repeat split; congruence|].
  split.
  { intros Hl. rewrite Z4, Z5, Z6, Z7. unfold sh2. rewrite Hl. cbn. repeat split. }
  split.
  { intros Hl. rewrite Z4, Z5, Z6, Z7. unfold sh2.
    destruct (Z.eqb_spec (fread_len e) 256); [contradiction|].
    repeat split; assumption. }
  split.
  { intros Ha. unfold sh3, auto. rewrite Ha.
    destruct (Z.eqb_spec next (auto_duty_val sh)) as [Hv|Hv];
      cbn [Z.eqb Pos.eqb andb negb auto_duty_val set_auto_duty_val].
    - rewrite Y4. symmetry. exact Hv.
    - reflexivity. }
  split.
  { intros Ha. unfold sh3, auto.
    destruct (Z.eqb_spec (auto_duty sh) 1); [contradiction|].
    cbn [andb]. exact Y4. }
  reflexivity.
Qed.

Lemma worker_iteration_effect_witness :
  fst (fst (worker_iteration 15 (dump 85 128) W_check_parent main_init_share))
  = W_loop_test (fopen_ok (dump 85 128)).
Proof.
  apply (proj1 (worker_iteration_effect (dump 85 128) main_init_share eq_refl)).
Defined.

(** A request that is zero, or equal to the last request written, is not
    written. *)
Lemma manual_condition_settled (next prev : Z) :
  let manual := negb (next =? 0) && negb (next =? prev) in
  negb (next =? 0) && negb (next =? (if manual then next else prev)) = false.
Proof.
  cbv zeta.
  destruct (Z.eqb_spec next 0) as [H0|H0]; cbn [negb andb]; [reflexivity|].
  destruct (Z.eqb_spec next prev) as [Hp|Hp]; cbn [negb].
  - rewrite Hp, Z.eqb_refl. reflexivity.
  - rewrite Z.eqb_refl. reflexivity.
Qed.

(** X20: with automatic mode off, an uninterrupted iteration of the worker
    calls the CPU writer with the manual request when the request is
    non-zero and differs from the last request written, and makes no call
    otherwise -- in particular none for a request equal to the last one
    written, whatever the fan duty has become since.  It records a non-zero
    request as written, so the iteration that follows under the same request
    makes no call at all. *)
Theorem manual_request_written_once (e1 e2 : worker_env) (sh : share_info_t) :
  parent_gone e1 = false -> parent_gone e2 = false ->
  auto_duty sh <> 1 ->
  let r1 := worker_iteration 15 e1 W_check_parent sh in
  let r2 := worker_iteration 15 e2 W_check_parent (snd (fst r1)) in
  snd r1 = (if negb (manual_next_fan_duty sh =? 0)
               && negb (manual_next_fan_duty sh =? manual_prev_fan_duty sh)
            then [Write_cpu (manual_next_fan_duty sh)] else [])
  /\ (manual_next_fan_duty sh <> 0 ->
      manual_prev_fan_duty (snd (fst r1)) = manual_next_fan_duty sh)
  /\ (manual_next_fan_duty sh = 0 ->
      manual_prev_fan_duty (snd (fst r1)) = manual_prev_fan_duty sh)
  /\ snd r2 = [].
Proof.
  intros Hp1 Hp2 Ha. cbv zeta.
  rewrite (worker_iteration_closed e1 sh Hp1). cbv zeta. cbn [fst snd].
  set (next := manual_next_fan_duty sh).
  set (prev := manual_prev_fan_duty sh).
  set (manual := negb (next =? 0) && negb (next =? prev)).
  set (sh1 := if manual then set_manual_prev_fan_duty next sh else sh).
  set (sh2 := if fread_len e1 =? 256 then _ else sh1).
  assert (F1 : auto_duty sh1 = auto_duty sh /\ manual_next_fan_duty sh1 = next
               /\ manual_prev_fan_duty sh1 = if manual then next else prev).
  { unfold sh1. destruct manual; repeat split. }
  destruct F1 as (X1 & X2 & X3).
  assert (F2 : auto_duty sh2 = auto_duty sh /\ manual_next_fan_duty sh2 = next
               /\ manual_prev_fan_duty sh2 = if manual then next else prev).
  { unfold sh2. destruct (fread_len e1 =? 256);
      cbn [auto_duty manual_next_fan_duty manual_prev_fan_duty
           set_fan_rpms set_fan_duty set_gpu_temp set_cpu_temp];
      repeat split; assumption. }
  destruct F2 as (Y1 & Y2 & Y3).
  assert (A : (auto_duty sh2 =? 1) = false).
  { rewrite Y1. apply Z.eqb_neq. exact Ha. }
  rewrite A. cbn [andb]. rewrite app_nil_r.
  split; [reflexivity|].
  split.
  { intros Hn. rewrite Y3. unfold manual.
    destruct (Z.eqb_spec next 0) as [H0|H0]; [contradiction|]. cbn [negb andb].
    destruct (Z.eqb_spec next prev) as [E|E]; cbn [negb]; [symmetry; exact E | reflexivity]. }
  split.
  { intros Hn. rewrite Y3. unfold manual. fold next in Hn. rewrite Hn. reflexivity. }
  rewrite (worker_iteration_closed e2 sh2 Hp2). cbv zeta. cbn [snd].
  pose proof (manual_condition_settled next prev) as M. cbv zeta in M. fold manual in M.
  rewrite Y2, Y3, M. cbn [app].
  match goal with
  | |- (if (auto_duty ?x =? 1) && _ then _ else _) = _ =>
      assert (B : (auto_duty x =? 1) = false)
  end.
  { destruct (fread_len e2 =? 256);
      cbn [auto_duty set_fan_rpms set_fan_duty set_gpu_temp set_cpu_temp];
      exact A. }
  rewrite B. reflexivity.
Qed.

Lemma manual_request_written_once_witness :
  snd (worker_iteration 15 (dump 85 128) W_check_parent
         (mkShare 0 0 0 0 0 0 0 70 0)) = [Write_cpu 70]
  /\ snd (worker_iteration 15 (dump 85 128) W_check_parent
            (snd (fst (worker_iteration 15 (dump 85 128) W_check_parent
                         (mkShare 0 0 0 0 0 0 0 70 0))))) = [].
Proof.
  pose proof (manual_request_written_once (dump 85 128) (dump 85 128)
                (mkShare 0 0 0 0 0 0 0 70 0) eq_refl eq_refl ltac:(discriminate))
    as (H1 & _ & _ & H2).
  split; [exact H1 | exact H2].
Defined.

(** With the exit flag set, every step brings the worker closer to its
    end. *)
Lemma worker_step_towards_quit (e : worker_env) (pc : worker_pc) (sh : share_info_t) :
  exit sh <> 0 ->
  (steps_to_quit (fst (fst (worker_step e pc sh))) <= Nat.pred (steps_to_quit pc))%nat.
Proof.
  intros H.
  destruct pc; cbn [worker_step];
    repeat match goal with
           | |- context [if ?b then _ else _] => destruct b eqn:?
           end;
    cbn [fst steps_to_quit Nat.pred]; lia.
Qed.

(** X21: once the exit flag is non-zero, the worker is at its end after at
    most 15 of its own steps, however these are interleaved with signal
    handlers and with steps of the presentation side, and whatever the
    register file and the parent do: from program point pc,
    steps_to_quit pc worker steps are enough. *)
Theorem worker_quits_after_exit (ls : list label) (c : config) :
  exit (share_info c) <> 0 ->
  (steps_to_quit (wpc c) <= worker_steps_in ls)%nat ->
  wpc (interleave ls c) = W_quit.
Proof.
  revert c. induction ls as [|l ls IH]; intros c He Hn.
  - cbn [worker_steps_in] in Hn. cbn [interleave fold_left].
    destruct (wpc c); cbn [steps_to_quit] in Hn; try lia. reflexivity.
  - change (interleave (l :: ls) c) with (interleave ls (step l c)).
    apply IH.
    + exact (exit_stays_set [l] c He).
    + destruct l; cbn [worker_steps_in] in Hn.
      * pose proof (worker_step_towards_quit e (wpc c) (share_info c) He) as T.
        cbn [step].
        destruct (worker_step e (wpc c) (share_info c)) as [[pc sh'] w].
        cbn [fst wpc] in *. lia.
      * cbn [step]. destruct (wpc c) eqn:E; cbn [wpc]; rewrite ?E; exact Hn.
      * cbn [step]. destruct (ppc c); cbn [wpc]; exact Hn.
      * cbn [step]. destruct (ppc c); cbn [wpc]; exact Hn.
      * exact Hn.
      * cbn [step]. destruct (ppc c); cbn [wpc]; exact Hn.
      * cbn [step]. destruct (ppc c); cbn [wpc]; exact Hn.
      * exact Hn.
Qed.

Lemma worker_quits_after_exit_witness :
  wpc (interleave (repeat (Worker_step (dump 85 128)) 15)
         (step Ui_quit config_after_auto)) = W_quit.
Proof.
  apply worker_quits_after_exit; vm_compute; [discriminate | lia].
Defined.

(* ===================================================================== *)
(** * Further properties: the menu and the interface discovery *)
(* ===================================================================== *)

(** X22: on the menu table, [ui_toggle_menuitems] called with 0 makes the
    AUTO entry insensitive and nothing else; called with 60, 70, 80, 90 or
    100 it makes the entry of that percentage insensitive and nothing else;
    called with any other value (the measured fan duty at start-up can be
    one) it leaves every entry sensitive. *)
Theorem ui_toggle_menuitems_table (fan_duty : Z) :
  insensitive menuitems (ui_toggle_menuitems menuitems fan_duty)
  = if fan_duty =? 0 then ["Set FAN to AUTO"%string]
    else if fan_duty =? 60 then ["Set FAN to  60%"%string]
    else if fan_duty =? 70 then ["Set FAN to  70%"%string]
    else if fan_duty =? 80 then ["Set FAN to  80%"%string]
    else if fan_duty =? 90 then ["Set FAN to  90%"%string]
    else if fan_duty =? 100 then ["Set FAN to 100%"%string]
    else [].
Proof.
  unfold ui_toggle_menuitems, menuitems.
  cbn [map widget negb type_ option_ label_ MenuItemType_eqb orb].
  replace (wrap32 0) with 0 by (vm_compute; reflexivity).
  replace (wrap32 60) with 60 by (vm_compute; reflexivity).
  replace (wrap32 70) with 70 by (vm_compute; reflexivity).
  replace (wrap32 80) with 80 by (vm_compute; reflexivity).
  replace (wrap32 90) with 90 by (vm_compute; reflexivity).
  replace (wrap32 100) with 100 by (vm_compute; reflexivity).
  rewrite !(Z.eqb_sym _ fan_duty).
  destruct (Z.eqb_spec fan_duty 0) as [->|H0]; [reflexivity|].
  destruct (Z.eqb_spec fan_duty 60) as [->|H60]; [reflexivity|].
  destruct (Z.eqb_spec fan_duty 70) as [->|H70]; [reflexivity|].
  destruct (Z.eqb_spec fan_duty 80) as [->|H80]; [reflexivity|].
  destruct (Z.eqb_spec fan_duty 90) as [->|H90]; [reflexivity|].
  destruct (Z.eqb_spec fan_duty 100) as [->|H100]; reflexivity.
Qed.

(** X23: the discovery loop of [main] tries the interfaces in ascending
    order from the one it starts at.  If the first [n] name files exist and
    none of them reads as the wanted name, the loop ends at interface
    [i + n]: without a result when that name file cannot be opened, and with
    that interface when its first line is the wanted name.  (The counter is
    an [int]; the statement covers interface numbers up to [INT_MAX].) *)
Theorem hwmon_find_first (names : Z -> option string) (i : Z) (n fuel : nat) :
  (forall j : nat, (j < n)%nat ->
     exists text, names (i + Z.of_nat j) = Some text
                  /\ String.eqb (fgets 1023 text) clevo_name = false) ->
  (n < fuel)%nat ->
  i + Z.of_nat n <= INT_MAX ->
  (names (i + Z.of_nat n) = None -> hwmon_find fuel names i = Some None)
  /\ (forall text, names (i + Z.of_nat n) = Some text ->
        fgets 1023 text = clevo_name ->
        hwmon_find fuel names i = Some (Some (i + Z.of_nat n))).
Proof.
  revert i fuel. induction n as [|n IH]; intros i fuel Hbefore Hfuel Hmax.
  - destruct fuel as [|fuel]; [lia|]. cbn [hwmon_find].
    replace (i + Z.of_nat 0) with i by lia.
    split.
    + intros E. rewrite E. reflexivity.
    + intros text E Ht. rewrite E, Ht, String.eqb_refl. reflexivity.
  - destruct fuel as [|fuel]; [lia|]. cbn [hwmon_find].
    destruct (Hbefore 0%nat ltac:(lia)) as (t0 & E0 & N0).
    replace (i + Z.of_nat 0) with i in E0 by lia.
    rewrite E0, N0.
    replace (i + Z.of_nat (S n)) with ((i + 1) + Z.of_nat n) by lia.
    apply IH; [|lia|lia].
    intros j Hj. destruct (Hbefore (S j) ltac:(lia)) as (t & E & N).
    exists t. split; [|exact N].
    replace (i + 1 + Z.of_nat j) with (i + Z.of_nat (S j)) by lia. exact E.
Qed.

Lemma hwmon_find_first_witness :
  hwmon_find 8
    (fun i => if i =? 0 then Some "coretemp"%string
              else if i =? 1 then Some clevo_name else None) 0
  = Some (Some (0 + Z.of_nat 1)).
Proof.
  refine (proj2 (hwmon_find_first _ 0 1 8 _ _ _) clevo_name eq_refl eq_refl).
  - intros j Hj. exists "coretemp"%string.
    destruct j as [|j]; [split; reflexivity | lia].
  - lia.
  - vm_compute. discriminate.
Defined.

(* ===================================================================== *)
(** * Further properties: the diagnostics *)
(* ===================================================================== *)

Section Logs.
Context {Dev : Type}.
Variable hw : machine Dev.

Lemma logs_ret {A : Type} (a : A) : logs (Dev := Dev) (ret a) (ret a) [].
Proof. intros d l. exists []. rewrite app_nil_r. split; reflexivity. Qed.

Lemma logs_bind {A B : Type} (c : Dev -> A * Dev) c' (k : A -> Dev -> B * Dev) k'
    (w1 w2 : list (Z * Z)) :
  logs c c' w1 -> (forall a, logs (k a) (k' a) w2) ->
  logs (bind c k) (bind c' k') (w1 ++ w2).
Proof.
  intros H1 H2 d l. unfold bind.
  destruct (H1 d l) as (ev1 & E1 & O1). rewrite E1.
  destruct (c d) as [a d1]. cbn [fst snd].
  destruct (H2 a d1 (l ++ ev1)) as (ev2 & E2 & O2). rewrite E2.
  exists (ev1 ++ ev2). rewrite app_assoc, outbs_app, O1, O2. split; reflexivity.
Qed.

Lemma logs_wait (port flag value : Z) :
  logs (ec_io_wait hw port flag value) (ec_io_wait (traced hw) port flag value) [].
Proof.
  intros d l. destruct (traced_wait hw port flag value d l) as (k & _ & E).
  exists (Ev_inb port :: polls port k). split; [exact E|].
  cbn [outbs]. apply outbs_polls.
Qed.

Lemma logs_outb (value port : Z) :
  logs (act (outb hw value port)) (act (outb (traced hw) value port)) [(value, port)].
Proof. intros d l. exists [Ev_outb value port]. split; reflexivity. Qed.

Lemma logs_inb (port : Z) : logs (inb hw port) (inb (traced hw) port) [].
Proof.
  intros d l. exists [Ev_inb port]. cbn [traced inb fst snd].
  destruct (inb hw port d) as [v d1]. split; reflexivity.
Qed.

Lemma logs_io_read (port : Z) :
  logs (ec_io_read hw port) (ec_io_read (traced hw) port) (read_of port).
Proof.
  unfold ec_io_read, read_of.
  change [(EC_SC_READ_CMD, EC_SC); (port, EC_DATA)]
    with ([] ++ [(EC_SC_READ_CMD, EC_SC)] ++ [] ++ [(port, EC_DATA)] ++ [] ++ []
          ++ @nil (Z * Z)).
  repeat (apply logs_bind; [|intros ?]);
    first [apply logs_wait | apply logs_outb | apply logs_inb | apply logs_ret].
Qed.

Lemma logs_io_do (cmd port value : Z) :
  logs (ec_io_do hw cmd port value) (ec_io_do (traced hw) cmd port value)
       [(cmd, EC_SC); (port, EC_DATA); (value mod 256, EC_DATA)].
Proof.
  unfold ec_io_do.
  change [(cmd, EC_SC); (port, EC_DATA); (value mod 256, EC_DATA)]
    with ([] ++ [(cmd, EC_SC)] ++ [] ++ [(port, EC_DATA)] ++ []
          ++ [(value mod 256, EC_DATA)] ++ @nil (Z * Z)).
  repeat (apply logs_bind; [|intros ?]);
    first [apply logs_wait | apply logs_outb].
Qed.

(** A computation that only opens a sysfs attribute for reading. *)
Lemma logs_fopen_rb {A : Type} (num : Z) (attr : string) (none : A) (some : string -> A) :
  logs (fun d => match fopen_rb hw num attr d with
                 | None => (none, d)
                 | Some text => (some text, d)
                 end)
       (fun d => match fopen_rb (traced hw) num attr d with
                 | None => (none, d)
                 | Some text => (some text, d)
                 end) [].
Proof.
  intros d l. exists []. rewrite app_nil_r. cbn [traced fopen_rb fst].
  destruct (fopen_rb hw num attr d); split; reflexivity.
Qed.

Lemma logs_read_then {A : Type} (port : Z) (f : Z -> A) :
  logs (bind (ec_io_read hw port) (fun v => ret (f v)))
       (bind (ec_io_read (traced hw) port) (fun v => ret (f v))) (read_of port).
Proof.
  rewrite <- (app_nil_r (read_of port)).
  apply logs_bind; [apply logs_io_read | intros a; apply logs_ret].
Qed.

Lemma logs_read2_then {A : Type} (hi lo : Z) (f : Z -> Z -> A) :
  logs (bind (ec_io_read hw hi) (fun a => bind (ec_io_read hw lo) (fun b => ret (f a b))))
       (bind (ec_io_read (traced hw) hi)
             (fun a => bind (ec_io_read (traced hw) lo) (fun b => ret (f a b))))
       (read_of hi ++ read_of lo).
Proof.
  apply logs_bind; [apply logs_io_read | intros a; apply logs_read_then].
Qed.

(** The queries of [main_dump_fan], in order, on either backend. *)
Lemma logs_queries (use_hwmon_interface hwmon_interface_num uninit : Z) :
  let port := negb (c_true use_hwmon_interface) in
  let on_port (ws : list (Z * Z)) := if port then ws else [] in
  logs (ec_query_cpu_temp hw use_hwmon_interface hwmon_interface_num uninit)
       (ec_query_cpu_temp (traced hw) use_hwmon_interface hwmon_interface_num uninit)
       (on_port (read_of EC_REG_CPU_TEMP))
  /\ logs (ec_query_cpu_fan_duty hw use_hwmon_interface hwmon_interface_num uninit)
          (ec_query_cpu_fan_duty (traced hw) use_hwmon_interface hwmon_interface_num uninit)
          (on_port (read_of EC_REG_CPU_FAN_DUTY))
  /\ logs (ec_query_cpu_fan_rpms hw use_hwmon_interface hwmon_interface_num uninit)
          (ec_query_cpu_fan_rpms (traced hw) use_hwmon_interface hwmon_interface_num uninit)
          (on_port (read_of EC_REG_CPU_FAN_RPMS_HI ++ read_of EC_REG_CPU_FAN_RPMS_LO))
  /\ logs (ec_query_gpu_temp hw) (ec_query_gpu_temp (traced hw))
          (read_of EC_REG_GPU_TEMP)
  /\ logs (ec_query_gpu_fan_duty hw use_hwmon_interface hwmon_interface_num uninit)
          (ec_query_gpu_fan_duty (traced hw) use_hwmon_interface hwmon_interface_num uninit)
          (on_port (read_of EC_REG_GPU_FAN_DUTY))
  /\ logs (ec_query_gpu_fan_rpms hw use_hwmon_interface hwmon_interface_num uninit)
          (ec_query_gpu_fan_rpms (traced hw) use_hwmon_interface hwmon_interface_num uninit)
          (on_port (read_of EC_REG_GPU_FAN_RPMS_HI ++ read_of EC_REG_GPU_FAN_RPMS_LO)).
Proof.
  cbv zeta.
  unfold ec_query_cpu_temp, ec_query_cpu_fan_duty, ec_query_cpu_fan_rpms,
    ec_query_gpu_temp, ec_query_gpu_fan_duty, ec_query_gpu_fan_rpms.
  destruct (c_true use_hwmon_interface); cbn [negb];
    repeat split;
    first [ apply logs_fopen_rb | apply logs_io_read
          | apply logs_read_then | apply logs_read2_then ].
Qed.

(** [main_dump_fan] on the instrumented machine. *)
Lemma logs_main_dump_fan (use_hwmon_interface hwmon_interface_num uninit : Z) :
  let on_port (ws : list (Z * Z)) :=
    if negb (c_true use_hwmon_interface) then ws else [] in
  logs (main_dump_fan hw use_hwmon_interface hwmon_interface_num uninit)
       (main_dump_fan (traced hw) use_hwmon_interface hwmon_interface_num uninit)
       (on_port (read_of EC_REG_CPU_TEMP)
        ++ on_port (read_of EC_REG_CPU_FAN_DUTY)
        ++ on_port (read_of EC_REG_CPU_FAN_RPMS_HI ++ read_of EC_REG_CPU_FAN_RPMS_LO)
        ++ read_of EC_REG_GPU_TEMP
        ++ on_port (read_of EC_REG_GPU_FAN_DUTY)
        ++ on_port (read_of EC_REG_GPU_FAN_RPMS_HI ++ read_of EC_REG_GPU_FAN_RPMS_LO)).
Proof.
  cbv zeta.
  destruct (logs_queries use_hwmon_interface hwmon_interface_num uninit)
    as (Q1 & Q2 & Q3 & Q4 & Q5 & Q6).
  cbv zeta in Q1, Q2, Q3, Q5, Q6.
  intros d l. unfold main_dump_fan.
  destruct (Q1 d l) as (ev1 & E1 & O1). rewrite E1.
  destruct (ec_query_cpu_temp hw use_hwmon_interface hwmon_interface_num uninit d)
    as [v1 d1]. cbn [fst snd].
  destruct (Q2 d1 (l ++ ev1)) as (ev2 & E2 & O2). rewrite E2.
  destruct (ec_query_cpu_fan_duty hw use_hwmon_interface hwmon_interface_num uninit d1)
    as [v2 d2]. cbn [fst snd].
  destruct (Q3 d2 ((l ++ ev1) ++ ev2)) as (ev3 & E3 & O3). rewrite E3.
  destruct (ec_query_cpu_fan_rpms hw use_hwmon_interface hwmon_interface_num uninit d2)
    as [v3 d3]. cbn [fst snd].
  destruct (Q4 d3 (((l ++ ev1) ++ ev2) ++ ev3)) as (ev4 & E4 & O4). rewrite E4.
  destruct (ec_query_gpu_temp hw d3) as [v4 d4]. cbn [fst snd].
  destruct (Q5 d4 ((((l ++ ev1) ++ ev2) ++ ev3) ++ ev4)) as (ev5 & E5 & O5). rewrite E5.
  destruct (ec_query_gpu_fan_duty hw use_hwmon_interface hwmon_interface_num uninit d4)
    as [v5 d5]. cbn [fst snd].
  destruct (Q6 d5 (((((l ++ ev1) ++ ev2) ++ ev3) ++ ev4) ++ ev5)) as (ev6 & E6 & O6).
  rewrite E6.
  destruct (ec_query_gpu_fan_rpms hw use_hwmon_interface hwmon_interface_num uninit d5)
    as [v6 d6]. cbn [fst snd].
  exists (ev1 ++ ev2 ++ ev3 ++ ev4 ++ ev5 ++ ev6).
  rewrite !outbs_app, O1, O2, O3, O4, O5, O6, <- !app_assoc.
  split; reflexivity.
Qed.
End Logs.

Lemma main_dump_fan_status {Dev : Type} (hw : machine Dev)
    (use_hwmon_interface hwmon_interface_num uninit : Z) (d : Dev) :
  fst (fst (main_dump_fan hw use_hwmon_interface hwmon_interface_num uninit d))
  = EXIT_SUCCESS.
Proof.
  unfold main_dump_fan.
  destruct (ec_query_cpu_temp _ _ _ _ _) as [v1 d1].
  destruct (ec_query_cpu_fan_duty _ _ _ _ _) as [v2 d2].
  destruct (ec_query_cpu_fan_rpms _ _ _ _ _) as [v3 d3].
  destruct (ec_query_gpu_temp _ _) as [v4 d4].
  destruct (ec_query_gpu_fan_duty _ _ _ _ _) as [v5 d5].
  destruct (ec_query_gpu_fan_rpms _ _ _ _ _) as [v6 d6].
  reflexivity.
Qed.

(** X24: [main_dump_fan] returns [EXIT_SUCCESS] whatever it reads.  On the
    port backend it performs eight register reads, of 0x07, 0xCE, 0xD0,
    0xD1, 0xCD, 0xCF, 0xD2 and 0xD3 in this order, each as the read command
    0x80 on the status port followed by the offset on the data port, and it
    writes nothing else to a port.  On the hwmon backend it still performs
    one register read through the ports: that of the GPU temperature 0xCD,
    for which there is no hwmon branch. *)
Theorem main_dump_fan_register_reads {Dev : Type} (hw : machine Dev)
    (use_hwmon_interface hwmon_interface_num uninit : Z)
    (d : Dev) (l : list port_event) :
  let r := main_dump_fan (traced hw) use_hwmon_interface hwmon_interface_num uninit
             (d, l) in
  fst r = (EXIT_SUCCESS,
           snd (fst (main_dump_fan hw use_hwmon_interface hwmon_interface_num uninit d)))
  /\ fst (snd r)
     = snd (main_dump_fan hw use_hwmon_interface hwmon_interface_num uninit d)
  /\ outbs (snd (snd r))
     = outbs l ++ (if c_true use_hwmon_interface then read_of EC_REG_GPU_TEMP
                   else List.concat (map read_of dump_registers)).
Proof.
  cbv zeta.
  destruct (logs_main_dump_fan hw use_hwmon_interface hwmon_interface_num uninit d l)
    as (evs & E & O).
  rewrite E. cbn [fst snd]. rewrite outbs_app, O.
  split.
  { rewrite (surjective_pairing (fst (main_dump_fan hw _ _ _ d))) at 1.
    rewrite main_dump_fan_status. reflexivity. }
  split; [reflexivity|].
  destruct (c_true use_hwmon_interface); reflexivity.
Qed.

Lemma logs_write_fan_duty {Dev : Type} (hw : machine Dev)
    (hwmon_interface_num p : Z) :
  let ws (sel : Z) :=
    if (p <? 0) || (p >? 100) then []
    else [(0x99, EC_SC); (sel, EC_DATA); ((510 * p + 100) / 200, EC_DATA)] in
  logs (ec_write_cpu_fan_duty hw 0 hwmon_interface_num p)
       (ec_write_cpu_fan_duty (traced hw) 0 hwmon_interface_num p) (ws 0x01)
  /\ logs (ec_write_gpu_fan_duty hw 0 hwmon_interface_num p)
          (ec_write_gpu_fan_duty (traced hw) 0 hwmon_interface_num p) (ws 0x02).
Proof.
  cbv zeta. unfold ec_write_cpu_fan_duty, ec_write_gpu_fan_duty.
  destruct ((p <? 0) || (p >? 100)) eqn:G.
  - split; apply logs_ret.
  - apply orb_false_iff in G. destruct G as [G1 G2].
    apply Z.ltb_ge in G1. rewrite Z.gtb_ltb in G2. apply Z.ltb_ge in G2.
    assert (H : 0 <= p <= 100) by lia.
    pose proof (duty_to_raw_byte p H) as B.
    assert (V : duty_to_raw p mod 256 = (510 * p + 100) / 200).
    { rewrite Z.mod_small by lia. rewrite duty_to_raw_rounds by lia.
      unfold round_div. f_equal; lia. }
    cbn [c_true Z.eqb negb]. rewrite <- V.
    split; apply logs_io_do.
Qed.

(** X25: on the port backend, [main_test_cpu_fan] and [main_test_gpu_fan]
    return [EXIT_SUCCESS] whether or not the write is accepted.  For a
    percentage in 0..100 their port writes are the command 0x99, the channel
    selector (1 or 2) and the byte round(p * 255 / 100), followed by the
    eight register reads of the dump; for any other percentage only the
    reads of the dump happen and nothing is written to a fan. *)
Theorem main_test_fan_port_writes {Dev : Type} (hw : machine Dev)
    (hwmon_interface_num uninit p : Z) (d : Dev) (l : list port_event) :
  let ws (sel : Z) :=
    if (p <? 0) || (p >? 100) then []
    else [(0x99, EC_SC); (sel, EC_DATA); ((510 * p + 100) / 200, EC_DATA)] in
  let rc := main_test_cpu_fan (traced hw) 0 hwmon_interface_num uninit p (d, l) in
  let rg := main_test_gpu_fan (traced hw) 0 hwmon_interface_num uninit p (d, l) in
  fst (fst rc) = EXIT_SUCCESS /\ fst (fst rg) = EXIT_SUCCESS
  /\ outbs (snd (snd rc)) = outbs l ++ ws 0x01 ++ List.concat (map read_of dump_registers)
  /\ outbs (snd (snd rg)) = outbs l ++ ws 0x02 ++ List.concat (map read_of dump_registers).
Proof.
  cbv zeta. unfold main_test_cpu_fan, main_test_gpu_fan.
  destruct (logs_write_fan_duty hw hwmon_interface_num p) as (Wc & Wg).
  cbv zeta in Wc, Wg.
  destruct (Wc d l) as (ec & Ec & Oc). destruct (Wg d l) as (eg & Eg & Og).
  rewrite Ec, Eg.
  destruct (logs_main_dump_fan hw 0 hwmon_interface_num uninit
              (snd (ec_write_cpu_fan_duty hw 0 hwmon_interface_num p d)) (l ++ ec))
    as (dc & Dc & Odc).
  destruct (logs_main_dump_fan hw 0 hwmon_interface_num uninit
              (snd (ec_write_gpu_fan_duty hw 0 hwmon_interface_num p d)) (l ++ eg))
    as (dg & Dg & Odg).
  rewrite Dc, Dg. cbn [fst snd].
  rewrite !outbs_app, Oc, Og, Odc, Odg, <- !app_assoc.
  repeat split; reflexivity.
Qed.
